(** * flask-chatbot: the retrieval-and-citation engine

    A shallow embedding of [agent_service.py] (retrieval, citation
    extraction, answer assembly) and [chroma1.py] (index naming, chunk
    metadata, retry with backoff, the ingestion loop), with the properties
    of the specification proved over it.

    Conventions.
    - A Python [str] is a [string]; a character stands for the code point
      of the same number, so the development covers the texts whose code
      points are below 256.  Whitespace, line boundaries and case folding
      are Python's, restricted to that range.
    - A Python [int] is a [Z]; a distance score is a binary64 [float].
    - A [dict] used as a map is a [gmap]; an [OrderedDict] used as an
      ordered set of keys is the list of its keys in insertion order.
    - External collaborators (the vector index, the PDF loader, the DOCX
      converter, the text splitter, the reasoning loop) are fields of an
      environment record; every call this code makes to them is logged in
      a trace.

    The development goes on to the code around the engine: the registry
    and the tools [agent_service.py] builds at start, the views of
    [app.py] with the chat log of [excel_store.py], and the script
    [evaluate_chroma_quality.py]. *)

From Stdlib Require Import ZArith Lia Bool List Ascii String.
From Stdlib Require Import Numbers.DecimalString.
From Stdlib Require Import Floats.PrimFloat.
From Stdlib Require Import Numbers.Cyclic.Int63.PrimInt63.
From stdpp Require Import base option list gmap strings.

Local Open Scope Z_scope.

(** ** Python strings *)

Module Py.

Definition LF : ascii := "010"%char.
Definition CR : ascii := "013"%char.
Definition nl : string := String LF "".

(** [str.isspace] on one character: the Unicode whitespace below 256. *)
Definition isspace (c : ascii) : bool :=
  let n := nat_of_ascii c in
  ((9 <=? n) && (n <=? 13) || (28 <=? n) && (n <=? 32)
   || (n =? 133) || (n =? 160))%nat.

(** The line boundaries of [str.splitlines] below 256. *)
Definition islinebreak (c : ascii) : bool :=
  let n := nat_of_ascii c in
  ((10 <=? n) && (n <=? 13) || (28 <=? n) && (n <=? 30) || (n =? 133))%nat.

Fixpoint lstrip (s : string) : string :=
  match s with
  | "" => ""
  | String c s' => if isspace c then lstrip s' else s
  end.

Fixpoint rstrip (s : string) : string :=
  match s with
  | "" => ""
  | String c s' =>
      match rstrip s' with
      | "" => if isspace c then "" else String c ""
      | r => String c r
      end
  end.

(** [s.strip()] *)
Definition strip (s : string) : string := lstrip (rstrip s).

(** [s.startswith(p)] *)
Definition startswith (p s : string) : bool := String.prefix p s.

(** [s[n:]] for [0 <= n] *)
Fixpoint drop (n : nat) (s : string) : string :=
  match n, s with
  | O, _ => s
  | S _, "" => ""
  | S n', String _ s' => drop n' s'
  end.

(** [s[:n]] for [0 <= n] *)
Fixpoint take (n : nat) (s : string) : string :=
  match n, s with
  | O, _ => ""
  | S _, "" => ""
  | S n', String c s' => String c (take n' s')
  end.

(** [s.endswith(p)] *)
Definition endswith (p s : string) : bool :=
  (String.length p <=? String.length s)%nat
  && String.eqb (drop (String.length s - String.length p) s) p.

(** [sub in s] *)
Fixpoint contains (sub s : string) : bool :=
  String.prefix sub s
  || match s with
     | "" => false
     | String _ s' => contains sub s'
     end.

(** [s.split(sep, 1)[1]] when [sep] occurs in [s]: the text after the
    leftmost occurrence. *)
Fixpoint after_first (sep s : string) : option string :=
  if String.prefix sep s then Some (drop (String.length sep) s)
  else match s with
       | "" => None
       | String _ s' => after_first sep s'
       end.

(** The segments between line boundaries, the last one possibly empty;
    a carriage return followed by a line feed is one boundary. *)
Fixpoint segments (s : string) : list string :=
  match s with
  | "" => [""]
  | String c s' =>
      if islinebreak c then
        "" :: (if Ascii.eqb c CR
               then match s' with
                    | String c' s'' =>
                        if Ascii.eqb c' LF then segments s'' else segments s'
                    | "" => segments s'
                    end
               else segments s')
      else match segments s' with
           | l :: ls => String c l :: ls
           | [] => [String c ""]
           end
  end.

Fixpoint drop_last_empty (l : list string) : list string :=
  match l with
  | [] => []
  | [x] => if String.eqb x "" then [] else [x]
  | x :: l' => x :: drop_last_empty l'
  end.

(** [s.splitlines()]: no empty line is reported after the last boundary. *)
Definition splitlines (s : string) : list string :=
  drop_last_empty (segments s).

(** [c.lower()] below 256: the ASCII capitals and the Latin-1 ones. *)
Definition lower_char (c : ascii) : ascii :=
  let n := nat_of_ascii c in
  if ((65 <=? n) && (n <=? 90)
      || (192 <=? n) && (n <=? 222) && negb (n =? 215))%nat
  then ascii_of_nat (n + 32) else c.

(** [s.lower()] *)
Fixpoint lower (s : string) : string :=
  match s with
  | "" => ""
  | String c s' => String (lower_char c) (lower s')
  end.

(** [sep.join(l)] *)
Definition join (sep : string) (l : list string) : string :=
  String.concat sep l.

(** [str(n)] for an [int] *)
Definition str_of_int (n : Z) : string :=
  NilZero.string_of_int (Z.to_int n).

(** [s.rfind(".")], as the number of characters before the last dot. *)
Fixpoint rfind_dot (s : string) : option nat :=
  match s with
  | "" => None
  | String c s' =>
      match rfind_dot s' with
      | Some i => Some (S i)
      | None => if Ascii.eqb c "."%char then Some O else None
      end
  end.

(** A regular expression as [re] needs it here: a sequence of items, each
    one character class, taken once or repeated ([*]).  [matches_here]
    tells whether some match of the sequence starts at the head of the
    text, trying every number of repetitions as the backtracking matcher
    does. *)
Inductive re_item : Type :=
  | One (p : ascii -> bool)
  | Star (p : ascii -> bool).

Fixpoint matches_here (r : list re_item) (s : string) {struct r} : bool :=
  match r with
  | [] => true
  | One p :: r' =>
      match s with
      | String c s' => p c && matches_here r' s'
      | "" => false
      end
  | Star p :: r' =>
      (fix star (s : string) : bool :=
         matches_here r' s
         || match s with
            | String c s' => p c && star s'
            | "" => false
            end) s
  end.

(** The items matching a literal text. *)
Fixpoint lit (s : string) : list re_item :=
  match s with
  | "" => []
  | String c s' => One (Ascii.eqb c) :: lit s'
  end.

(** [re.split(r, s, maxsplit=1)[0]]: the text before the leftmost match,
    the whole text when there is none. *)
Fixpoint before_first_match (r : list re_item) (s : string) : string :=
  if matches_here r s then ""
  else match s with
       | "" => ""
       | String c s' => String c (before_first_match r s')
       end.

End Py.

(** ** Documents and their metadata *)

(** The metadata values this code base writes and reads: text, integers
    and [None]. *)
Inductive MetaVal : Type :=
  | MStr (s : string)
  | MInt (n : Z)
  | MNone.

#[global] Instance MetaVal_eq_dec : EqDecision MetaVal.
Proof. solve_decision. Defined.

(** [str(v)], as an f-string renders a value. *)
Definition py_str (v : MetaVal) : string :=
  match v with
  | MStr s => s
  | MInt n => Py.str_of_int n
  | MNone => "None"
  end.

(** A langchain [Document]; [metadata] may be [None]. *)
Record Document : Type := mkDocument {
  page_content : string;
  metadata : option (gmap string MetaVal)
}.

(** [l[:k]] for any integer [k]: a negative [k] counts from the end. *)
Definition slice_to {A} (k : Z) (l : list A) : list A :=
  if 0 <=? k then firstn (Z.to_nat k) l
  else firstn (length l - Z.to_nat (- k)) l.

(** [d[key] = None] on an [OrderedDict] read through [keys()]: a new key
    goes last, a known key keeps its place. *)
Definition od_set (keys : list string) (key : string) : list string :=
  if bool_decide (key ∈ keys) then keys else keys ++ [key].

(** ** agent_service.py *)

Module AgentService.

(** A persisted Chroma index, by what a query gets from it: for each query
    text the stored documents with their distances, as the index ranks
    them.  [similarity_search_with_score(query, k)] returns the first [k]
    of them. *)
Record Chroma : Type := mkChroma {
  persist_directory : string;
  ranking : string -> list (Document * float)
}.

(** The calls to external services, as the trace records them. *)
Inductive Event : Type :=
  | EvSearchWithScore (dir query : string) (k : nat)
  | EvSearch (dir query : string) (k : nat)
  | EvAgentInvoke (question style_examples : string).

(** A computation with its trace. *)
Definition W (A : Type) : Type := A * list Event.
Definition ret {A} (a : A) : W A := (a, []).
Definition bind {A B} (m : W A) (f : A -> W B) : W B :=
  let (b, t) := f (fst m) in (b, snd m ++ t).

Notation "x <~ m ;; k" := (bind m (fun x => k))
  (at level 100, m at next level, right associativity).

Definition similarity_search_with_score (vs : Chroma) (query : string)
    (k : nat) : W (list (Document * float)) :=
  (firstn k (ranking vs query),
   [EvSearchWithScore (persist_directory vs) query k]).

Definition similarity_search (vs : Chroma) (query : string) (k : nat)
    : W (list Document) :=
  (map fst (firstn k (ranking vs query)),
   [EvSearch (persist_directory vs) query k]).

(** The result dictionary of a search. *)
Record RetrievalResult : Type := mkResult {
  context : string;
  citations : list string
}.

#[local] Set Warnings "-inexact-float".
(** The distance threshold, the binary64 number the literal [0.38]
    denotes. *)
Definition threshold : float := 0.38%float.
#[local] Set Warnings "+inexact-float".

(** Lines 83-86: the candidates fetched, filtered and truncated. *)
Definition kept_docs (docs_with_scores : list (Document * float)) (k : Z)
    : list Document :=
  slice_to k
    (map fst (filter (fun ds => PrimFloat.ltb (snd ds) threshold)
                docs_with_scores)).

(** [isinstance(page, int)] on the result of [meta.get("page", None)]. *)
Definition isinstance_int (page : option MetaVal) : bool :=
  match page with
  | Some (MInt _) => true
  | _ => false
  end.

Definition doc_meta (doc : Document) : gmap string MetaVal :=
  default ∅ (metadata doc).
Definition doc_source (doc : Document) : MetaVal :=
  default (MStr "Unknown") (doc_meta doc !! "source").
Definition doc_page (doc : Document) : option MetaVal :=
  doc_meta doc !! "page".
Definition doc_db_name (doc : Document) : MetaVal :=
  default (MStr "UnknownDB") (doc_meta doc !! "db_name").

(** Line 103: the key put into [citations], for an integer page. *)
Definition citation_of (source : MetaVal) (page : Z) : string :=
  py_str source +:+ ", Page " +:+ Py.str_of_int page.

(** Lines 105-107: one context block. *)
Definition context_block (db_name source : MetaVal) (page_text : string)
    (content : string) : string :=
  "DB: " +:+ py_str db_name +:+ Py.nl +:+ "Source: " +:+ py_str source
  +:+ ", Page: " +:+ page_text +:+ Py.nl +:+ content.

(** Lines 94-107: the loop body, on the pair (citations, context_blocks). *)
Definition search_step (acc : list string * list string) (doc : Document)
    : list string * list string :=
  let source := doc_source doc in
  let db_name := doc_db_name doc in
  match doc_page doc with
  | Some (MInt page) =>
      let page := page + 1 in
      (od_set (fst acc) (citation_of source page),
       snd acc ++ [context_block db_name source (Py.str_of_int page)
                     (page_content doc)])
  | _ =>
      (fst acc,
       snd acc ++ [context_block db_name source "N/A" (page_content doc)])
  end.

Definition block_sep : string := Py.nl +:+ Py.nl +:+ "---" +:+ Py.nl +:+ Py.nl.

(** Lines 88-112, from the kept documents on. *)
Definition result_of_docs (docs : list Document) : RetrievalResult :=
  match docs with
  | [] => mkResult "" []
  | _ =>
      let acc := fold_left search_step docs ([], []) in
      mkResult (Py.join block_sep (snd acc)) (fst acc)
  end.

Definition search_pdf_from_db (vectorstore : Chroma) (query : string)
    (k : Z) : W RetrievalResult :=
  docs_with_scores <~ similarity_search_with_score vectorstore query 12 ;;
  ret (result_of_docs (kept_docs docs_with_scores k)).

(** [search_pdf_from_db] with the default [k = 8]. *)
Definition default_k : Z := 8.

Definition retrieve_style_examples (style_vectorstore : Chroma)
    (query : string) (k : nat) : W string :=
  results <~ similarity_search style_vectorstore query k ;;
  ret (Py.join (Py.nl +:+ Py.nl)
         (imap (fun i doc =>
                  "Example " +:+ Py.str_of_int (Z.of_nat i + 1) +:+ ":"
                  +:+ Py.nl +:+ page_content doc) results)).

(** The citation block both the tools and [ask_agent] append. *)
Definition citation_block (citations : list string) : string :=
  match citations with
  | [] => ""
  | _ => Py.nl +:+ Py.nl +:+ "Citations:" +:+ Py.nl
         +:+ Py.join Py.nl (map (fun c => "- " +:+ c) citations)
  end.

Definition format_context_with_citations (res : RetrievalResult) : string :=
  let context := Py.strip (context res) in
  match context with
  | "" => ""
  | _ => context +:+ citation_block (citations res)
  end.

(** The function a per-index tool runs ([make_db_tool]). *)
Definition db_tool (vectorstore : Chroma) (query : string) : W string :=
  res <~ search_pdf_from_db vectorstore query default_k ;;
  ret (format_context_with_citations res).

(** What an [AgentExecutor] step records of the tool call. *)
Record AgentAction : Type := mkAction {
  tool : string;
  tool_input : string
}.

(** The dictionary [agent_executor.invoke] returns; the key
    [intermediate_steps] may be missing. *)
Record AgentResult : Type := mkAgentResult {
  output : string;
  intermediate_steps : option (list (AgentAction * string))
}.

(** The module's globals: the index registry in directory order, the
    style index, and the reasoning loop, a black box from the question and
    the style examples to its result. *)
Record Env : Type := mkEnv {
  vectorstores : list (string * Chroma);
  style_vectorstore : Chroma;
  agent_executor : string -> string -> AgentResult
}.

Definition agent_executor_invoke (env : Env) (input style_examples : string)
    : W AgentResult :=
  (agent_executor env input style_examples,
   [EvAgentInvoke input style_examples]).

(** Lines 161-163 of [pdf_retriever_all]: one search per index, [k = 5]. *)
Fixpoint search_all (stores : list (string * Chroma)) (query : string)
    : W (list (string * RetrievalResult)) :=
  match stores with
  | [] => ret []
  | (db_name, vs) :: rest =>
      res <~ search_pdf_from_db vs query 5 ;;
      results <~ search_all rest query ;;
      ret ((db_name, res) :: results)
  end.

(** Lines 168-173: the loop body, on the pair (blocks, citations). *)
Definition merge_step (acc : list string * list string)
    (r : string * RetrievalResult) : list string * list string :=
  match context (snd r) with
  | "" => acc
  | ctx =>
      (fst acc ++ ["=== " +:+ fst r +:+ " ===" +:+ Py.nl +:+ ctx],
       fold_left od_set (citations (snd r)) (snd acc))
  end.

Definition pdf_retriever_all (env : Env) (query : string) : W string :=
  results <~ search_all (vectorstores env) query ;;
  let acc := fold_left merge_step results ([], []) in
  ret (match fst acc with
       | [] => ""
       | blocks => Py.join block_sep blocks +:+ citation_block (snd acc)
       end).

(** Lines 267-274: the loop body of [extract_citations]. *)
Definition extract_line (citations : list string) (line : string)
    : list string :=
  let line := Py.strip line in
  if Py.startswith "-" line then
    let c := Py.strip (Py.drop 1 line) in
    if Py.contains "Page N/A" c then citations else citations ++ [c]
  else citations.

Definition extract_citations (text : string) : list string :=
  if String.eqb text "" || negb (Py.contains "Citations:" text) then []
  else match Py.after_first "Citations:" text with
       | Some part => fold_left extract_line (Py.splitlines part) []
       | None => []
       end.

(** The pattern [\n\s*Citations\s*:\s*\n]. *)
Definition citations_re : list Py.re_item :=
  [Py.One (Ascii.eqb Py.LF); Py.Star Py.isspace]
  ++ Py.lit "Citations"
  ++ [Py.Star Py.isspace; Py.One (Ascii.eqb ":"%char);
      Py.Star Py.isspace; Py.One (Ascii.eqb Py.LF)].

Definition remove_existing_citations (answer : string) : string :=
  Py.strip (Py.before_first_match citations_re answer).

Definition empty_kb_message : string :=
  "Knowledge base is empty (no Chroma DBs found).".

(** Lines 302-305: the citations of all observations, in one ordered
    dictionary. *)
Definition collect_citations (steps : list (AgentAction * string))
    : list string :=
  fold_left
    (fun citations step =>
       fold_left od_set (extract_citations (snd step)) citations)
    steps [].

Definition ask_agent (env : Env) (question : string) : W string :=
  match vectorstores env with
  | [] => ret empty_kb_message
  | _ =>
      style_examples <~
        retrieve_style_examples (style_vectorstore env) question 5 ;;
      result <~ agent_executor_invoke env question style_examples ;;
      let answer := remove_existing_citations (output result) in
      let citations :=
        collect_citations (default [] (intermediate_steps result)) in
      ret (answer +:+ citation_block citations)
  end.

End AgentService.

(** ** chroma1.py *)

Module Chroma1.

Definition FILES_FOLDER : string := "./pdfs".
Definition BASE_PERSIST_DIR : string := "./chroma_dbs".

(** *** Paths

    [pathlib] in its POSIX flavour, on the path text.  The name of a path
    is its last component, empty components and [.] left out. *)
Fixpoint split_on (sep : ascii) (s : string) : list string :=
  match s with
  | "" => [""]
  | String c s' =>
      if Ascii.eqb c sep then "" :: split_on sep s'
      else match split_on sep s' with
           | l :: ls => String c l :: ls
           | [] => [String c ""]
           end
  end.

Definition path_parts (p : string) : list string :=
  filter (fun x => negb (String.eqb x "") && negb (String.eqb x "."))
    (split_on "/"%char p).

(** [Path(p).name] *)
Definition path_name (p : string) : string := List.last (path_parts p) "".

(** Where the suffix of a name starts: [i = name.rfind(".")] with
    [0 < i < len(name) - 1]. *)
Definition suffix_start (name : string) : option nat :=
  match Py.rfind_dot name with
  | Some i =>
      if ((0 <? i) && (S i <? String.length name))%nat then Some i else None
  | None => None
  end.

(** [Path(p).suffix] *)
Definition path_suffix (p : string) : string :=
  let name := path_name p in
  match suffix_start name with
  | Some i => Py.drop i name
  | None => ""
  end.

(** [Path(p).stem] *)
Definition path_stem (p : string) : string :=
  let name := path_name p in
  match suffix_start name with
  | Some i => Py.take i name
  | None => name
  end.

(** The root of a path: two leading slashes are kept, any other number
    of them is one. *)
Definition path_root (p : string) : string :=
  match p with
  | String a (String b rest) =>
      if Ascii.eqb a "/"%char then
        if Ascii.eqb b "/"%char then
          match rest with
          | String c _ => if Ascii.eqb c "/"%char then "/" else "//"
          | "" => "//"
          end
        else "/"
      else ""
  | String a "" => if Ascii.eqb a "/"%char then "/" else ""
  | "" => ""
  end.

(** [str(Path(p))]: the root, then the components joined by "/" (so a
    leading "./" and doubled or trailing slashes are gone); "." for the
    empty path. *)
Definition path_str (p : string) : string :=
  match path_root p, path_parts p with
  | "", [] => "."
  | root, parts => root +:+ Py.join "/" parts
  end.

(** [str(Path(p).with_suffix(suffix))], for a path with a name: the
    suffix of the last component is replaced, or [suffix] is added when it
    has none. *)
Definition with_suffix (p suffix : string) : string :=
  path_root p
  +:+ Py.join "/" (removelast (path_parts p) ++ [path_stem p +:+ suffix]).

(** [os.path.join(a, b)] for a relative [b]. *)
Definition path_join (a b : string) : string := a +:+ "/" +:+ b.

(** *** Index names *)

(** The class [[a-zA-Z0-9_-]]. *)
Definition name_char (c : ascii) : bool :=
  let n := nat_of_ascii c in
  ((97 <=? n) && (n <=? 122) || (65 <=? n) && (n <=? 90)
   || (48 <=? n) && (n <=? 57) || (n =? 95) || (n =? 45))%nat.

(** [re.sub(r"[^a-zA-Z0-9_-]", "_", s)] *)
Fixpoint sub_name_chars (s : string) : string :=
  match s with
  | "" => ""
  | String c s' =>
      String (if name_char c then c else "_"%char) (sub_name_chars s')
  end.

Definition sanitize_name (name : string) : string :=
  sub_name_chars (path_stem name).

(** Line 106: [db_name = f"chroma_{safe_name}"]. *)
Definition db_name_of (filename : string) : string :=
  "chroma_" +:+ sanitize_name filename.

(** *** Effects

    The run's state: the files the converter has created, the number of
    embedding calls made so far, and the trace. *)
Inductive Event : Type :=
  | EvMakedirs (dir : string)
  | EvPrintProcessing (filename : string)
  | EvPrintDbFolder (persist_dir : string)
  | EvPrintConverting (name : string)
  | EvConvert (docx_path pdf_path : string)
  | EvLoadPdf (path : string)
  | EvPrintSkipped
  | EvPrintLoaded (pages : nat)
  | EvPrintCreatedChunks (chunks : nat)
  | EvFromDocuments (chunks : list Document) (persist_dir : string)
  | EvPrintRetrying (wait_time attempt max_retries : Z)
  | EvSleep (seconds : Z)
  | EvPrintDbCreated (db_name : string)
  | EvPrintDone.

Record State : Type := mkState {
  created : list string;
  calls : nat;
  trace : list Event
}.

(** How a call ends: with a value, with an exception (its message), or
    without an answer when the loop bound of the model is used up. *)
Inductive Res (A : Type) : Type :=
  | Ok (a : A)
  | Raise (e : string)
  | OutOfFuel.
Arguments Ok {A} a.
Arguments Raise {A} e.
Arguments OutOfFuel {A}.

(** How a call of an external service ends. *)
Inductive Outcome (A : Type) : Type :=
  | Returns (a : A)
  | Raises (e : string).
Arguments Returns {A} a.
Arguments Raises {A} e.

Definition M (A : Type) : Type := State -> Res A * State.
Definition ret {A} (a : A) : M A := fun st => (Ok a, st).
Definition bind {A B} (m : M A) (f : A -> M B) : M B :=
  fun st =>
    match m st with
    | (Ok a, st') => f a st'
    | (Raise e, st') => (Raise e, st')
    | (OutOfFuel, st') => (OutOfFuel, st')
    end.
Definition raise {A} (e : string) : M A := fun st => (Raise e, st).
Definition emit (ev : Event) : M unit :=
  fun st => (Ok tt, mkState (created st) (calls st) (trace st ++ [ev])).

Notation "x <~ m ;; k" := (bind m (fun x => k))
  (at level 100, m at next level, right associativity).
Notation "m ;;; k" := (bind m (fun _ => k))
  (at level 100, right associativity).

(** The world outside: which files exist at the start, what the PDF
    loader and the converter do with a path (an exception message when
    they raise), how the splitter cuts pages into chunks, how the [n]-th
    call of [Chroma.from_documents] of the run ends ([None] when the index
    is written, the exception's message otherwise), and the size of each
    file in bytes, which this code never asks for. *)
Record Env : Type := mkEnv {
  listdir : list string;
  exists_at_start : string -> bool;
  pdf_load : string -> Outcome (list Document);
  docx2pdf_convert : string -> string -> Outcome unit;
  split_documents : list Document -> list Document;
  from_documents : nat -> option string;
  file_size : string -> N
}.

Definition path_exists (env : Env) (p : string) : M bool :=
  fun st => (Ok (exists_at_start env p || bool_decide (p ∈ created st)), st).

Definition convert (env : Env) (src dst : string) : M unit :=
  fun st =>
    let st' := mkState (created st) (calls st)
                 (trace st ++ [EvConvert src dst]) in
    match docx2pdf_convert env src dst with
    | Returns _ =>
        (Ok tt, mkState (dst :: created st') (calls st') (trace st'))
    | Raises e => (Raise e, st')
    end.

Definition PyPDFLoader_load (env : Env) (path : string)
    : M (list Document) :=
  fun st =>
    (match pdf_load env path with
     | Returns docs => Ok docs
     | Raises e => Raise e
     end,
     mkState (created st) (calls st) (trace st ++ [EvLoadPdf path])).

(** Lines 43-57.  [with_suffix] refuses a path without a name; the
    converter gets the two paths as [str(Path(...))] writes them. *)
Definition convert_docx_to_pdf (env : Env) (docx_path : string) : M string :=
  if String.eqb (path_name docx_path) "" then
    raise ("PosixPath('" +:+ path_str docx_path +:+ "') has an empty name")
  else
    let pdf_path := with_suffix docx_path ".pdf" in
    ex <~ path_exists env pdf_path ;;
    if ex : bool then ret pdf_path
    else
      emit (EvPrintConverting (path_name docx_path)) ;;;
      convert env (path_str docx_path) pdf_path ;;;
      ret pdf_path.

Definition load_file_with_real_pages (env : Env) (file_path : string)
    : M (list Document * option string) :=
  let ext := Py.lower (path_suffix file_path) in
  if String.eqb ext ".pdf" then
    docs <~ PyPDFLoader_load env file_path ;;
    ret (docs, Some "pdf")
  else if String.eqb ext ".docx" then
    pdf_path <~ convert_docx_to_pdf env file_path ;;
    docs <~ PyPDFLoader_load env pdf_path ;;
    ret (docs, Some "docx")
  else ret ([], None).

(** Line 85: the overload class, on the lower-cased message. *)
Definition is_overload (msg : string) : bool :=
  Py.contains "429" msg || Py.contains "nocapacity" msg
  || Py.contains "rate limit" msg.

(** One call of [Chroma.from_documents]: it is logged and counted, and
    ends as the world says. *)
Definition Chroma_from_documents (env : Env) (chunks : list Document)
    (persist_dir : string) : State -> option string * State :=
  fun st =>
    (from_documents env (calls st),
     mkState (created st) (S (calls st))
       (trace st ++ [EvFromDocuments chunks persist_dir])).

(** The [while True] loop of [create_chroma_with_retry], bounded by
    [fuel] iterations. *)
Fixpoint retry_loop (fuel : nat) (env : Env) (chunks : list Document)
    (persist_dir : string) (max_retries attempt : Z) : M unit :=
  match fuel with
  | O => fun st => (OutOfFuel, st)
  | S fuel' => fun st =>
      match Chroma_from_documents env chunks persist_dir st with
      | (None, st1) => (Ok tt, st1)
      | (Some e, st1) =>
          let msg := Py.lower e in
          if is_overload msg then
            let attempt := attempt + 1 in
            if attempt >? max_retries then (Raise e, st1)
            else
              let wait_time := 10 * attempt in
              (emit (EvPrintRetrying wait_time attempt max_retries) ;;;
               emit (EvSleep wait_time) ;;;
               retry_loop fuel' env chunks persist_dir max_retries attempt)
                st1
          else (Raise e, st1)
      end
  end.

(** The loop runs at most [max_retries + 1] times; that many iterations
    are granted. *)
Definition create_chroma_with_retry (env : Env) (chunks : list Document)
    (persist_dir : string) (max_retries : Z) : M unit :=
  retry_loop (S (Z.to_nat max_retries)) env chunks persist_dir max_retries 0.

Definition default_max_retries : Z := 8.

(** Lines 123-135: the metadata of chunk number [i]. *)
Definition tag_chunk (filename : string) (doc_type : option string)
    (db_name : string) (i : nat) (c : Document) : Document :=
  let m := default ∅ (metadata c) in
  let m :=
    <["chunk_id" := MInt (Z.of_nat i)]>
      (<["db_name" := MStr db_name]>
         (<["doc_type" := from_option MStr MNone doc_type]>
            (<["source" := MStr filename]> m))) in
  let m :=
    match m !! "page" with
    | Some _ => m
    | None => <["page" := MStr "N/A"]> m
    end in
  mkDocument (page_content c) (Some m).

Definition tag_chunks (filename : string) (doc_type : option string)
    (db_name : string) (chunks : list Document) : list Document :=
  imap (tag_chunk filename doc_type db_name) chunks.

(** Line 101: the extension filter of the loop. *)
Definition supported_name (filename : string) : bool :=
  let low := Py.lower filename in
  Py.endswith ".pdf" low || Py.endswith ".docx" low.

(** Lines 101-141: the loop body for one directory entry. *)
Definition process_file (env : Env) (filename : string) : M unit :=
  if negb (supported_name filename) then ret tt
  else
    let file_path := path_join FILES_FOLDER filename in
    let safe_name := sanitize_name filename in
    let db_name := "chroma_" +:+ safe_name in
    let persist_dir := path_join BASE_PERSIST_DIR db_name in
    emit (EvPrintProcessing filename) ;;;
    emit (EvPrintDbFolder persist_dir) ;;;
    loaded <~ load_file_with_real_pages env file_path ;;
    let documents := fst loaded in
    let doc_type := snd loaded in
    match documents with
    | [] => emit EvPrintSkipped
    | _ =>
        emit (EvPrintLoaded (length documents)) ;;;
        let chunks := split_documents env documents in
        let chunks := tag_chunks filename doc_type db_name chunks in
        emit (EvPrintCreatedChunks (length chunks)) ;;;
        create_chroma_with_retry env chunks persist_dir
          default_max_retries ;;;
        emit (EvPrintDbCreated db_name)
    end.

Fixpoint process_files (env : Env) (files : list string) : M unit :=
  match files with
  | [] => ret tt
  | filename :: rest =>
      process_file env filename ;;; process_files env rest
  end.

(** The script from line 98 on. *)
Definition main (env : Env) : M unit :=
  emit (EvMakedirs BASE_PERSIST_DIR) ;;;
  process_files env (listdir env) ;;;
  emit EvPrintDone.

Definition initial : State := mkState [] 0 [].

End Chroma1.

(** ** The specification's vocabulary *)

Module Spec.

(** Deduplication by exact string, first-seen order: a text stays where it
    first occurs, its later occurrences go. *)
Fixpoint first_seen (l : list string) : list string :=
  match l with
  | [] => []
  | x :: l' => x :: filter (λ y, y ≠ x) (first_seen l')
  end.

(** A bulleted line, once stripped, and the entry it carries. *)
Definition is_bullet (line : string) : bool := Py.startswith "-" line.
Definition entry_of (line : string) : string := Py.strip (Py.drop 1 line).
Definition has_page_na (c : string) : bool := Py.contains "Page N/A" c.

(** The citation lines of a text: after the first ["Citations:"], the
    lines starting with ["-"], without the entries that contain
    ["Page N/A"]. *)
Definition citation_lines (text : string) : list string :=
  match Py.after_first "Citations:" text with
  | None => []
  | Some part =>
      filter (fun c => negb (has_page_na c))
        (map entry_of (filter is_bullet (map Py.strip (Py.splitlines part))))
  end.

(** The character [c] occurs in [s]. *)
Fixpoint occurs (c : ascii) (s : string) : bool :=
  match s with
  | "" => false
  | String d s' => Ascii.eqb d c || occurs c s'
  end.

(** A citation a tool can print on a line of its own and get read back: no
    line boundary inside, no blank at either end, no ["Page N/A"]. *)
Fixpoint no_linebreak (s : string) : bool :=
  match s with
  | "" => true
  | String c s' => negb (Py.islinebreak c) && no_linebreak s'
  end.
Definition clean_citation (c : string) : bool :=
  no_linebreak c && String.eqb (Py.strip c) c && negb (has_page_na c).

(** A retrieval result whose context is not blank and does not itself
    hold the marker, with clean citations. *)
Definition clean_result (r : AgentService.RetrievalResult) : bool :=
  negb (String.eqb (Py.strip (AgentService.context r)) "")
  && negb (Py.contains "Citations:" (Py.strip (AgentService.context r)))
  && forallb clean_citation (AgentService.citations r).

(** The citation a chunk stands for: none unless its page is an integer,
    which is shown 1-based. *)
Definition doc_citation (doc : Document) : option string :=
  match AgentService.doc_page doc with
  | Some (MInt page) =>
      Some (py_str (AgentService.doc_source doc) +:+ ", Page "
            +:+ Py.str_of_int (page + 1))
  | _ => None
  end.

(** The page a context block shows. *)
Definition shown_page (doc : Document) : string :=
  match AgentService.doc_page doc with
  | Some (MInt page) => Py.str_of_int (page + 1)
  | _ => "N/A"
  end.

Definition doc_block (doc : Document) : string :=
  AgentService.context_block (AgentService.doc_db_name doc)
    (AgentService.doc_source doc) (shown_page doc) (page_content doc).

(** The words of the citation claim, read from the chunk's metadata
    dictionary itself.  [meta_get doc key] is the entry of [key], when
    the chunk has metadata and the key is in it. *)
Definition meta_get (doc : Document) (key : string) : option MetaVal :=
  match metadata doc with
  | Some m => m !! key
  | None => None
  end.

(** The page of a chunk, when it is a genuine integer. *)
Definition integer_page (doc : Document) : option Z :=
  match meta_get doc "page" with
  | Some (MInt page) => Some page
  | _ => None
  end.

(** The source and the index a chunk is shown under. *)
Definition shown_source (doc : Document) : string :=
  match meta_get doc "source" with
  | Some v => py_str v
  | None => "Unknown"
  end.
Definition shown_db (doc : Document) : string :=
  match meta_get doc "db_name" with
  | Some v => py_str v
  | None => "UnknownDB"
  end.

(** "{source}, Page {page}" with the page 1-based, for a chunk with an
    integer page; none for another chunk. *)
Definition cited_as (doc : Document) : option string :=
  match integer_page doc with
  | Some page =>
      Some (shown_source doc +:+ ", Page " +:+ Py.str_of_int (page + 1))
  | None => None
  end.

(** The block of a chunk in the context: index, source, the page
    1-based or "N/A", and the chunk's text. *)
Definition shown_as (doc : Document) : string :=
  "DB: " +:+ shown_db doc +:+ Py.nl
  +:+ "Source: " +:+ shown_source doc +:+ ", Page: "
  +:+ match integer_page doc with
      | Some page => Py.str_of_int (page + 1)
      | None => "N/A"
      end
  +:+ Py.nl +:+ page_content doc.

(** A decimal numeral: digits, after an optional minus sign. *)
Definition is_digit (c : ascii) : bool :=
  let n := nat_of_ascii c in ((48 <=? n) && (n <=? 57))%nat.
Fixpoint all_digits (s : string) : bool :=
  match s with
  | "" => true
  | String c s' => is_digit c && all_digits s'
  end.
Definition is_numeral (s : string) : bool :=
  match s with
  | "" => false
  | String c s' =>
      if Ascii.eqb c "-"%char then negb (String.eqb s' "") && all_digits s'
      else all_digits s
  end.

(** The sleeps of a trace, in order. *)
Fixpoint sleeps_of (t : list Chroma1.Event) : list Z :=
  match t with
  | [] => []
  | Chroma1.EvSleep n :: t' => n :: sleeps_of t'
  | _ :: t' => sleeps_of t'
  end.

(** What [n] overloaded calls add to the trace, from attempt number
    [attempt] on: the call, the message, the sleep. *)
Fixpoint retry_events (chunks : list Document) (persist_dir : string)
    (max_retries attempt : Z) (n : nat) : list Chroma1.Event :=
  match n with
  | O => []
  | S n' =>
      [Chroma1.EvFromDocuments chunks persist_dir;
       Chroma1.EvPrintRetrying (10 * (attempt + 1)) (attempt + 1) max_retries;
       Chroma1.EvSleep (10 * (attempt + 1))]
      ++ retry_events chunks persist_dir max_retries (attempt + 1) n'
  end.

(** The first [n] embedding calls from the state [st] on fail with an
    error of the overload class. *)
Definition overloaded (env : Chroma1.Env) (st : Chroma1.State) (n : nat)
    : Prop :=
  ∀ i, (i < n)%nat →
       ∃ e, Chroma1.from_documents env (Chroma1.calls st + i) = Some e
            ∧ Chroma1.is_overload (Py.lower e) = true.

(** The state with one more event in the trace. *)
Definition logged (ev : Chroma1.Event) (st : Chroma1.State)
    : Chroma1.State :=
  Chroma1.mkState (Chroma1.created st) (Chroma1.calls st)
    (Chroma1.trace st ++ [ev]).

(** The state once the loop has announced a file: lines 109-110. *)
Definition announced (filename : string) (st : Chroma1.State)
    : Chroma1.State :=
  logged
    (Chroma1.EvPrintDbFolder
       (Chroma1.path_join Chroma1.BASE_PERSIST_DIR
          (Chroma1.db_name_of filename)))
    (logged (Chroma1.EvPrintProcessing filename) st).

(** The delays [base * 1, ..., base * n]. *)
Definition linear_backoff (base : Z) (n : nat) : list Z :=
  map (fun i => base * Z.of_nat i) (seq 1 n).

(** Every character of the text is whitespace. *)
Fixpoint all_space (s : string) : bool :=
  match s with
  | "" => true
  | String c s' => Py.isspace c && all_space s'
  end.

(** The marker pattern after the word: [\s*:\s*\n]. *)
Definition marker_tail : list Py.re_item :=
  [Py.Star Py.isspace; Py.One (Ascii.eqb ":"%char);
   Py.Star Py.isspace; Py.One (Ascii.eqb Py.LF)].

(** No own-line ["Citations:"] marker starts anywhere in the text. *)
Definition marker_free (s : string) : Prop :=
  forall i : nat,
    Py.matches_here AgentService.citations_re (Py.drop i s) = false.

(** The five metadata keys of a chunk. *)
Definition chunk_keys : gset string :=
  {[ "source"; "doc_type"; "db_name"; "chunk_id"; "page" ]}.

(** The splitter's part in the chunk claim.  The splitter
    ([RecursiveCharacterTextSplitter.split_documents], a library outside
    the repository) cuts every chunk from one page, its owning page, and
    hands it a copy of that page's metadata. *)
Definition cut_from (page chunk : Document) : Prop :=
  metadata chunk = metadata page.

End Spec.

(** ** Sample worlds, for the examples below *)

Module Examples.

Definition page_meta (source : string) (page : MetaVal)
    : option (gmap string MetaVal) :=
  Some (<["page" := page]> (<["db_name" := MStr "chroma_guide"]>
         (<["source" := MStr source]> ∅))).

Definition chunk_a : Document := mkDocument "alpha" (page_meta "A" (MInt 2)).
Definition chunk_b : Document := mkDocument "beta" (page_meta "B" (MInt 0)).
Definition chunk_c : Document := mkDocument "gamma" (page_meta "C" (MInt 1)).
Definition chunk_na : Document :=
  mkDocument "delta" (page_meta "D" (MStr "N/A")).

#[local] Set Warnings "-inexact-float".
(** An index that ranks four chunks, the third at the threshold itself
    and the fourth beyond it. *)
Definition guide_index : AgentService.Chroma :=
  AgentService.mkChroma "./chroma_dbs/chroma_guide"
    (fun _ => [(chunk_a, 0.12%float); (chunk_na, 0.25%float);
               (chunk_b, 0.38%float); (chunk_c, 0.61%float)]).
#[local] Set Warnings "+inexact-float".

Definition style_index : AgentService.Chroma :=
  AgentService.mkChroma "./chroma_style_db" (fun _ => []).

(** What two tools returned. *)
Definition result_1 : AgentService.RetrievalResult :=
  AgentService.mkResult "DB: one" ["A, Page 3"; "B, Page 1"].
Definition result_2 : AgentService.RetrievalResult :=
  AgentService.mkResult "DB: two" ["B, Page 1"; "C, Page 2"].

(** A reasoning loop that calls two tools and appends citations of its
    own to its answer. *)
Definition two_tool_loop (question style_examples : string)
    : AgentService.AgentResult :=
  AgentService.mkAgentResult
    ("The answer." +:+ Py.nl +:+ Py.nl +:+ "Citations:" +:+ Py.nl
     +:+ "- Z, Page 9")
    (Some [(AgentService.mkAction "PDFRetriever_chroma_one" question,
            AgentService.format_context_with_citations result_1);
           (AgentService.mkAction "PDFRetriever_chroma_two" question,
            AgentService.format_context_with_citations result_2)]).

Definition two_tool_env : AgentService.Env :=
  AgentService.mkEnv [("chroma_guide", guide_index)] style_index
    two_tool_loop.

(** A reasoning loop whose whole answer is a citation block of its own,
    the marker on its first line, after one tool call that cited
    "A, Page 3". *)
Definition first_line_loop (question style_examples : string)
    : AgentService.AgentResult :=
  AgentService.mkAgentResult
    ("Citations:" +:+ Py.nl +:+ "- Z, Page 9")
    (Some [(AgentService.mkAction "PDFRetriever_chroma_one" question,
            AgentService.format_context_with_citations
              (AgentService.mkResult "DB: one" ["A, Page 3"]))]).

Definition first_line_env : AgentService.Env :=
  AgentService.mkEnv [("chroma_guide", guide_index)] style_index
    first_line_loop.

(** Two chunks as the splitter hands them over: one without metadata,
    one from page 4 with a key the loader added. *)
Definition raw_chunks : list Document :=
  [mkDocument "first" None;
   mkDocument "second"
     (Some (<["total_pages" := MInt 9]> (<["page" := MInt 4]> ∅)))].

(** The page the second of them was cut from: the fifth of nine. *)
Definition fifth_page : Document :=
  mkDocument "second and what follows on the page"
    (Some (<["total_pages" := MInt 9]> (<["page" := MInt 4]> ∅))).

(** A PDF loader that finds two pages in every file but two: the empty
    one, which it refuses as the PDF reader does, and one without pages. *)
Definition sample_loader (path : string) : Chroma1.Outcome (list Document) :=
  if String.eqb path "./pdfs/empty.pdf"
  then Chroma1.Raises "Cannot read an empty file"
  else if String.eqb path "./pdfs/blank.pdf" then Chroma1.Returns []
  else Chroma1.Returns
         [mkDocument "page one" (Some (<["page" := MInt 0]> ∅));
          mkDocument "page two" (Some (<["page" := MInt 1]> ∅))].

(** A folder with a text file, a 0-byte PDF and a good PDF; the embedding
    service answers "429" to the first three calls. *)
Definition sample_world : Chroma1.Env :=
  Chroma1.mkEnv ["notes.txt"; "empty.pdf"; "guide.pdf"]
    (fun _ => false)
    sample_loader
    (fun _ _ => Chroma1.Returns tt)
    (fun pages => pages)
    (fun n => if (n <? 3)%nat
              then Some "Error code: 429 - Rate Limit reached"
              else None)
    (fun path => if String.eqb path "./pdfs/empty.pdf" then 0%N else 2048%N).

(** No index was found at start. *)
Definition empty_env : AgentService.Env :=
  AgentService.mkEnv [] style_index two_tool_loop.

End Examples.

(** ** agent_service.py at start: the registry and the tools *)

Module Startup.

(** [str(Path(base_dir) / name)] for a directory entry [name], in the
    POSIX flavour: the root of [base_dir] (two leading slashes are kept,
    any other number is one), then its components and the name, joined
    by "/". *)
Definition path_root (p : string) : string := Chroma1.path_root p.

Definition child_path (base_dir name : string) : string :=
  path_root base_dir
  +:+ Py.join "/" (Chroma1.path_parts base_dir ++ [name]).

(** An entry of the base directory: its name, whether it is a directory,
    and what the index persisted there serves. *)
Record Entry : Type := mkEntry {
  entry_name : string;
  entry_is_dir : bool;
  entry_index : string -> list (Document * float)
}.

(** What is at the base path. *)
Inductive Node : Type :=
  | Missing
  | File
  | Dir (entries : list Entry).

(** What the function prints. *)
Inductive Notice : Type :=
  | WarnBaseMissing (base_dir : string).

(** [d[k] = v] on a [dict]: a known key keeps its place. *)
Fixpoint dict_set {V} (d : list (string * V)) (k : string) (v : V)
    : list (string * V) :=
  match d with
  | [] => [(k, v)]
  | (k', v') :: d' =>
      if String.eqb k' k then (k, v) :: d' else (k', v') :: dict_set d' k v
  end.

(** Lines 52-58: the loop body. *)
Definition load_step (base_dir : string)
    (dbs : list (string * AgentService.Chroma)) (folder : Entry)
    : list (string * AgentService.Chroma) :=
  if entry_is_dir folder && Py.startswith "chroma_" (entry_name folder)
  then
    let db_name := entry_name folder in
    dict_set dbs db_name
      (AgentService.mkChroma (child_path base_dir db_name)
         (entry_index folder))
  else dbs.

(** [load_all_chroma_dbs(base_dir)], with what is at [base_dir]; listing
    a path that is not a directory raises. *)
Definition load_all_chroma_dbs (node : Node) (base_dir : string)
    : Chroma1.Outcome (list (string * AgentService.Chroma)) * list Notice :=
  match node with
  | Missing => (Chroma1.Returns [], [WarnBaseMissing base_dir])
  | File => (Chroma1.Raises "NotADirectoryError", [])
  | Dir entries =>
      (Chroma1.Returns (fold_left (load_step base_dir) entries []), [])
  end.

(** A langchain [Tool]. *)
Record Tool : Type := mkTool {
  name : string;
  func : string -> AgentService.W string;
  description : string
}.

Definition make_db_tool (db_name : string) (vectorstore : AgentService.Chroma)
    : Tool :=
  mkTool ("PDFRetriever_" +:+ db_name)
    (AgentService.db_tool vectorstore)
    ("Use this tool to search in " +:+ db_name +:+ ".").

(** Lines 152-193: one tool per index, then the fallback tool. *)
Definition tools (env : AgentService.Env) : list Tool :=
  map (fun store => make_db_tool store.1 store.2)
    (AgentService.vectorstores env)
  ++ [mkTool "PDFRetriever_ALL" (AgentService.pdf_retriever_all env)
        "Use ONLY if question is broad or you are unsure which DB to use; searches all DBs."].

End Startup.

(** ** excel_store.py *)

Module ExcelStore.

(** A value handed to [save_qa_to_excel]: [None] or a [str]. *)
Definition Cell : Type := option string.

(** Its truth value: [None] and the empty text are false. *)
Definition truthy (c : Cell) : bool :=
  match c with
  | Some s => negb (String.eqb s "")
  | None => false
  end.

(** One row of the sheet, by column. *)
Record Row : Type := mkRow {
  timestamp : string;
  chat_id : Cell;
  chat_title : Cell;
  question : Cell;
  answer : Cell;
  feedback_rating : Cell;
  feedback_comment : Cell;
  feedback_time : Cell
}.

(** The clock and the spreadsheet library: [now n] is the text
    [datetime.now().strftime("%Y-%m-%d %H:%M:%S")] gives at the [n]-th
    reading of the clock, [read_excel rows] the rows [pd.read_excel]
    finds in a sheet that [to_excel] wrote from [rows]. *)
Record Env : Type := mkEnv {
  now : nat -> string;
  read_excel : list Row -> list Row
}.

(** The rows last written to [chats/chat_history.xlsx], if the file
    exists, and the number of clock readings so far. *)
Record State : Type := mkState {
  sheet : option (list Row);
  readings : nat
}.

(** Lines 10-41. *)
Definition save_qa_to_excel (env : Env)
    (chat_id chat_title question answer : Cell)
    (feedback_rating feedback_comment : Cell) (st : State) : State :=
  let n := readings st in
  let stamp := now env n in
  let n := S n in
  let '(feedback_time, n) :=
    if truthy feedback_rating || truthy feedback_comment
    then (Some (now env n), S n)
    else (None, n) in
  let row :=
    mkRow stamp chat_id chat_title question answer
      feedback_rating feedback_comment feedback_time in
  let final_df :=
    match sheet st with
    | Some rows => read_excel env rows ++ [row]
    | None => [row]
    end in
  mkState (Some final_df) n.

End ExcelStore.

(** ** app.py

    The views, for the requests of one browser session served one after
    the other.  A form field is a text; the fields of a JSON object are
    texts ([null] fields read as missing ones, as [data.get] reads
    them). *)

Module App.

Inductive Method : Type := GET | POST.

(** The body of a request, as [request.json] finds it: not sent as JSON,
    sent as JSON but not parsable, or a JSON value: [null], an object,
    or a value of another type (a text, a number, a list, [true] or
    [false]), kept by the name of its Python type and its truth value. *)
Inductive Body : Type :=
  | not_json
  | malformed_json
  | json_null
  | json_object (fields : gmap string string)
  | json_other (type_name : string) (truth : bool).

Record Request : Type := mkRequest {
  method : Method;
  form : gmap string string;
  body : Body
}.

(** How a view ends: with the response it returns, with an HTTP error
    that Flask raises for it ([abort]), or with an exception of its own,
    which Flask answers with status 500 ([raises]). *)
Inductive Response : Type :=
  | redirect (endpoint : string)
  | render_template (template : string)
      (context : list (string * ExcelStore.Cell))
  | jsonify (body : list (string * string)) (status : nat)
  | abort (status : nat)
  | raises (e : string).

(** Lines 9-10, and the collaborators of the two modules the views
    call. *)
Record Env : Type := mkEnv {
  USERNAME : string;
  PASSWORD : string;
  agent : AgentService.Env;
  excel : ExcelStore.Env
}.

(** The session of the browser, the chat history file with its clock,
    and the calls [ask_agent] made to the indexes and the reasoning
    loop. *)
Record State : Type := mkState {
  session : gmap string bool;
  store : ExcelStore.State;
  calls : list AgentService.Event
}.

(** [session.get("logged_in")], as a condition. *)
Definition logged_in (st : State) : bool :=
  default false (session st !! "logged_in").

(** [data = request.json or {}], up to the first [data.get]: the fields
    to read, or how the view ends.  [request.json] raises 415 for a body
    that is not sent as JSON and 400 for one that does not parse; a
    value that is false stands for the empty object; a true value that
    is no object has no [get]. *)
Definition data (req : Request) : Response + gmap string string :=
  match body req with
  | not_json => inl (abort 415)
  | malformed_json => inl (abort 400)
  | json_null => inr ∅
  | json_object fields => inr fields
  | json_other type_name truth =>
      if truth
      then inl (raises ("AttributeError: '" +:+ type_name
                        +:+ "' object has no attribute 'get'"))
      else inr ∅
  end.

(** Lines 15-28. *)
Definition login (env : Env) (req : Request) (st : State)
    : Response * State :=
  match method req with
  | POST =>
      if bool_decide (form req !! "username" = Some (USERNAME env))
         && bool_decide (form req !! "password" = Some (PASSWORD env))
      then (redirect "index",
            mkState (<["logged_in" := true]> (session st))
              (store st) (calls st))
      else (render_template "login.html"
              [("error", Some "Invalid username or password")], st)
  | GET => (render_template "login.html" [("error", None)], st)
  end.

(** Lines 33-36. *)
Definition index (st : State) : Response * State :=
  if negb (logged_in st) then (redirect "login", st)
  else (render_template "index.html" [], st).

(** Lines 41-43. *)
Definition logout (st : State) : Response * State :=
  (redirect "login", mkState ∅ (store st) (calls st)).

(** Lines 48-72. *)
Definition chat_api (env : Env) (req : Request) (st : State)
    : Response * State :=
  if negb (logged_in st) then (jsonify [("error", "Unauthorized")] 401, st)
  else
    match data req with
    | inl error => (error, st)
    | inr data =>
        let question := data !! "prompt" in
        let chat_id := data !! "chatId" in
        let chat_title := data !! "chatTitle" in
        match question with
        | None =>
            (jsonify [("bot_reply", "Please enter a valid question.")] 200,
             st)
        | Some q =>
            if String.eqb q ""
            then (jsonify
                    [("bot_reply", "Please enter a valid question.")] 200,
                  st)
            else
              let (answer, events) :=
                AgentService.ask_agent (agent env) q in
              let store' :=
                ExcelStore.save_qa_to_excel (excel env) chat_id chat_title
                  (Some q) (Some answer) None None (store st) in
              (jsonify [("bot_reply", answer)] 200,
               mkState (session st) store' (calls st ++ events))
        end
    end.

(** Lines 77-93. *)
Definition feedback_api (env : Env) (req : Request) (st : State)
    : Response * State :=
  if negb (logged_in st) then (jsonify [("error", "Unauthorized")] 401, st)
  else
    match data req with
    | inl error => (error, st)
    | inr data =>
        let store' :=
          ExcelStore.save_qa_to_excel (excel env)
            (data !! "chatId") (data !! "chatTitle")
            (data !! "question") (data !! "answer")
            (data !! "rating") (data !! "comment") (store st) in
        (jsonify [("status", "ok")] 200,
         mkState (session st) store' (calls st))
    end.

(** A request, by the view its route selects: "/login" (GET or POST),
    "/", "/logout", "/api/chat" and "/api/feedback" (POST). *)
Inductive Call : Type :=
  | to_login (req : Request)
  | to_index
  | to_logout
  | to_chat_api (req : Request)
  | to_feedback_api (req : Request).

Definition serve (env : Env) (call : Call) (st : State)
    : Response * State :=
  match call with
  | to_login req => login env req st
  | to_index => index st
  | to_logout => logout st
  | to_chat_api req => chat_api env req st
  | to_feedback_api req => feedback_api env req st
  end.

(** The requests of a session in turn: the responses and the state
    after the last. *)
Fixpoint serve_all (env : Env) (calls : list Call) (st : State)
    : list Response * State :=
  match calls with
  | [] => ([], st)
  | call :: calls' =>
      let (r, st') := serve env call st in
      let (rs, st'') := serve_all env calls' st' in
      (r :: rs, st'')
  end.

End App.

(** ** evaluate_chroma_quality.py

    The script, as a function of the index it opens and of the chunk
    count the collection reports.  What it prints is a list of lines;
    a formatted line is kept by the values it formats. *)

Module EvaluateChromaQuality.

Record Test : Type := mkTest {
  query : string;
  expected_keywords : list string
}.

(** Lines 33-46. *)
Definition evaluation_queries : list Test :=
  [mkTest "What is Net Present Value?" ["present value"; "cash flows"];
   mkTest "Define Internal Rate of Return"
     ["discount rate"; "net present value"];
   mkTest "What is EBITDA?" ["earnings"; "interest"; "tax"]].

Definition k : nat := 5.

(** The five lines of the interpretation. *)
Inductive Verdict : Type :=
  | HighRetrievalQuality
  | MediumRetrievalQuality
  | LowRetrievalQuality
  | MetadataExcellent
  | MetadataNeedsImprovement.

Inductive Line : Type :=
  | Heading (title : string)
  | TotalChunks (count : Z)
  | Query (query : string)
  | RankScore (rank : nat) (score : float)
  | SourcePage (source page : option MetaVal)
  | Recall (k : nat) (recall_at_k : float)
  | MetadataCompleteness (metadata_score : float)
  | Interpretation (verdict : Verdict).

(** The variables the loop updates, and the lines printed so far. *)
Record State : Type := mkState {
  printed : list Line;
  successful_hits : nat;
  metadata_coverage : list bool
}.

Definition print (line : Line) (st : State) : State :=
  mkState (printed st ++ [line]) (successful_hits st)
    (metadata_coverage st).

(** [float(n)] for a count [n]. *)
Fixpoint int_of_nat (n : nat) : PrimInt63.int :=
  match n with
  | O => 0%uint63
  | S n' => PrimInt63.add (int_of_nat n') 1%uint63
  end.
Definition float_of_nat (n : nat) : float :=
  PrimFloat.of_uint63 (int_of_nat n).

(** [sum(l)] for a list of booleans. *)
Definition sum (l : list bool) : nat :=
  length (filter (fun b : bool => b) l).

(** Line 72. *)
Definition all_in (keywords : list string) (content : string) : bool :=
  forallb (fun word => Py.contains word content) keywords.

(** Line 76. *)
Definition all_keys (meta : gmap string MetaVal) : bool :=
  forallb (fun key => bool_decide (is_Some (meta !! key)))
    ["source"; "page"; "chunk_id"].

(** Lines 66-77: one ranked candidate; [hit] is the flag of the query.
    A document whose metadata is [None] has no [get]. *)
Definition candidate (keywords : list string) (rank : nat)
    (doc : Document) (score : float) (hit : bool) (st : State)
    : Chroma1.Outcome bool * State :=
  let content := Py.lower (page_content doc) in
  let st := print (RankScore rank score) st in
  match metadata doc with
  | None =>
      (Chroma1.Raises
         "AttributeError: 'NoneType' object has no attribute 'get'", st)
  | Some meta =>
      let st := print (SourcePage (meta !! "source") (meta !! "page")) st in
      let hit := if all_in keywords content then true else hit in
      (Chroma1.Returns hit,
       mkState (printed st) (successful_hits st)
         (metadata_coverage st ++ [all_keys meta]))
  end.

(** Lines 65-77. *)
Fixpoint candidates (keywords : list string) (rank : nat)
    (docs : list (Document * float)) (hit : bool) (st : State)
    : Chroma1.Outcome bool * State :=
  match docs with
  | [] => (Chroma1.Returns hit, st)
  | (doc, score) :: docs' =>
      match candidate keywords rank doc score hit st with
      | (Chroma1.Returns hit', st') =>
          candidates keywords (S rank) docs' hit' st'
      | (Chroma1.Raises e, st') => (Chroma1.Raises e, st')
      end
  end.

(** Lines 57-80: one test query. *)
Definition test_query (db : AgentService.Chroma) (test : Test) (st : State)
    : Chroma1.Outcome unit * State :=
  let docs :=
    (AgentService.similarity_search_with_score db (query test) k).1 in
  let st := print (Query (query test)) st in
  match candidates (expected_keywords test) 1 docs false st with
  | (Chroma1.Returns hit, st') =>
      (Chroma1.Returns tt,
       if hit
       then mkState (printed st') (S (successful_hits st'))
              (metadata_coverage st')
       else st')
  | (Chroma1.Raises e, st') => (Chroma1.Raises e, st')
  end.

(** Lines 56-80. *)
Fixpoint test_queries (db : AgentService.Chroma) (tests : list Test)
    (st : State) : Chroma1.Outcome unit * State :=
  match tests with
  | [] => (Chroma1.Returns tt, st)
  | test :: tests' =>
      match test_query db test st with
      | (Chroma1.Returns _, st') => test_queries db tests' st'
      | (Chroma1.Raises e, st') => (Chroma1.Raises e, st')
      end
  end.

#[local] Set Warnings "-inexact-float".
(** Lines 93-98. *)
Definition retrieval_verdict (recall_at_k : float) : Verdict :=
  if PrimFloat.leb 0.8 recall_at_k then HighRetrievalQuality
  else if PrimFloat.leb 0.6 recall_at_k then MediumRetrievalQuality
  else LowRetrievalQuality.

(** Lines 100-103. *)
Definition metadata_verdict (metadata_score : float) : Verdict :=
  if PrimFloat.leb 0.9 metadata_score then MetadataExcellent
  else MetadataNeedsImprovement.
#[local] Set Warnings "+inexact-float".

(** Lines 29-103.  [count] is what [db._collection.count()] gives. *)
Definition script (db : AgentService.Chroma) (count : Z)
    : Chroma1.Outcome unit * State :=
  let st := mkState [] 0 [] in
  let st := print (Heading "=== DATABASE HEALTH ===") st in
  let st := print (TotalChunks count) st in
  let total_queries := length evaluation_queries in
  let st := print (Heading "=== RETRIEVAL QUALITY ===") st in
  match test_queries db evaluation_queries st with
  | (Chroma1.Raises e, st) => (Chroma1.Raises e, st)
  | (Chroma1.Returns _, st) =>
      let recall_at_k :=
        PrimFloat.div (float_of_nat (successful_hits st))
          (float_of_nat total_queries) in
      match length (metadata_coverage st) with
      | O => (Chroma1.Raises "ZeroDivisionError: division by zero", st)
      | S _ as n =>
          let metadata_score :=
            PrimFloat.div (float_of_nat (sum (metadata_coverage st)))
              (float_of_nat n) in
          let st := print (Heading "=== FINAL METRICS ===") st in
          let st := print (Recall k recall_at_k) st in
          let st := print (MetadataCompleteness metadata_score) st in
          let st := print (Heading "=== INTERPRETATION ===") st in
          let st := print (Interpretation (retrieval_verdict recall_at_k)) st in
          let st :=
            print (Interpretation (metadata_verdict metadata_score)) st in
          (Chroma1.Returns tt, st)
      end
  end.

End EvaluateChromaQuality.

(** ** Vocabulary for the further properties *)

Module Props.

(** What [pdf_retriever_all] gets from one index: the index name and the
    result of the search with [k = 5]. *)
Definition searched (query : string) (store : string * AgentService.Chroma)
    : string * AgentService.RetrievalResult :=
  (store.1, (AgentService.search_pdf_from_db store.2 query 5).1).

(** The result has a context. *)
Definition has_context (r : string * AgentService.RetrievalResult) : bool :=
  negb (String.eqb (AgentService.context r.2) "").

(** The block of one index in the merged context. *)
Definition index_block (r : string * AgentService.RetrievalResult) : string :=
  "=== " +:+ r.1 +:+ " ===" +:+ Py.nl +:+ AgentService.context r.2.

(** Every character of the text is in [[a-zA-Z0-9_-]]. *)
Fixpoint all_name_chars (s : string) : bool :=
  match s with
  | "" => true
  | String c s' => Chroma1.name_char c && all_name_chars s'
  end.

(** What a call added to the trace. *)
Definition new_events (st st' : Chroma1.State) : list Chroma1.Event :=
  drop (length (Chroma1.trace st)) (Chroma1.trace st').

(** The entry is a directory whose name starts with "chroma_". *)
Definition is_index_folder (e : Startup.Entry) : bool :=
  Startup.entry_is_dir e && Py.startswith "chroma_" (Startup.entry_name e).

(** A sample base directory: two index folders, a folder of another kind
    and a file with an index-like name. *)
Definition sample_base : Startup.Node :=
  Startup.Dir
    [Startup.mkEntry "chroma_guide" true (fun _ => []);
     Startup.mkEntry "cache" true (fun _ => []);
     Startup.mkEntry "chroma_notes.txt" false (fun _ => []);
     Startup.mkEntry "chroma_fees" true (fun _ => [])].

(** The event is no embedding call. *)
Definition no_embedding (ev : Chroma1.Event) : Prop :=
  match ev with
  | Chroma1.EvFromDocuments _ _ => False
  | _ => True
  end.

(** The chunk is tagged for the file: its source is the file name, its
    index the file's index name, and it has a page entry and a number. *)
Definition tagged_for (filename : string) (doc : Document) : Prop :=
  AgentService.doc_source doc = MStr filename
  ∧ AgentService.doc_db_name doc = MStr (Chroma1.db_name_of filename)
  ∧ is_Some (AgentService.doc_page doc)
  ∧ is_Some (AgentService.doc_meta doc !! "chunk_id").

(** The event is no embedding call, or it embeds chunks tagged for the
    file into the file's own index folder. *)
Definition embedded_for (filename : string) (ev : Chroma1.Event) : Prop :=
  match ev with
  | Chroma1.EvFromDocuments chunks persist_dir =>
      persist_dir
      = Chroma1.path_join Chroma1.BASE_PERSIST_DIR
          (Chroma1.db_name_of filename)
      ∧ Forall (tagged_for filename) chunks
  | _ => True
  end.

(** From [st] to [st'] the trace grew by events that satisfy [P], and
    the embedding calls by at most [n]. *)
Definition grows (P : Chroma1.Event → Prop) (n : nat)
    (st st' : Chroma1.State) : Prop :=
  (∃ t, Chroma1.trace st' = Chroma1.trace st ++ t ∧ Forall P t)
  ∧ (Chroma1.calls st ≤ Chroma1.calls st' ≤ Chroma1.calls st + n)%nat.

(** A folder with one Word file that the converter cannot convert. *)
Definition broken_docx_world : Chroma1.Env :=
  Chroma1.mkEnv ["report.docx"]
    (fun _ => false)
    Examples.sample_loader
    (fun _ _ => Chroma1.Raises "Word is not installed")
    (fun pages => pages)
    (fun _ => None)
    (fun _ => 4096%N).

(** A folder without any PDF or Word file. *)
Definition text_only_world : Chroma1.Env :=
  Chroma1.mkEnv ["notes.txt"; "data.csv"; "pdf"]
    (fun _ => false)
    Examples.sample_loader
    (fun _ _ => Chroma1.Returns tt)
    (fun pages => pages)
    (fun _ => None)
    (fun _ => 12%N).

(** The fetch a search of an index makes. *)
Definition fetch_of (query : string) (store : string * AgentService.Chroma)
    : AgentService.Event :=
  AgentService.EvSearchWithScore
    (AgentService.persist_directory store.2) query 12.

End Props.

(** ** Vocabulary for the web layer and the evaluation script *)

Module Terms.

(** The request logs the session in: a POST to "/login" with the
    configured user name and password. *)
Definition logs_in (env : App.Env) (call : App.Call) : bool :=
  match call with
  | App.to_login req =>
      match App.method req with
      | App.POST =>
          bool_decide (App.form req !! "username" = Some (App.USERNAME env))
          && bool_decide
               (App.form req !! "password" = Some (App.PASSWORD env))
      | App.GET => false
      end
  | _ => false
  end.

(** The response turns the visitor away: to the login route, to the
    login form, or with 401. *)
Definition turned_away (r : App.Response) : Prop :=
  match r with
  | App.redirect endpoint => endpoint = "login"
  | App.render_template template _ => template = "login.html"
  | App.jsonify body status =>
      body = [("error", "Unauthorized")] ∧ status = 401%nat
  | App.abort _ | App.raises _ => False
  end.

(** The rows the next save finds in the file. *)
Definition earlier_rows (env : ExcelStore.Env) (st : ExcelStore.State)
    : list ExcelStore.Row :=
  match ExcelStore.sheet st with
  | Some rows => ExcelStore.read_excel env rows
  | None => []
  end.

(** A logged-in session that asks one question and rates the answer. *)
Definition sample_app : App.Env :=
  App.mkEnv "admin" "s3cret" Examples.two_tool_env
    (ExcelStore.mkEnv (fun n => "2024-05-01 10:00:0" +:+ Py.str_of_int (Z.of_nat n))
       (fun rows => rows)).

Definition fresh : App.State :=
  App.mkState ∅ (ExcelStore.mkState None 0) [].

Definition signed_in : App.State :=
  App.mkState {["logged_in" := true]} (ExcelStore.mkState None 0) [].

Definition ask (prompt : string) : App.Request :=
  App.mkRequest App.POST ∅
    (App.json_object (<["prompt" := prompt]> {["chatId" := "c1"]})).

Definition credentials (username password : string) : App.Request :=
  App.mkRequest App.POST
    (<["username" := username]> {["password" := password]}) App.not_json.

(** A feedback with a rating and no comment. *)
Definition rate (rating : string) : App.Request :=
  App.mkRequest App.POST ∅
    (App.json_object
       (<["rating" := rating]>
          (<["question" := "What is the fee?"]> {["chatId" := "c1"]}))).

(** A request whose body is sent as a form, not as JSON. *)
Definition form_post : App.Request :=
  App.mkRequest App.POST {["prompt" := "What is the fee?"]} App.not_json.

(** What an index serves to a test query of the evaluation. *)
Definition served (db : AgentService.Chroma)
    (test : EvaluateChromaQuality.Test) : list (Document * float) :=
  firstn EvaluateChromaQuality.k
    (AgentService.ranking db (EvaluateChromaQuality.query test)).

Definition all_served (db : AgentService.Chroma)
    : list (Document * float) :=
  concat (map (served db) EvaluateChromaQuality.evaluation_queries).

(** The candidate holds all the keywords, in any case of letters. *)
Definition holds (keywords : list string) (item : Document * float)
    : bool :=
  EvaluateChromaQuality.all_in keywords (Py.lower (page_content item.1)).

(** Some candidate served to the test holds all its keywords. *)
Definition hit (db : AgentService.Chroma)
    (test : EvaluateChromaQuality.Test) : bool :=
  existsb (holds (EvaluateChromaQuality.expected_keywords test))
    (served db test).

(** The number of test queries with a hit. *)
Fixpoint count_hits (db : AgentService.Chroma)
    (tests : list EvaluateChromaQuality.Test) : nat :=
  match tests with
  | [] => 0
  | test :: tests' =>
      ((if hit db test then 1 else 0) + count_hits db tests')%nat
  end.

(** The candidate has the keys "source", "page" and "chunk_id". *)
Definition complete (item : Document * float) : bool :=
  match metadata item.1 with
  | Some meta => EvaluateChromaQuality.all_keys meta
  | None => false
  end.

Definition has_metadata (item : Document * float) : Prop :=
  is_Some (metadata item.1).

(** The retrieval verdict, by the number of hits among three queries. *)
Definition verdict_of_hits (hits : nat) : EvaluateChromaQuality.Verdict :=
  match hits with
  | 3%nat => EvaluateChromaQuality.HighRetrievalQuality
  | 2%nat => EvaluateChromaQuality.MediumRetrievalQuality
  | _ => EvaluateChromaQuality.LowRetrievalQuality
  end.

(** The metadata verdict, by the number of complete candidates among
    those served: excellent from nine in ten. *)
Definition verdict_of_share (complete served : nat)
    : EvaluateChromaQuality.Verdict :=
  if (9 * served <=? 10 * complete)%nat
  then EvaluateChromaQuality.MetadataExcellent
  else EvaluateChromaQuality.MetadataNeedsImprovement.

Definition Verdict_eqb (a b : EvaluateChromaQuality.Verdict) : bool :=
  match a, b with
  | EvaluateChromaQuality.HighRetrievalQuality,
    EvaluateChromaQuality.HighRetrievalQuality
  | EvaluateChromaQuality.MediumRetrievalQuality,
    EvaluateChromaQuality.MediumRetrievalQuality
  | EvaluateChromaQuality.LowRetrievalQuality,
    EvaluateChromaQuality.LowRetrievalQuality
  | EvaluateChromaQuality.MetadataExcellent,
    EvaluateChromaQuality.MetadataExcellent
  | EvaluateChromaQuality.MetadataNeedsImprovement,
    EvaluateChromaQuality.MetadataNeedsImprovement => true
  | _, _ => false
  end.

(** The metadata verdict of the script agrees with the share, for
    [complete <= served]. *)
Definition share_agrees (served complete : nat) : bool :=
  Verdict_eqb
    (EvaluateChromaQuality.metadata_verdict
       (PrimFloat.div (EvaluateChromaQuality.float_of_nat complete)
          (EvaluateChromaQuality.float_of_nat served)))
    (verdict_of_share complete served).

Definition share_table (bound : nat) : bool :=
  forallb (fun served =>
             forallb (share_agrees served) (seq 0 (S served)))
    (seq 1 bound).

(** The document is a chunk as the ingestion loop of [chroma1.py] tags
    it. *)
Definition ingested (doc : Document) : Prop :=
  ∃ filename doc_type db_name i c,
    doc = Chroma1.tag_chunk filename doc_type db_name i c.

#[local] Set Warnings "-inexact-float".
(** An index of two ingested chunks, served to every query. *)
Definition finance_index : AgentService.Chroma :=
  AgentService.mkChroma "./chroma_db_chunk_600_overlap_100"
    (fun _ =>
       [(Chroma1.tag_chunk "finance.pdf" (Some "pdf") "chroma_finance" 0
           (mkDocument
              "The Net Present Value is the present value of all cash flows."
              (Some {["page" := MInt 3]})),
         0.21%float);
        (Chroma1.tag_chunk "finance.pdf" (Some "pdf") "chroma_finance" 1
           (mkDocument
              "EBITDA: earnings before interest, tax, depreciation."
              None),
         0.35%float)]).
#[local] Set Warnings "+inexact-float".

End Terms.

(** * Proofs *)

(** ** Ordered dictionaries and first-seen deduplication *)

Lemma filter_all {A} (P : A → Prop) `{!∀ a, Decision (P a)} (l : list A) :
  (∀ a, a ∈ l → P a) → filter P l = l.
Proof.
  induction l as [|a l IH]; intros Hall; [done|].
  rewrite filter_cons_True by (apply Hall; left).
  f_equal. apply IH. intros b Hb. apply Hall. by right.
Qed.

Section FirstSeen.
Implicit Types (l acc : list string) (x y : string).


Lemma first_seen_filter (P : string → Prop) `{!∀ x, Decision (P x)} l :
  Spec.first_seen (filter P l) = filter P (Spec.first_seen l).
Proof.
  induction l as [|x l IH]; [done|].
  rewrite filter_cons. destruct (decide (P x)) as [HP|HP]; simpl.
  - rewrite filter_cons_True by done. f_equal.
    rewrite IH, !list_filter_filter. apply list_filter_iff. tauto.
  - rewrite filter_cons_False by done.
    rewrite IH, list_filter_filter. apply list_filter_iff.
    intros y. split; [|tauto]. intros Hy. split; [done|congruence].
Qed.

Lemma elem_of_first_seen l x : x ∈ Spec.first_seen l ↔ x ∈ l.
Proof.
  induction l as [|y l IH]; simpl; [done|].
  rewrite !elem_of_cons, list_elem_of_filter, IH.
  destruct (decide (x = y)); tauto.
Qed.

Lemma NoDup_first_seen l : NoDup (Spec.first_seen l).
Proof.
  induction l as [|y l IH]; simpl; [constructor|].
  constructor; [|by apply NoDup_filter].
  rewrite list_elem_of_filter. tauto.
Qed.

Lemma first_seen_sublist l : sublist (Spec.first_seen l) l.
Proof.
  induction l as [|y l IH]; simpl; [done|].
  constructor. etrans; [apply sublist_filter|done].
Qed.

Lemma first_seen_app l1 l2 :
  Spec.first_seen (l1 ++ l2)
  = Spec.first_seen l1 ++ filter (λ y, y ∉ l1) (Spec.first_seen l2).
Proof.
  induction l1 as [|x l1 IH]; simpl.
  - symmetry. apply filter_all. intros y _. set_solver.
  - f_equal. rewrite IH, filter_app. f_equal.
    rewrite list_filter_filter. apply list_filter_iff.
    intros y. rewrite not_elem_of_cons. tauto.
Qed.

Lemma first_seen_NoDup l : NoDup l → Spec.first_seen l = l.
Proof.
  induction 1 as [|x l Hx Hl IH]; simpl; [done|].
  rewrite IH. f_equal. apply filter_all.
  intros y Hy. congruence.
Qed.

(** Filling an ordered dictionary key by key is first-seen
    deduplication of what the dictionary did not hold yet. *)
Lemma fold_od_set l acc :
  fold_left od_set l acc
  = acc ++ Spec.first_seen (filter (λ y, y ∉ acc) l).
Proof.
  revert acc. induction l as [|x l IH]; intros acc; simpl.
  - by rewrite app_nil_r.
  - rewrite IH. unfold od_set. rewrite filter_cons.
    case_bool_decide as Hx.
    + by rewrite decide_False by tauto.
    + rewrite decide_True by done. simpl. rewrite <- app_assoc. simpl.
      do 2 f_equal. rewrite <- first_seen_filter, list_filter_filter.
      f_equal. apply list_filter_iff. intros y.
      rewrite not_elem_of_app, list_elem_of_singleton. tauto.
Qed.

Lemma fold_od_set_nil l : fold_left od_set l [] = Spec.first_seen l.
Proof.
  rewrite fold_od_set. simpl. f_equal.
  apply filter_all. intros y _. set_solver.
Qed.

Lemma fold_od_set_first_seen l1 l2 :
  fold_left od_set l2 (Spec.first_seen l1) = Spec.first_seen (l1 ++ l2).
Proof.
  rewrite fold_od_set, first_seen_app. f_equal.
  rewrite first_seen_filter. apply list_filter_iff.
  intros y. by rewrite elem_of_first_seen.
Qed.
End FirstSeen.

(** ** Strings *)

Section StringFacts.
Implicit Types (s t p sep : string) (c : ascii).

Lemma append_nil_r s : s +:+ "" = s.
Proof. induction s; simpl; [done|]. unfold String.app. simpl. by f_equal. Qed.

Lemma append_assoc s t p : (s +:+ t) +:+ p = s +:+ (t +:+ p).
Proof. induction s; simpl; [done|]. unfold String.app in *. simpl. by f_equal. Qed.

Lemma append_cons c s t : String c s +:+ t = String c (s +:+ t).
Proof. done. Qed.

Lemma length_append s t :
  String.length (s +:+ t) = (String.length s + String.length t)%nat.
Proof. induction s; simpl; [done|]. unfold String.app in *. simpl. by f_equal. Qed.

Lemma prefix_cons c1 c2 s t :
  String.prefix (String c1 s) (String c2 t)
  = if ascii_dec c1 c2 then String.prefix s t else false.
Proof. done. Qed.

Lemma prefix_append s t : String.prefix s (s +:+ t) = true.
Proof.
  induction s as [|c s IH]; [by destruct t|].
  rewrite append_cons, prefix_cons. by destruct (ascii_dec c c).
Qed.

Lemma drop_length_append s t : Py.drop (String.length s) (s +:+ t) = t.
Proof. induction s as [|c s IH]; [by destruct t|]. by rewrite append_cons. Qed.

Lemma contains_eq sep s :
  Py.contains sep s
  = String.prefix sep s
    || match s with "" => false | String _ s' => Py.contains sep s' end.
Proof. by destruct s. Qed.

Lemma after_first_eq sep s :
  Py.after_first sep s
  = if String.prefix sep s then Some (Py.drop (String.length sep) s)
    else match s with "" => None | String _ s' => Py.after_first sep s' end.
Proof. by destruct s. Qed.

(** [sub in s] is the test [split] makes before it cuts. *)
Lemma after_first_contains sep s :
  Py.contains sep s = bool_decide (is_Some (Py.after_first sep s)).
Proof.
  induction s as [|c s IH]; rewrite contains_eq, after_first_eq;
    destruct (String.prefix sep _); simpl; try done;
    symmetry; try (by apply bool_decide_eq_true);
    try (apply bool_decide_eq_false; by intros [? ?]).
Qed.

Lemma after_first_None sep s :
  Py.contains sep s = false → Py.after_first sep s = None.
Proof.
  rewrite after_first_contains. intros H%bool_decide_eq_false.
  destruct (Py.after_first sep s); [|done]. by destruct H.
Qed.
End StringFacts.

(** ** Citation extraction *)

Section Extraction.
Import AgentService.

Lemma fold_extract_line lines acc :
  fold_left extract_line lines acc
  = acc ++ filter (λ c, negb (Spec.has_page_na c))
             (map Spec.entry_of
                (filter Spec.is_bullet (map Py.strip lines))).
Proof.
  revert acc. induction lines as [|line lines IH]; intros acc; simpl.
  - by rewrite app_nil_r.
  - rewrite IH, filter_cons. unfold extract_line.
    destruct (decide _) as [Hb|Hb]; unfold Spec.is_bullet in Hb;
      destruct (Py.startswith "-" (Py.strip line)); try done.
    rewrite fmap_cons, filter_cons.
    destruct (decide _) as [Hna|Hna];
      unfold Spec.has_page_na, Spec.entry_of in Hna;
      destruct (Py.contains "Page N/A" _); try done.
    by rewrite <- app_assoc.
Qed.

(** The loop of [extract_citations] computes the citation lines. *)
Lemma extract_citations_spec text :
  extract_citations text = Spec.citation_lines text.
Proof.
  unfold extract_citations, Spec.citation_lines.
  destruct (String.eqb text "") eqn:He; simpl.
  - apply String.eqb_eq in He as ->. done.
  - destruct (Py.contains "Citations:" text) eqn:Hc; simpl.
    + destruct (Py.after_first "Citations:" text); [|done].
      by rewrite fold_extract_line.
    + by rewrite after_first_None.
Qed.

Lemma collect_citations_from (steps : list (AgentAction * string)) seen :
  fold_left
    (λ citations step,
       fold_left od_set (extract_citations step.2) citations)
    steps (Spec.first_seen seen)
  = Spec.first_seen
      (seen ++ concat (map (λ step, Spec.citation_lines step.2) steps)).
Proof.
  revert seen. induction steps as [|step steps IH]; intros seen; simpl.
  - by rewrite app_nil_r.
  - rewrite fold_od_set_first_seen, IH, extract_citations_spec.
    by rewrite <- app_assoc.
Qed.

(** Lines 302-305 deduplicate the citation lines of the observations in
    first-seen order, across the steps in the order they were made. *)
Lemma collect_citations_spec (steps : list (AgentAction * string)) :
  collect_citations steps
  = Spec.first_seen
      (concat (map (λ step, Spec.citation_lines step.2) steps)).
Proof. apply (collect_citations_from steps []). Qed.
End Extraction.

(** ** What a tool prints, [extract_citations] reads back *)

Section RoundTrip.
Import AgentService.
Implicit Types (s t a b sep : string) (c : ascii).

Lemma nl_append s : Py.nl +:+ s = String Py.LF s.
Proof. done. Qed.

(** A separator without the character [c] that starts inside [a] and
    matches [a] followed by [c] lies within [a]. *)
Lemma prefix_before_char sep a c b :
  Spec.occurs c sep = false →
  String.prefix sep (a +:+ String c b) = true → String.prefix sep a = true.
Proof.
  revert a. induction sep as [|d sep IH]; intros a Hc Hp.
  - by destruct a.
  - simpl in Hc. apply orb_false_iff in Hc as [Hd Hc].
    destruct a as [|e a].
    + change ("" +:+ String c b) with (String c b) in Hp.
      rewrite prefix_cons in Hp. destruct (ascii_dec d c) as [->|]; [|done].
      by rewrite Ascii.eqb_refl in Hd.
    + rewrite append_cons, prefix_cons in Hp. rewrite prefix_cons.
      destruct (ascii_dec d e); [|done]. by apply IH.
Qed.

Lemma after_first_skip sep a c b :
  Spec.occurs c sep = false → Py.contains sep a = false →
  Py.after_first sep (a +:+ String c b) = Py.after_first sep (String c b).
Proof.
  intros Hc. induction a as [|e a IH]; intros Ha; [done|].
  rewrite contains_eq in Ha. apply orb_false_iff in Ha as [Hp Ha].
  rewrite after_first_eq.
  destruct (String.prefix sep (String e a +:+ String c b)) eqn:Hp'.
  - apply prefix_before_char in Hp'; [congruence|done].
  - rewrite append_cons. by apply IH.
Qed.

Lemma after_marker rest :
  Py.after_first "Citations:"
    (Py.nl +:+ Py.nl +:+ "Citations:" +:+ Py.nl +:+ rest)
  = Some (Py.nl +:+ rest).
Proof. done. Qed.

Lemma no_linebreak_append a b :
  Spec.no_linebreak (a +:+ b) = Spec.no_linebreak a && Spec.no_linebreak b.
Proof.
  induction a as [|c a IH]; [done|].
  rewrite append_cons. simpl. by rewrite IH, andb_assoc.
Qed.

Lemma segments_cons c s :
  Py.segments (String c s)
  = if Py.islinebreak c then
      "" :: (if Ascii.eqb c Py.CR
             then match s with
                  | String c' s'' =>
                      if Ascii.eqb c' Py.LF then Py.segments s''
                      else Py.segments s
                  | "" => Py.segments s
                  end
             else Py.segments s)
    else match Py.segments s with
         | l :: ls => String c l :: ls
         | [] => [String c ""]
         end.
Proof. done. Qed.

Lemma segments_line a b :
  Spec.no_linebreak a = true →
  Py.segments (a +:+ String Py.LF b) = a :: Py.segments b.
Proof.
  induction a as [|c a IH]; intros Ha.
  - change ("" +:+ String Py.LF b) with (String Py.LF b).
    by rewrite segments_cons.
  - simpl in Ha. apply andb_true_iff in Ha as [Hc Ha].
    rewrite append_cons, segments_cons, IH by done.
    by destruct (Py.islinebreak c).
Qed.

Lemma segments_one a : Spec.no_linebreak a = true → Py.segments a = [a].
Proof.
  induction a as [|c a IH]; intros Ha; [done|].
  simpl in Ha. apply andb_true_iff in Ha as [Hc Ha].
  rewrite segments_cons, IH by done. by destruct (Py.islinebreak c).
Qed.

Lemma join_cons_cons sep x y l :
  Py.join sep (x :: y :: l) = x +:+ sep +:+ Py.join sep (y :: l).
Proof. done. Qed.

Lemma segments_join lines :
  Forall (λ x, Spec.no_linebreak x = true) lines → lines ≠ [] →
  Py.segments (Py.join Py.nl lines) = lines.
Proof.
  induction 1 as [|x [|y l] Hx Hl IH]; intros Hne; [done| |].
  - by apply segments_one.
  - rewrite join_cons_cons, nl_append, segments_line by done.
    f_equal. by apply IH.
Qed.

Lemma drop_last_empty_nonempty x lines :
  Forall (λ y, y ≠ "") lines → lines ≠ [] →
  Py.drop_last_empty (x :: lines) = x :: lines.
Proof.
  intros Hl. revert x. induction Hl as [|y l Hy Hl IH]; intros x Hne; [done|].
  change (Py.drop_last_empty (x :: y :: l))
    with (x :: Py.drop_last_empty (y :: l)).
  f_equal. destruct l as [|z l].
  - simpl. destruct (String.eqb_spec y ""); done.
  - by apply IH.
Qed.

Lemma rstrip_cons c s :
  Py.rstrip (String c s)
  = match Py.rstrip s with
    | "" => if Py.isspace c then "" else String c ""
    | r => String c r
    end.
Proof. done. Qed.

Lemma rstrip_idemp s : Py.rstrip (Py.rstrip s) = Py.rstrip s.
Proof.
  induction s as [|c s IH]; [done|].
  rewrite rstrip_cons. destruct (Py.rstrip s) as [|d r] eqn:Hr.
  - destruct (Py.isspace c) eqn:Hc; [done|].
    rewrite rstrip_cons. simpl. by rewrite Hc.
  - rewrite rstrip_cons, IH. done.
Qed.

(** The bulleted line of a stripped citation is read back as it was. *)
Lemma bullet_read_back cit :
  Py.strip cit = cit →
  Spec.is_bullet (Py.strip ("- " +:+ cit)) = true
  ∧ Spec.entry_of (Py.strip ("- " +:+ cit)) = cit.
Proof.
  intros Hs. unfold Py.strip in *.
  change ("- " +:+ cit) with (String "-" (String " " cit)).
  rewrite !rstrip_cons.
  destruct (Py.rstrip cit) as [|d r] eqn:Hr.
  - simpl in Hs. subst cit. done.
  - split; [done|]. unfold Spec.entry_of, Py.strip.
    change (Py.drop 1 (Py.lstrip (String "-" (String " " (String d r)))))
      with (String " " (String d r)).
    rewrite rstrip_cons, <- Hr, rstrip_idemp, Hr. simpl Py.lstrip at 1.
    change (Py.lstrip (String " " (String d r)))
      with (Py.lstrip (String d r)).
    done.
Qed.
End RoundTrip.

Section ToolOutput.
Import AgentService.

Lemma citation_block_cons c cs :
  citation_block (c :: cs)
  = Py.nl +:+ Py.nl +:+ "Citations:" +:+ Py.nl
    +:+ Py.join Py.nl (map (λ c, "- " +:+ c) (c :: cs)).
Proof. done. Qed.

Lemma clean_citation_line c :
  Spec.clean_citation c = true →
  Spec.no_linebreak ("- " +:+ c) = true ∧ "- " +:+ c ≠ ""
  ∧ Py.strip c = c ∧ Spec.has_page_na c = false.
Proof.
  unfold Spec.clean_citation.
  intros [[Hl Hs%String.eqb_eq]%andb_true_iff Hn%negb_true_iff]%andb_true_iff.
  repeat split; done.
Qed.

Lemma read_back_lines cs :
  forallb Spec.clean_citation cs = true →
  filter (λ c, negb (Spec.has_page_na c))
    (map Spec.entry_of
       (filter Spec.is_bullet
          (map Py.strip (map (λ c, "- " +:+ c) cs))))
  = cs.
Proof.
  induction cs as [|c cs IH]; intros Hcs; [done|].
  simpl in Hcs. apply andb_true_iff in Hcs as [Hc Hcs].
  apply clean_citation_line in Hc as (_ & _ & Hs & Hn).
  destruct (bullet_read_back c Hs) as [Hb He].
  rewrite !fmap_cons, filter_cons_True by by rewrite Hb.
  rewrite fmap_cons, He, filter_cons_True by by rewrite Hn.
  f_equal. by apply IH.
Qed.

(** Reading the citations back from what a tool returns gives the
    citations of the retrieval result, in their order. *)
Lemma extract_format_round_trip (r : RetrievalResult) :
  Spec.clean_result r = true →
  Spec.citation_lines (format_context_with_citations r) = citations r.
Proof.
  unfold Spec.clean_result, format_context_with_citations.
  intros [[Hctx%negb_true_iff Hm%negb_true_iff]%andb_true_iff Hcs]%andb_true_iff.
  destruct (Py.strip (context r)) as [|c0 ctx] eqn:Hstrip; [done|].
  unfold Spec.citation_lines.
  destruct (citations r) as [|c cs] eqn:Hr.
  - unfold citation_block. rewrite append_nil_r.
    by rewrite after_first_None.
  - rewrite citation_block_cons, nl_append.
    rewrite after_first_skip by done.
    rewrite <- nl_append, after_marker.
    unfold Py.splitlines. rewrite nl_append.
    change (String Py.LF ?s) with ("" +:+ String Py.LF s).
    rewrite segments_line by done.
    assert (Forall (λ x, Spec.no_linebreak x = true ∧ x ≠ "")
              (map (λ c, "- " +:+ c) (c :: cs))) as Hall.
    { apply Forall_fmap, Forall_forall. intros x Hx. simpl.
      rewrite forallb_forall in Hcs.
      apply list_elem_of_In, Hcs, clean_citation_line in Hx. tauto. }
    rewrite segments_join;
      [|by eapply Forall_impl; [exact Hall|]; intros ? []|done].
    rewrite drop_last_empty_nonempty;
      [|by eapply Forall_impl; [exact Hall|]; intros ? []|done].
    rewrite fmap_cons. change (Py.strip "") with "".
    rewrite filter_cons_False by (by compute).
    by apply read_back_lines.
Qed.

Lemma round_trip_all (rs : list RetrievalResult) :
  forallb Spec.clean_result rs = true →
  concat (map Spec.citation_lines (map format_context_with_citations rs))
  = concat (map citations rs).
Proof.
  induction rs as [|r rs IH]; intros Hrs; [done|].
  simpl in Hrs. apply andb_true_iff in Hrs as [Hr Hrs].
  rewrite !fmap_cons, !concat_cons, extract_format_round_trip by done.
  f_equal. by apply IH.
Qed.
End ToolOutput.

(** ** The answer assembler's citation list (C1) *)

(** C1.  Whatever question is asked with a non-empty registry, the answer
    ends with the citation block of the citation lines of the observations
    (after the first "Citations:" of each observation, the lines that
    start with "-" once stripped, without the entries containing
    "Page N/A"), deduplicated
    by exact string in first-seen order across the invocations in the order
    they occurred.  The list has no repetition and holds exactly the
    citation lines of the observations.  When the observations are what
    the tools print for retrieval results with clean citations, the list
    is the first-seen deduplication of the results' own citation lists. *)
Theorem ask_agent_citations_first_seen
    (env : AgentService.Env) (question : string) :
  AgentService.vectorstores env ≠ [] →
  let style :=
    (AgentService.retrieve_style_examples
       (AgentService.style_vectorstore env) question 5).1 in
  let result := AgentService.agent_executor env question style in
  let steps := default [] (AgentService.intermediate_steps result) in
  let cits :=
    Spec.first_seen
      (concat (map (λ step, Spec.citation_lines step.2) steps)) in
  (AgentService.ask_agent env question).1
  = AgentService.remove_existing_citations (AgentService.output result)
    +:+ AgentService.citation_block cits
  ∧ NoDup cits
  ∧ (∀ c, c ∈ cits ↔ ∃ step, step ∈ steps ∧ c ∈ Spec.citation_lines step.2)
  ∧ (∀ rs : list AgentService.RetrievalResult,
       map snd steps = map AgentService.format_context_with_citations rs →
       forallb Spec.clean_result rs = true →
       cits = Spec.first_seen (concat (map AgentService.citations rs))).
Proof.
  intros Hreg style result steps cits. split_and!.
  - unfold AgentService.ask_agent.
    destruct (AgentService.vectorstores env) as [|vs rest]; [done|].
    unfold AgentService.bind, AgentService.agent_executor_invoke,
      AgentService.ret. simpl.
    by rewrite collect_citations_spec.
  - apply NoDup_first_seen.
  - intros c. unfold cits.
    rewrite elem_of_first_seen, list_elem_of_In, in_concat. split.
    + intros (l & (step & <- & Hstep)%in_map_iff & Hc).
      exists step. by rewrite !list_elem_of_In.
    + intros (step & Hstep & Hc). exists (Spec.citation_lines step.2).
      split; [|by apply list_elem_of_In].
      apply in_map_iff. exists step. split; [done|by apply list_elem_of_In].
  - intros rs Hobs Hclean. unfold cits.
    rewrite <- (round_trip_all rs Hclean), <- Hobs, <- list_fmap_compose.
    done.
Qed.

(** The example of the specification: two invocations returning
    A/B and B/C give the block A, B, C, and the loop's own "Z, Page 9"
    is not in it. *)
Lemma ask_agent_citations_example :
  (AgentService.ask_agent Examples.two_tool_env "What is covered?").1
  = "The answer."
    +:+ AgentService.citation_block ["A, Page 3"; "B, Page 1"; "C, Page 2"].
Proof.
  destruct (ask_agent_citations_first_seen Examples.two_tool_env
              "What is covered?" ltac:(done)) as (Heq & _ & _ & Hrs).
  rewrite Heq.
  rewrite (Hrs [Examples.result_1; Examples.result_2]) by reflexivity.
  reflexivity.
Defined.

(** ** Retrieval: threshold, truncation, over-fetch (C2, C10) *)

Section Retrieval.
Import AgentService.

Lemma slice_to_nonneg {A} (k : Z) (l : list A) :
  0 ≤ k → slice_to k l = take (Z.to_nat k) l.
Proof. intros Hk. unfold slice_to. by rewrite (proj2 (Z.leb_le 0 k)). Qed.

Lemma slice_to_sublist {A} (k : Z) (l : list A) : sublist (slice_to k l) l.
Proof. unfold slice_to. destruct (0 <=? k); apply sublist_take. Qed.

Lemma slice_to_ge {A} (k : Z) (l : list A) :
  Z.of_nat (length l) ≤ k → slice_to k l = l.
Proof.
  intros Hk. rewrite slice_to_nonneg by lia. apply take_ge. lia.
Qed.

(** A negative count is Python's slice from the end, not a count. *)
Example slice_to_negative : slice_to (-1) [1; 2; 3] = [1; 2].
Proof. reflexivity. Qed.

Lemma search_pdf_from_db_unfold vs query k :
  search_pdf_from_db vs query k
  = (result_of_docs
       (kept_docs (similarity_search_with_score vs query 12).1 k),
     [EvSearchWithScore (persist_directory vs) query 12]).
Proof. done. Qed.

Lemma fetched_at_most vs query n :
  (length (similarity_search_with_score vs query n).1 ≤ n)%nat.
Proof. simpl. rewrite length_take. lia. Qed.

Lemma kept_docs_length cands k :
  (length (kept_docs cands k) ≤ length cands)%nat.
Proof.
  unfold kept_docs.
  etrans; [apply sublist_length, slice_to_sublist|].
  rewrite length_map. apply length_filter.
Qed.

(** The loop adds one context block per document. *)
Lemma search_step_blocks docs acc :
  length (fold_left search_step docs acc).2
  = (length acc.2 + length docs)%nat.
Proof.
  revert acc. induction docs as [|doc docs IH]; intros acc; simpl; [lia|].
  rewrite IH. unfold search_step.
  destruct (doc_page doc) as [[]|]; simpl; rewrite length_app; simpl; lia.
Qed.
End Retrieval.

(** C2.  For a count [k >= 0], the result of a search is built from the
    candidates whose distance is strictly below 0.38, in the order the
    index returned them, cut after the first [k]: a candidate survives the
    filter if and only if the index returned it with a distance below the
    threshold, and nothing at or above the threshold (or without an order
    to it) is among the kept ones. *)
Theorem search_filters_then_truncates
    (vs : AgentService.Chroma) (query : string) (k : Z) :
  0 ≤ k →
  let cands := (AgentService.similarity_search_with_score vs query 12).1 in
  let survivors :=
    filter (λ ds, PrimFloat.ltb ds.2 AgentService.threshold) cands in
  let kept := take (Z.to_nat k) survivors in
  (AgentService.search_pdf_from_db vs query k).1
  = AgentService.result_of_docs (map fst kept)
  ∧ AgentService.kept_docs cands k = map fst kept
  ∧ (∀ ds, ds ∈ survivors
           ↔ ds ∈ cands ∧ PrimFloat.ltb ds.2 AgentService.threshold = true)
  ∧ sublist survivors cands
  ∧ Forall (λ ds, PrimFloat.ltb ds.2 AgentService.threshold = true) kept
  ∧ (∀ ds, PrimFloat.ltb ds.2 AgentService.threshold = false → ds ∉ kept)
  ∧ (length kept ≤ Z.to_nat k)%nat
  ∧ (length kept = Z.to_nat k `min` length survivors)%nat.
Proof.
  intros Hk cands survivors kept.
  assert (AgentService.kept_docs cands k = map fst kept) as Hkept.
  { unfold AgentService.kept_docs. rewrite slice_to_nonneg by done.
    symmetry. apply fmap_take. }
  assert (∀ ds, ds ∈ survivors
                ↔ ds ∈ cands
                  ∧ PrimFloat.ltb ds.2 AgentService.threshold = true) as Hsurv.
  { intros ds. unfold survivors. rewrite list_elem_of_filter.
    rewrite Is_true_true. tauto. }
  assert (∀ ds, ds ∈ kept → ds ∈ survivors) as Hsub.
  { intros ds Hds. by eapply subseteq_take. }
  split_and!; try done.
  - rewrite search_pdf_from_db_unfold.
    exact (f_equal AgentService.result_of_docs Hkept).
  - apply sublist_filter.
  - apply Forall_forall. intros ds Hds%Hsub%Hsurv. tauto.
  - intros ds Hlt Hds%Hsub%Hsurv. destruct Hds. congruence.
  - unfold kept. rewrite length_take. lia.
  - apply length_take.
Qed.

(** With the default [k = 8], of four candidates at distances 0.12, 0.25,
    0.38 and 0.61 the first two are kept: the one at the threshold itself
    is not. *)
Lemma search_filters_then_truncates_example :
  (AgentService.search_pdf_from_db Examples.guide_index "fees" 8).1
  = AgentService.result_of_docs [Examples.chunk_a; Examples.chunk_na].
Proof.
  destruct (search_filters_then_truncates Examples.guide_index "fees" 8
              ltac:(lia)) as [Heq _].
  rewrite Heq. reflexivity.
Defined.

(** What a search returns for the sample index: two context blocks, the
    second with the page shown as "N/A", and the one citation of the chunk
    with an integer page. *)
Lemma search_example :
  (AgentService.search_pdf_from_db Examples.guide_index "fees" 8).1
  = AgentService.mkResult
      ("DB: chroma_guide" +:+ Py.nl +:+ "Source: A, Page: 3" +:+ Py.nl
       +:+ "alpha" +:+ AgentService.block_sep
       +:+ "DB: chroma_guide" +:+ Py.nl +:+ "Source: D, Page: N/A" +:+ Py.nl
       +:+ "delta")
      ["A, Page 3"].
Proof. reflexivity. Qed.

(** C10.  Whatever [k] the caller passes, a search asks the index once,
    for 12 candidates; so it keeps at most 12 chunks and builds at most 12
    context blocks, and any [k] of 12 or more gives what [k = 12] gives. *)
Theorem search_fetch_is_constant
    (vs : AgentService.Chroma) (query : string) (k : Z) :
  let kept :=
    AgentService.kept_docs
      (AgentService.similarity_search_with_score vs query 12).1 k in
  (AgentService.search_pdf_from_db vs query k).2
  = [AgentService.EvSearchWithScore
       (AgentService.persist_directory vs) query 12]
  ∧ (AgentService.search_pdf_from_db vs query k).1
    = AgentService.result_of_docs kept
  ∧ (length kept ≤ 12)%nat
  ∧ (length (fold_left AgentService.search_step kept ([], [])).2 ≤ 12)%nat
  ∧ AgentService.search_pdf_from_db vs query (Z.max k 12)
    = AgentService.search_pdf_from_db vs query 12.
Proof.
  intros kept.
  assert (length kept ≤ 12)%nat as Hlen.
  { etrans; [apply kept_docs_length|apply fetched_at_most]. }
  split_and!; try done.
  - by rewrite search_step_blocks.
  - rewrite !search_pdf_from_db_unfold. do 2 f_equal.
    unfold AgentService.kept_docs.
    set (survivors := map fst (filter _ _)).
    assert (length survivors ≤ 12)%nat as Hs.
    { unfold survivors. rewrite length_map.
      etrans; [apply length_filter|apply fetched_at_most]. }
    rewrite !slice_to_ge; [done|lia..].
Qed.

(** ** The empty knowledge base (C5) *)

(** C5.  With an empty registry, [ask_agent] returns the fixed message
    and its trace is empty: neither the style index nor the reasoning loop
    is called, and no search is made. *)
Theorem ask_agent_empty_registry
    (env : AgentService.Env) (question : string) :
  AgentService.vectorstores env = [] →
  AgentService.ask_agent env question
  = (AgentService.empty_kb_message, []).
Proof. intros Hreg. unfold AgentService.ask_agent. by rewrite Hreg. Qed.

Lemma ask_agent_empty_registry_example :
  AgentService.ask_agent Examples.empty_env "anything"
  = ("Knowledge base is empty (no Chroma DBs found).", []).
Proof. apply ask_agent_empty_registry. reflexivity. Defined.

(** ** Citations and context blocks of a retrieval result (C3) *)

Section Citations.
Import AgentService.

Lemma search_step_spec doc acc :
  search_step acc doc
  = (from_option (od_set acc.1) acc.1 (Spec.doc_citation doc),
     acc.2 ++ [Spec.doc_block doc]).
Proof.
  unfold search_step, Spec.doc_citation, Spec.doc_block, Spec.shown_page.
  by destruct (doc_page doc) as [[]|].
Qed.

Lemma fold_search_step docs acc :
  fold_left search_step docs acc
  = (fold_left od_set (omap Spec.doc_citation docs) acc.1,
     acc.2 ++ map Spec.doc_block docs).
Proof.
  revert acc. induction docs as [|doc docs IH]; intros [cits blocks].
  - simpl. by rewrite app_nil_r.
  - simpl fold_left at 1. rewrite IH, search_step_spec. simpl.
    rewrite <- app_assoc. simpl.
    by destruct (Spec.doc_citation doc).
Qed.

(** The result of the loop, said in one piece. *)
Lemma result_of_docs_spec docs :
  result_of_docs docs
  = mkResult (Py.join block_sep (map Spec.doc_block docs))
      (Spec.first_seen (omap Spec.doc_citation docs)).
Proof.
  destruct docs as [|doc docs]; [done|].
  unfold result_of_docs. rewrite fold_search_step. simpl fst. simpl snd.
  by rewrite fold_od_set_nil.
Qed.

Lemma all_digits_uint d :
  Spec.all_digits (NilEmpty.string_of_uint d) = true.
Proof. induction d; simpl; done. Qed.

Lemma numeral_uint d :
  ∃ c s, NilZero.string_of_uint d = String c s
         ∧ Spec.is_digit c = true ∧ Spec.all_digits s = true.
Proof.
  pose proof (all_digits_uint d) as Hd.
  unfold NilZero.string_of_uint.
  destruct d; simpl in *; eauto.
Qed.

(** [str(n)] is a decimal numeral. *)
Lemma str_of_int_numeral n : Spec.is_numeral (Py.str_of_int n) = true.
Proof.
  unfold Py.str_of_int, NilZero.string_of_int.
  destruct (Z.to_int n) as [d|d];
    destruct (numeral_uint d) as (c & s & -> & Hc & Hs).
  - unfold Spec.is_numeral. destruct (Ascii.eqb_spec c "-") as [->|_]; [done|].
    simpl. by rewrite Hc, Hs.
  - simpl. by rewrite Hc, Hs.
Qed.

(** The last character of a text. *)
Lemma all_digits_last s c :
  Spec.all_digits (String c s) = true →
  ∃ t d, String c s = t +:+ String d "" ∧ Spec.is_digit d = true.
Proof.
  revert c. induction s as [|c' s IH]; intros c Hd.
  - exists "", c. simpl in Hd. by rewrite andb_true_r in Hd.
  - simpl in Hd. apply andb_true_iff in Hd as [Hc Hd].
    destruct (IH c' Hd) as (t & d & -> & Hdig).
    by exists (String c t), d.
Qed.

Lemma numeral_last s :
  Spec.is_numeral s = true →
  ∃ t d, s = t +:+ String d "" ∧ Spec.is_digit d = true.
Proof.
  destruct s as [|c s]; [done|]. simpl.
  destruct (Ascii.eqb c "-").
  - intros [Hne Hd]%andb_true_iff. destruct s as [|c' s]; [done|].
    destruct (all_digits_last _ _ Hd) as (t & d & -> & Hdig).
    by exists (String c t), d.
  - apply all_digits_last.
Qed.

Lemma take_drop_string n s : Py.take n s +:+ Py.drop n s = s.
Proof.
  revert s. induction n as [|n IH]; intros [|c s]; try done.
  simpl. rewrite append_cons. by f_equal.
Qed.

Lemma append_last_inj s t c d :
  s +:+ String c "" = t +:+ String d "" → c = d.
Proof.
  revert t. induction s as [|a s IH]; intros [|b t] Heq.
  - by injection Heq.
  - rewrite append_cons in Heq. injection Heq as _ Heq.
    by destruct t.
  - rewrite append_cons in Heq. injection Heq as _ Heq.
    by destruct s.
  - rewrite !append_cons in Heq. injection Heq as _ Heq. eauto.
Qed.

(** A text that ends in a digit does not end in ["N/A"]. *)
Lemma endswith_na_digit t d :
  Spec.is_digit d = true → Py.endswith "N/A" (t +:+ String d "") = false.
Proof.
  intros Hd. unfold Py.endswith.
  destruct (String.eqb_spec
              (Py.drop (String.length (t +:+ String d "")
                        - String.length "N/A") (t +:+ String d "")) "N/A")
    as [Heq|Hne]; [|by rewrite andb_false_r].
  exfalso.
  pose proof (take_drop_string (String.length (t +:+ String d "")
                                - String.length "N/A")
                (t +:+ String d "")) as Htd.
  rewrite Heq in Htd.
  change "N/A" with ("N/" +:+ String "A" "") in Htd.
  rewrite <- append_assoc in Htd. apply append_last_inj in Htd. by subst d.
Qed.
End Citations.

(** *** The claim's words and the loop *)

Section ContextText.
Import AgentService.

Lemma meta_get_doc_meta doc key : Spec.meta_get doc key = doc_meta doc !! key.
Proof. unfold Spec.meta_get, doc_meta. by destruct (metadata doc). Qed.

Lemma cited_as_eq doc : Spec.cited_as doc = Spec.doc_citation doc.
Proof.
  unfold Spec.cited_as, Spec.doc_citation, Spec.integer_page,
    Spec.shown_source, doc_page, doc_source.
  rewrite !meta_get_doc_meta.
  destruct (doc_meta doc !! "page") as [[]|]; try done.
  by destruct (doc_meta doc !! "source").
Qed.

Lemma shown_as_eq doc : Spec.shown_as doc = Spec.doc_block doc.
Proof.
  unfold Spec.shown_as, Spec.doc_block, Spec.shown_page, context_block,
    Spec.integer_page, Spec.shown_source, Spec.shown_db, doc_page,
    doc_source, doc_db_name.
  rewrite !meta_get_doc_meta.
  destruct (doc_meta doc !! "page") as [[]|],
    (doc_meta doc !! "source"), (doc_meta doc !! "db_name");
    by rewrite ?append_assoc.
Qed.

Lemma omap_cited_as (docs : list Document) :
  omap Spec.cited_as docs = omap Spec.doc_citation docs.
Proof.
  induction docs as [|doc docs IH]; [done|].
  cbn [omap list_omap]. by rewrite cited_as_eq, IH.
Qed.

Lemma map_shown_as docs : map Spec.shown_as docs = map Spec.doc_block docs.
Proof.
  induction docs as [|doc docs IH]; [done|].
  cbn [map]. by rewrite shown_as_eq, IH.
Qed.

Lemma contains_middle sub a b : Py.contains sub (a +:+ sub +:+ b) = true.
Proof.
  induction a as [|c a IH].
  - change ("" +:+ sub +:+ b) with (sub +:+ b).
    by rewrite contains_eq, prefix_append.
  - rewrite append_cons, contains_eq, IH. apply orb_true_r.
Qed.

Lemma join_elem sep x l :
  x ∈ l → ∃ a b, Py.join sep l = a +:+ x +:+ b.
Proof.
  induction l as [|y l IH]; intros Hin; [by apply elem_of_nil in Hin|].
  destruct l as [|z l].
  - apply list_elem_of_singleton in Hin as ->. exists "", "".
    by rewrite append_nil_r.
  - rewrite join_cons_cons. apply elem_of_cons in Hin as [->|Hin].
    + by exists "", (sep +:+ Py.join sep (z :: l)).
    + destruct (IH Hin) as (a & b & ->).
      exists (y +:+ sep +:+ a), b. by rewrite !append_assoc.
Qed.

(** What occurs in a block occurs in the context that holds the block. *)
Lemma contains_block sep sub head tail block blocks :
  block = head +:+ sub +:+ tail → block ∈ blocks →
  Py.contains sub (Py.join sep blocks) = true.
Proof.
  intros -> (a & b & ->)%(join_elem sep).
  rewrite !append_assoc, <- (append_assoc a head).
  apply contains_middle.
Qed.
End ContextText.

(** C3.  In every result of a search, read from the metadata of the kept
    chunks: the citations are "{source}, Page {page}", the page 1-based,
    of the chunks whose page is an integer, deduplicated in first-seen
    order, and the context is the kept chunks' blocks ("DB: ", the
    source, the page 1-based or "N/A", the text), joined by the
    separator line.  So a chunk gets a citation if and only if its page
    is an integer; a chunk whose page is no integer gets none, while its
    text comes into the context under "Page: N/A"; the text of every
    kept chunk is in the context; and the page of a citation is a
    decimal numeral, so no citation ends in "N/A". *)
Theorem citations_only_for_integer_pages
    (vs : AgentService.Chroma) (query : string) (k : Z) :
  let kept :=
    AgentService.kept_docs
      (AgentService.similarity_search_with_score vs query 12).1 k in
  let r := (AgentService.search_pdf_from_db vs query k).1 in
  AgentService.citations r = Spec.first_seen (omap Spec.cited_as kept)
  ∧ AgentService.context r
    = Py.join (Py.nl +:+ Py.nl +:+ "---" +:+ Py.nl +:+ Py.nl)
        (map Spec.shown_as kept)
  ∧ (∀ doc, doc ∈ kept →
       (is_Some (Spec.integer_page doc)
        ↔ ∃ c, Spec.cited_as doc = Some c
               ∧ c ∈ AgentService.citations r))
  ∧ (∀ doc, doc ∈ kept →
       Spec.integer_page doc = None →
       Spec.cited_as doc = None
       ∧ Py.contains ("Page: N/A" +:+ Py.nl +:+ page_content doc)
           (AgentService.context r) = true)
  ∧ (∀ doc, doc ∈ kept →
       Py.contains (page_content doc) (AgentService.context r) = true)
  ∧ (∀ c, c ∈ AgentService.citations r →
       ∃ doc page,
         doc ∈ kept
         ∧ Spec.integer_page doc = Some page
         ∧ c = Spec.shown_source doc +:+ ", Page "
               +:+ Py.str_of_int (page + 1)
         ∧ Spec.is_numeral (Py.str_of_int (page + 1)) = true
         ∧ Py.endswith "N/A" c = false).
Proof.
  intros kept r.
  assert (r = AgentService.mkResult
                (Py.join (Py.nl +:+ Py.nl +:+ "---" +:+ Py.nl +:+ Py.nl)
                   (map Spec.shown_as kept))
                (Spec.first_seen (omap Spec.cited_as kept))) as ->.
  { unfold r. rewrite search_pdf_from_db_unfold, result_of_docs_spec.
    by rewrite omap_cited_as, map_shown_as. }
  cbn [AgentService.citations AgentService.context].
  split_and!; try done.
  - intros doc Hdoc. unfold Spec.cited_as.
    destruct (Spec.integer_page doc) as [page|] eqn:Hp.
    + split; [intros _|by eauto]. eexists. split; [done|].
      apply elem_of_first_seen, list_elem_of_omap. exists doc.
      split; [done|]. unfold Spec.cited_as. by rewrite Hp.
    + split; [by intros []|by intros (c & ? & _)].
  - intros doc Hdoc Hp. split; [unfold Spec.cited_as; by rewrite Hp|].
    eapply (contains_block _ _
              ("DB: " +:+ Spec.shown_db doc +:+ Py.nl +:+ "Source: "
               +:+ Spec.shown_source doc +:+ ", ") "" (Spec.shown_as doc));
      [|by apply list_elem_of_fmap_2].
    unfold Spec.shown_as. rewrite Hp, append_nil_r.
    by rewrite !append_assoc.
  - intros doc Hdoc.
    eapply (contains_block _ _
              ("DB: " +:+ Spec.shown_db doc +:+ Py.nl +:+ "Source: "
               +:+ Spec.shown_source doc +:+ ", Page: "
               +:+ match Spec.integer_page doc with
                   | Some page => Py.str_of_int (page + 1)
                   | None => "N/A"
                   end +:+ Py.nl) "" (Spec.shown_as doc));
      [|by apply list_elem_of_fmap_2].
    unfold Spec.shown_as. by rewrite append_nil_r, !append_assoc.
  - intros c (doc & Hdoc & Hc)%elem_of_first_seen%list_elem_of_omap.
    unfold Spec.cited_as in Hc.
    destruct (Spec.integer_page doc) as [page|] eqn:Hp; [|done].
    injection Hc as <-. exists doc, page. split_and!; try done.
    + apply str_of_int_numeral.
    + destruct (numeral_last _ (str_of_int_numeral (page + 1)))
        as (t & d & -> & Hd).
      rewrite <- !append_assoc. by apply endswith_na_digit.
Qed.

(** Of the four chunks the sample index ranks, two are below the
    threshold: the one from page 2 is cited as page 3, the one whose
    page is "N/A" is shown in the context and not cited. *)
Lemma citations_only_for_integer_pages_example :
  AgentService.citations
    (AgentService.search_pdf_from_db Examples.guide_index "fees" 8).1
  = ["A, Page 3"]
  ∧ AgentService.context
      (AgentService.search_pdf_from_db Examples.guide_index "fees" 8).1
    = "DB: chroma_guide" +:+ Py.nl +:+ "Source: A, Page: 3" +:+ Py.nl
      +:+ "alpha" +:+ Py.nl +:+ Py.nl +:+ "---" +:+ Py.nl +:+ Py.nl
      +:+ "DB: chroma_guide" +:+ Py.nl +:+ "Source: D, Page: N/A"
      +:+ Py.nl +:+ "delta".
Proof.
  destruct (citations_only_for_integer_pages Examples.guide_index "fees" 8)
    as (Hcitations & Hcontext & _).
  split.
  - rewrite Hcitations. vm_compute. reflexivity.
  - rewrite Hcontext. vm_compute. reflexivity.
Defined.

(** ** The marker pattern and the text before it (C6) *)

Section Marker.
Import AgentService.
Implicit Types (r : list Py.re_item) (s a b pre post : string).

Lemma matches_one p r s :
  Py.matches_here (Py.One p :: r) s
  = match s with
    | String c s' => p c && Py.matches_here r s'
    | "" => false
    end.
Proof. done. Qed.

Lemma matches_star p r s :
  Py.matches_here (Py.Star p :: r) s
  = Py.matches_here r s
    || match s with
       | String c s' => p c && Py.matches_here (Py.Star p :: r) s'
       | "" => false
       end.
Proof. by destruct s. Qed.

(** A match is a match whatever follows the text. *)
Lemma matches_here_app r a b :
  Py.matches_here r a = true → Py.matches_here r (a +:+ b) = true.
Proof.
  revert a. induction r as [|[p|p] r IH]; intros a; [done| |].
  - rewrite !matches_one. destruct a as [|c a]; [done|].
    rewrite append_cons. intros [Hc Ha]%andb_true_iff.
    by rewrite Hc, IH.
  - induction a as [|c a IHa]; rewrite matches_star; intros Ha.
    + rewrite orb_false_r in Ha. rewrite matches_star.
      by rewrite (IH "" Ha).
    + rewrite append_cons, matches_star.
      apply orb_true_iff in Ha as [Ha|[Hc Ha]%andb_true_iff].
      * apply orb_true_iff. left. exact (IH _ Ha).
      * rewrite Hc, (IHa Ha). apply orb_true_r.
Qed.

Lemma before_first_match_eq r s :
  Py.before_first_match r s
  = if Py.matches_here r s then ""
    else match s with
         | "" => ""
         | String c s' => String c (Py.before_first_match r s')
         end.
Proof. by destruct s. Qed.

Lemma before_first_match_split r s :
  ∃ rest, s = Py.before_first_match r s +:+ rest.
Proof.
  induction s as [|c s [rest IH]]; rewrite before_first_match_eq;
    destruct (Py.matches_here r _); try by eexists.
  exists rest. by rewrite append_cons, <- IH.
Qed.

Lemma before_first_match_leftmost r s i :
  (i < String.length (Py.before_first_match r s))%nat →
  Py.matches_here r (Py.drop i s) = false.
Proof.
  revert i. induction s as [|c s IH]; intros i;
    rewrite before_first_match_eq;
    destruct (Py.matches_here r _) eqn:Hm; simpl; try lia.
  destruct i as [|i]; [done|]. intros Hi. apply IH. lia.
Qed.

Lemma drop_append i a b :
  (i ≤ String.length a)%nat → Py.drop i (a +:+ b) = Py.drop i a +:+ b.
Proof.
  revert a. induction i as [|i IH]; intros [|c a] Hi; simpl in *;
    try done; try lia.
  apply IH. lia.
Qed.

Lemma drop_all i s : (String.length s ≤ i)%nat → Py.drop i s = "".
Proof.
  revert s. induction i as [|i IH]; intros [|c s] Hi; simpl in *;
    try done; try lia.
  apply IH. lia.
Qed.

Lemma drop_drop i j s : Py.drop i (Py.drop j s) = Py.drop (j + i) s.
Proof.
  revert s. induction j as [|j IH]; intros [|c s]; simpl; try done.
  by destruct i.
Qed.

(** No match starts in a prefix of a text in which none starts. *)
Lemma no_match_prefix r a b :
  Py.matches_here r "" = false →
  (∀ i, (i < String.length a)%nat →
        Py.matches_here r (Py.drop i (a +:+ b)) = false) →
  ∀ i, Py.matches_here r (Py.drop i a) = false.
Proof.
  intros Hnil Hab i.
  destruct (decide (i < String.length a)%nat) as [Hi|Hi].
  - specialize (Hab i Hi). rewrite drop_append in Hab by lia.
    destruct (Py.matches_here r (Py.drop i a)) eqn:Hm; [|done].
    by rewrite (matches_here_app _ _ b Hm) in Hab.
  - rewrite drop_all by lia. done.
Qed.

Lemma lstrip_is_drop s : ∃ n, Py.lstrip s = Py.drop n s.
Proof.
  induction s as [|c s [n IH]]; [by exists 0%nat|]. simpl.
  destruct (Py.isspace c); [by exists (S n)|by exists 0%nat].
Qed.

Lemma rstrip_split s :
  ∃ w, s = Py.rstrip s +:+ w ∧ Spec.all_space w = true.
Proof.
  induction s as [|c s (w & IH & Hw)]; [by exists ""|].
  rewrite rstrip_cons. destruct (Py.rstrip s) as [|d t] eqn:Hr.
  - destruct (Py.isspace c) eqn:Hc.
    + exists (String c s). split; [done|].
      simpl. rewrite Hc. change ("" +:+ w) with w in IH. by rewrite IH.
    + exists w. split; [|done]. by rewrite IH at 1.
  - exists w. split; [|done]. rewrite append_cons. by rewrite IH at 1.
Qed.

(** What [remove_existing_citations] returns holds no marker. *)
Lemma remove_existing_citations_marker_free answer :
  Spec.marker_free (remove_existing_citations answer).
Proof.
  unfold Spec.marker_free, remove_existing_citations, Py.strip. intros i.
  set (p := Py.before_first_match citations_re answer).
  destruct (lstrip_is_drop (Py.rstrip p)) as [n ->].
  rewrite drop_drop.
  destruct (rstrip_split p) as (w & Hp & _).
  destruct (before_first_match_split citations_re answer) as [rest Hrest].
  fold p in Hrest.
  apply (no_match_prefix citations_re (Py.rstrip p) (w +:+ rest)); [done|].
  intros j Hj. rewrite <- append_assoc, <- Hp, <- Hrest.
  apply before_first_match_leftmost. fold p. rewrite Hp at 1.
  rewrite length_append. lia.
Qed.
End Marker.

Section Discard.
Import AgentService.
Implicit Types (r : list Py.re_item) (s a b w pre post : string).

Lemma matches_lit w r s :
  Py.matches_here (Py.lit w ++ r) s = true → String.prefix w s = true.
Proof.
  revert s. induction w as [|c w IH]; intros s; [by destruct s|].
  simpl Py.lit. simpl app. rewrite matches_one.
  destruct s as [|d s]; [done|].
  intros [Hc Hs]%andb_true_iff. rewrite prefix_cons.
  apply Ascii.eqb_eq in Hc as ->.
  destruct (ascii_dec d d); [by apply IH|done].
Qed.

(** Blanks, then a word without line feed: if that matches a text that
    does not hold the word, followed by a line feed, the text is blank. *)
Lemma space_run word r a post :
  Spec.occurs Py.LF word = false →
  Py.contains word a = false →
  Py.matches_here (Py.Star Py.isspace :: Py.lit word ++ r)
    (a +:+ String Py.LF post) = true →
  Spec.all_space a = true.
Proof.
  intros Hword. induction a as [|d a IH]; intros Ha Hm; [done|].
  rewrite contains_eq in Ha. apply orb_false_iff in Ha as [Hp Ha].
  rewrite append_cons, matches_star in Hm.
  apply orb_true_iff in Hm as [Hm|[Hd Hm]%andb_true_iff].
  - apply matches_lit in Hm.
    apply (prefix_before_char word (String d a) Py.LF post Hword) in Hm.
    congruence.
  - simpl. rewrite Hd. by apply IH.
Qed.

Lemma citations_re_eq :
  citations_re
  = Py.One (Ascii.eqb Py.LF)
    :: Py.Star Py.isspace :: Py.lit "Citations" ++ Spec.marker_tail.
Proof. done. Qed.

Lemma marker_starts_with_lf post :
  Py.matches_here citations_re post = true →
  ∃ post', post = String Py.LF post'.
Proof.
  rewrite citations_re_eq, matches_one. destruct post as [|c post]; [done|].
  intros [Hc _]%andb_true_iff. apply Ascii.eqb_eq in Hc as <-. by eexists.
Qed.

(** When a marker line follows a text that does not hold the word
    "Citations", the split cuts within the blanks that end the text. *)
Lemma discard_split pre post :
  Py.matches_here citations_re post = true →
  Py.contains "Citations" pre = false →
  ∃ w, pre = Py.before_first_match citations_re (pre +:+ post) +:+ w
       ∧ Spec.all_space w = true.
Proof.
  intros Hpost. destruct (marker_starts_with_lf post Hpost) as [post' ->].
  induction pre as [|c pre IH]; intros Hpre.
  - exists "". change ("" +:+ ?s) with s.
    by rewrite before_first_match_eq, Hpost.
  - rewrite contains_eq in Hpre. apply orb_false_iff in Hpre as [Hp Hpre].
    rewrite append_cons, before_first_match_eq.
    destruct (Py.matches_here citations_re
                (String c (pre +:+ String Py.LF post'))) eqn:Hm.
    + exists (String c pre). split; [done|].
      rewrite citations_re_eq, matches_one in Hm.
      apply andb_true_iff in Hm as [Hc Hm].
      apply Ascii.eqb_eq in Hc as <-. simpl.
      by apply (space_run "Citations" Spec.marker_tail pre post').
    + destruct (IH Hpre) as (w & Hw & Hsp). exists w. split; [|done].
      rewrite append_cons. by rewrite <- Hw.
Qed.

Lemma rstrip_all_space w : Spec.all_space w = true → Py.rstrip w = "".
Proof.
  induction w as [|c w IH]; [done|]. simpl Spec.all_space.
  intros [Hc Hw]%andb_true_iff. by rewrite rstrip_cons, IH, Hc.
Qed.

Lemma rstrip_append_space s w :
  Spec.all_space w = true → Py.rstrip (s +:+ w) = Py.rstrip s.
Proof.
  intros Hw. induction s as [|c s IH]; [by apply rstrip_all_space|].
  by rewrite append_cons, !rstrip_cons, IH.
Qed.

(** The text before the marker is all that is kept of the answer. *)
Lemma remove_existing_citations_discards pre post :
  Py.matches_here citations_re post = true →
  Py.contains "Citations" pre = false →
  remove_existing_citations (pre +:+ post) = Py.strip pre.
Proof.
  intros Hpost Hpre. unfold remove_existing_citations, Py.strip.
  destruct (discard_split pre post Hpost Hpre) as (w & Hw & Hsp).
  rewrite Hw at 2. by rewrite rstrip_append_space.
Qed.

Lemma segments_no_linebreak s :
  Forall (λ l, Spec.no_linebreak l = true) (Py.segments s)
  ∧ ∀ c, Forall (λ l, Spec.no_linebreak l = true) (Py.segments (String c s)).
Proof.
  induction s as [|d s [IH1 IH2]].
  - split; [by repeat constructor|]. intros c. rewrite segments_cons.
    destruct (Py.islinebreak c) eqn:Hc.
    + destruct (Ascii.eqb c Py.CR); by repeat constructor.
    + repeat constructor. simpl. by rewrite Hc.
  - split; [apply IH2|]. intros c. rewrite segments_cons.
    destruct (Py.islinebreak c) eqn:Hc.
    + constructor; [done|].
      destruct (Ascii.eqb c Py.CR); [|apply IH2].
      destruct (Ascii.eqb d Py.LF); [done|apply IH2].
    + specialize (IH2 d). destruct (Py.segments (String d s)) as [|l ls].
      * repeat constructor. simpl. by rewrite Hc.
      * inversion IH2 as [|?? Hl Hls]; subst. constructor; [|done].
        simpl. by rewrite Hc.
Qed.

Lemma drop_last_empty_Forall (P : string → Prop) lines :
  Forall P lines → Forall P (Py.drop_last_empty lines).
Proof.
  induction 1 as [|x l Hx Hl IH]; [done|].
  destruct l as [|y l].
  - simpl. destruct (String.eqb x ""); by repeat constructor.
  - change (Py.drop_last_empty (x :: y :: l))
      with (x :: Py.drop_last_empty (y :: l)).
    by constructor.
Qed.

Lemma no_linebreak_drop n s :
  Spec.no_linebreak s = true → Spec.no_linebreak (Py.drop n s) = true.
Proof.
  revert s. induction n as [|n IH]; intros [|c s]; simpl; try done.
  intros [_ Hs]%andb_true_iff. by apply IH.
Qed.

Lemma no_linebreak_strip s :
  Spec.no_linebreak s = true → Spec.no_linebreak (Py.strip s) = true.
Proof.
  intros Hs. unfold Py.strip.
  destruct (lstrip_is_drop (Py.rstrip s)) as [n ->].
  apply no_linebreak_drop.
  destruct (rstrip_split s) as (w & Hw & _). rewrite Hw in Hs.
  rewrite no_linebreak_append in Hs. by apply andb_true_iff in Hs as [? _].
Qed.

(** A citation line holds no line boundary. *)
Lemma citation_lines_no_linebreak text :
  Forall (λ c, Spec.no_linebreak c = true) (Spec.citation_lines text).
Proof.
  unfold Spec.citation_lines.
  destruct (Py.after_first "Citations:" text) as [part|]; [|done].
  apply Forall_forall. intros c.
  intros [_ (line & -> & [_ (raw & -> & Hraw)%list_elem_of_fmap]%list_elem_of_filter)%list_elem_of_fmap]%list_elem_of_filter.
  unfold Spec.entry_of. apply no_linebreak_strip, no_linebreak_drop.
  apply no_linebreak_strip.
  pose proof (drop_last_empty_Forall _ _ (proj1 (segments_no_linebreak part)))
    as Hall.
  rewrite Forall_forall in Hall. by apply Hall.
Qed.
End Discard.

(** What the assembler does achieve of C6.  With a non-empty registry,
    the answer is the loop's text cut at
    the first own-line "Citations:" marker and stripped, followed by the
    citation block of the citations recovered from the observations.
    What is kept of the loop's text holds no marker; when the loop's text
    is some text not holding the word "Citations" followed by a marker line
    and anything after it, what is kept is that text, stripped, so the
    loop's own citations are gone.  The recovered citations depend on the
    observations alone, each is free of line boundaries and gets a bulleted
    line of its own in the single block; without citations nothing is
    appended. *)
Theorem ask_agent_owns_citation_block
    (env : AgentService.Env) (question : string) :
  AgentService.vectorstores env ≠ [] →
  let style :=
    (AgentService.retrieve_style_examples
       (AgentService.style_vectorstore env) question 5).1 in
  let result := AgentService.agent_executor env question style in
  let body :=
    AgentService.remove_existing_citations (AgentService.output result) in
  let cits :=
    AgentService.collect_citations
      (default [] (AgentService.intermediate_steps result)) in
  let answer := (AgentService.ask_agent env question).1 in
  answer = body +:+ AgentService.citation_block cits
  ∧ Spec.marker_free body
  ∧ (∀ pre post,
       AgentService.output result = pre +:+ post →
       Py.contains "Citations" pre = false →
       Py.matches_here AgentService.citations_re post = true →
       body = Py.strip pre)
  ∧ (cits = [] → answer = body)
  ∧ (cits ≠ [] →
     answer = body +:+ Py.nl +:+ Py.nl +:+ "Citations:" +:+ Py.nl
              +:+ Py.join Py.nl (map (λ c, "- " +:+ c) cits))
  ∧ Forall (λ c, Spec.no_linebreak c = true) cits
  ∧ NoDup cits.
Proof.
  intros Hreg style result body cits answer.
  assert (answer = body +:+ AgentService.citation_block cits) as Hanswer.
  { unfold answer, AgentService.ask_agent.
    by destruct (AgentService.vectorstores env). }
  split_and!; try done.
  - apply remove_existing_citations_marker_free.
  - intros pre post Hout Hpre Hpost. unfold body. rewrite Hout.
    by apply remove_existing_citations_discards.
  - intros Hnil. rewrite Hanswer, Hnil. apply append_nil_r.
  - intros Hne. rewrite Hanswer. by destruct cits.
  - unfold cits. rewrite collect_citations_spec. apply Forall_forall.
    intros c [lines [(step & <- & _)%in_map_iff Hc]]%elem_of_first_seen%list_elem_of_In%in_concat.
    pose proof (citation_lines_no_linebreak step.2) as Hall.
    rewrite Forall_forall in Hall. by apply Hall, list_elem_of_In.
  - unfold cits. rewrite collect_citations_spec. apply NoDup_first_seen.
Qed.

(** The loop printed "Z, Page 9" under a marker of its own; the answer
    has the three citations of the two observations instead. *)
Lemma ask_agent_owns_citation_block_example :
  (AgentService.ask_agent Examples.two_tool_env "What is covered?").1
  = "The answer." +:+ Py.nl +:+ Py.nl +:+ "Citations:" +:+ Py.nl
    +:+ "- A, Page 3" +:+ Py.nl +:+ "- B, Page 1" +:+ Py.nl
    +:+ "- C, Page 2".
Proof.
  destruct (ask_agent_owns_citation_block Examples.two_tool_env
              "What is covered?" ltac:(done)) as (_ & _ & Hcut & _ & Hblock & _).
  rewrite Hblock by done.
  rewrite (Hcut "The answer."
             (Py.nl +:+ Py.nl +:+ "Citations:" +:+ Py.nl +:+ "- Z, Page 9"))
    by reflexivity.
  reflexivity.
Defined.

(** C6, where the code misses it.  The pattern asks for a line feed
    before the marker, so a marker on the first line of the loop's answer
    is not found: the loop's own block is kept, the assembler's block is
    appended after it, and the answer carries two "Citations:" blocks,
    from which the loop's "Z, Page 9" is read back together with the
    observed "A, Page 3".  The docstring of [remove_existing_citations]
    promises the opposite: citations the loop printed are removed, and
    the assembler's are appended only once. *)
Lemma loop_block_on_first_line_is_kept :
  let output := "Citations:" +:+ Py.nl +:+ "- Z, Page 9" in
  let answer := (AgentService.ask_agent Examples.first_line_env "fees").1 in
  AgentService.remove_existing_citations output = output
  ∧ answer
    = output +:+ Py.nl +:+ Py.nl +:+ "Citations:" +:+ Py.nl
      +:+ "- A, Page 3"
  ∧ AgentService.extract_citations answer = ["Z, Page 9"; "A, Page 3"].
Proof. vm_compute. done. Qed.

(** ** Index names (C7) *)

Section IndexNames.
Import Chroma1.

Lemma sub_name_chars_get s i :
  String.get i (sub_name_chars s)
  = (λ c, if name_char c then c else "_"%char) <$> String.get i s.
Proof.
  revert i. induction s as [|c s IH]; intros [|i]; simpl; try done.
Qed.

Lemma sub_name_chars_length s :
  String.length (sub_name_chars s) = String.length s.
Proof. induction s as [|c s IH]; simpl; [done|by f_equal]. Qed.
End IndexNames.

(** C7, as the code has it.  The index name of a file name is "chroma_"
    followed by the stem of the name in which each character outside
    [A-Za-z0-9_-] is replaced by "_", the others kept; the same file name
    always gives the same index name; two file names give the same index
    name exactly when their sanitized stems are equal. *)
Theorem db_name_derivation (filename : string) :
  Chroma1.db_name_of filename
  = "chroma_" +:+ Chroma1.sub_name_chars (Chroma1.path_stem filename)
  ∧ String.length (Chroma1.sanitize_name filename)
    = String.length (Chroma1.path_stem filename)
  ∧ (∀ i, String.get i (Chroma1.sanitize_name filename)
          = (λ c, if Chroma1.name_char c then c else "_"%char)
              <$> String.get i (Chroma1.path_stem filename))
  ∧ (∀ i c, String.get i (Chroma1.sanitize_name filename) = Some c →
            Chroma1.name_char c = true)
  ∧ (∀ other, filename = other →
              Chroma1.db_name_of filename = Chroma1.db_name_of other)
  ∧ (∀ other, Chroma1.db_name_of filename = Chroma1.db_name_of other
              ↔ Chroma1.sanitize_name filename
                = Chroma1.sanitize_name other).
Proof.
  split_and!; try done.
  - apply sub_name_chars_length.
  - intros i. apply sub_name_chars_get.
  - intros i c. unfold Chroma1.sanitize_name. rewrite sub_name_chars_get.
    destruct (String.get i _) as [d|]; [|done]. simpl. intros [= <-].
    by destruct (Chroma1.name_char d) eqn:Hd.
  - by intros other ->.
  - intros other. unfold Chroma1.db_name_of. split; [|by intros ->].
    intros H. by simplify_eq.
Qed.

(** Two different PDF names with one index name: the derivation is not
    injective.  (So have "report.pdf" and "report.docx".) *)
Lemma db_name_collision :
  ¬ (∀ f1 f2,
       Chroma1.supported_name f1 = true → Chroma1.supported_name f2 = true →
       f1 ≠ f2 → Chroma1.db_name_of f1 ≠ Chroma1.db_name_of f2).
Proof.
  intros Hinj.
  by apply (Hinj "Q1 report.pdf" "Q1_report.pdf").
Qed.

Lemma db_name_collision_across_types :
  Chroma1.db_name_of "report.pdf" = Chroma1.db_name_of "report.docx".
Proof. reflexivity. Qed.

(** ** Chunk metadata (C8) *)

(** C8, as the code has it.  Chunk number [i] of a document keeps its text
    and gets metadata in which [source] is the file name, [doc_type] the
    type the loader reported, [db_name] the index name, [chunk_id] the
    number [i] (counted from 0 within the document, so strictly
    increasing), and [page] the page it already carried, or the text "N/A"
    when it carried none; every other key it carried is kept with its
    value, so its keys are these five and those it had.  The loader
    reports no type only together with no page at all, and otherwise
    "pdf" or "docx".  The page a chunk carries is the page of its owning
    page: for a chunk cut from a page whose metadata has the integer page
    [n] (0-based, as the loader counts), [page] is that [n], unshifted;
    for a chunk cut from a page without a page entry it is the text
    "N/A", not a number. *)
Theorem tag_chunks_metadata
    (filename : string) (doc_type : option string) (db_name : string)
    (chunks : list Document) (i : nat) (c : Document) :
  chunks !! i = Some c →
  let before := default ∅ (metadata c) in
  ∃ m : gmap string MetaVal,
    Chroma1.tag_chunks filename doc_type db_name chunks !! i
    = Some (mkDocument (page_content c) (Some m))
    ∧ m !! "source" = Some (MStr filename)
    ∧ m !! "doc_type" = Some (from_option MStr MNone doc_type)
    ∧ m !! "db_name" = Some (MStr db_name)
    ∧ m !! "chunk_id" = Some (MInt (Z.of_nat i))
    ∧ m !! "page" = Some (default (MStr "N/A") (before !! "page"))
    ∧ dom m = dom before ∪ Spec.chunk_keys
    ∧ (∀ key, key ∉ Spec.chunk_keys → m !! key = before !! key)
    ∧ length (Chroma1.tag_chunks filename doc_type db_name chunks)
      = length chunks
    ∧ (∀ env path st docs st',
         Chroma1.load_file_with_real_pages env path st
         = (Chroma1.Ok (docs, None), st') → docs = [])
    ∧ (∀ env path st docs dt st',
         Chroma1.load_file_with_real_pages env path st
         = (Chroma1.Ok (docs, Some dt), st') → dt = "pdf" ∨ dt = "docx")
    ∧ (∀ owner,
         Spec.cut_from owner c →
         m !! "page"
         = Some (default (MStr "N/A") (Spec.meta_get owner "page"))
         ∧ (∀ n, Spec.meta_get owner "page" = Some (MInt n) →
                 m !! "page" = Some (MInt n))
         ∧ (Spec.meta_get owner "page" = None →
            m !! "page" = Some (MStr "N/A"))).
Proof.
  intros Hc before.
  set (tagged :=
         <["chunk_id" := MInt (Z.of_nat i)]>
           (<["db_name" := MStr db_name]>
              (<["doc_type" := from_option MStr MNone doc_type]>
                 (<["source" := MStr filename]> before)))).
  assert (tagged !! "page" = before !! "page") as Hpage.
  { unfold tagged. by rewrite !lookup_insert_ne. }
  exists (match tagged !! "page" with
          | Some _ => tagged
          | None => <["page" := MStr "N/A"]> tagged
          end).
  split_and!.
  - unfold Chroma1.tag_chunks. rewrite list_lookup_imap, Hc. done.
  - destruct (tagged !! "page");
      unfold tagged; by simplify_map_eq.
  - destruct (tagged !! "page");
      unfold tagged; by simplify_map_eq.
  - destruct (tagged !! "page");
      unfold tagged; by simplify_map_eq.
  - destruct (tagged !! "page");
      unfold tagged; by simplify_map_eq.
  - rewrite <- Hpage. destruct (tagged !! "page") eqn:Hp; simpl.
    + done.
    + by rewrite lookup_insert_eq.
  - unfold Spec.chunk_keys.
    destruct (tagged !! "page") eqn:Hp.
    + assert ("page" ∈ dom before) as Hin.
      { apply elem_of_dom. rewrite Hpage in Hp. eauto. }
      unfold tagged. rewrite !dom_insert_L.
      apply set_eq. intros key.
      rewrite !elem_of_union, !elem_of_singleton.
      split; [tauto|]. intros [?|[[[[->| ->]| ->]| ->]| ->]]; tauto.
    + unfold tagged. rewrite !dom_insert_L.
      apply set_eq. intros key.
      rewrite !elem_of_union, !elem_of_singleton. tauto.
  - intros key Hkey. unfold Spec.chunk_keys in Hkey.
    rewrite !not_elem_of_union, !not_elem_of_singleton in Hkey.
    destruct Hkey as [[[[? ?] ?] ?] ?].
    destruct (tagged !! "page"); unfold tagged;
      by rewrite !lookup_insert_ne.
  - unfold Chroma1.tag_chunks. apply length_imap.
  - intros env path st docs st'. unfold Chroma1.load_file_with_real_pages.
    destruct (String.eqb _ ".pdf").
    { unfold Chroma1.bind, Chroma1.ret.
      destruct (Chroma1.PyPDFLoader_load env path st) as [[]?]; congruence. }
    destruct (String.eqb _ ".docx").
    { unfold Chroma1.bind, Chroma1.ret.
      destruct (Chroma1.convert_docx_to_pdf env path st) as [[]?];
        try congruence.
      destruct (Chroma1.PyPDFLoader_load env _ _) as [[]?]; congruence. }
    unfold Chroma1.ret. congruence.
  - intros env path st docs dt st'.
    unfold Chroma1.load_file_with_real_pages.
    destruct (String.eqb _ ".pdf").
    { unfold Chroma1.bind, Chroma1.ret.
      destruct (Chroma1.PyPDFLoader_load env path st) as [[]?];
        intros; simplify_eq; auto. }
    destruct (String.eqb _ ".docx").
    { unfold Chroma1.bind, Chroma1.ret.
      destruct (Chroma1.convert_docx_to_pdf env path st) as [[]?];
        try congruence.
      destruct (Chroma1.PyPDFLoader_load env _ _) as [[]?];
        intros; simplify_eq; auto. }
    unfold Chroma1.ret. congruence.
  - intros owner Hcut.
    assert (Spec.meta_get owner "page" = before !! "page") as Howner.
    { unfold Spec.meta_get, before. rewrite <- Hcut.
      by destruct (metadata c). }
    assert (match tagged !! "page" with
            | Some _ => tagged
            | None => <["page" := MStr "N/A"]> tagged
            end !! "page"
            = Some (default (MStr "N/A") (before !! "page"))) as Hm.
    { rewrite <- Hpage. destruct (tagged !! "page") eqn:Hp; simpl.
      - done.
      - by rewrite lookup_insert_eq. }
    rewrite Hm, Howner. split_and!; [done|..].
    + intros n Hn. by rewrite Hn.
    + intros Hn. by rewrite Hn.
Qed.

Lemma chunk_keys_not_exact :
  ¬ (∀ filename doc_type db_name chunks i c,
       Chroma1.tag_chunks filename doc_type db_name chunks !! i = Some c →
       dom <$> metadata c = Some Spec.chunk_keys).
Proof.
  intros Hexact.
  specialize (Hexact "guide.pdf" (Some "pdf") "chroma_guide"
                Examples.raw_chunks 1%nat _ eq_refl).
  vm_compute in Hexact. discriminate Hexact.
Qed.

(** A chunk without metadata gets the page "N/A"; a chunk from page 4
    keeps its page and the key the loader added; a chunk cut from the
    fifth page of the file (page 4, counted from 0) has the page 4. *)
Lemma tag_chunks_metadata_example :
  (∃ m, Chroma1.tag_chunks "guide.pdf" (Some "pdf") "chroma_guide"
          Examples.raw_chunks !! 0%nat
        = Some (mkDocument "first" (Some m))
        ∧ m !! "chunk_id" = Some (MInt 0)
        ∧ m !! "page" = Some (MStr "N/A"))
  ∧ (∃ m, Chroma1.tag_chunks "guide.pdf" (Some "pdf") "chroma_guide"
            Examples.raw_chunks !! 1%nat
          = Some (mkDocument "second" (Some m))
          ∧ m !! "chunk_id" = Some (MInt 1)
          ∧ m !! "page" = Some (MInt 4)
          ∧ m !! "total_pages" = Some (MInt 9))
  ∧ (∃ m, Chroma1.tag_chunks "guide.pdf" (Some "pdf") "chroma_guide"
            Examples.raw_chunks !! 1%nat
          = Some (mkDocument "second" (Some m))
          ∧ m !! "page"
            = Some (default (MStr "N/A")
                      (Spec.meta_get Examples.fifth_page "page"))).
Proof.
  split_and!.
  - destruct (tag_chunks_metadata "guide.pdf" (Some "pdf") "chroma_guide"
                Examples.raw_chunks 0 _ eq_refl)
      as (m & Hm & _ & _ & _ & Hid & Hpage & _).
    exists m. split_and!; done.
  - destruct (tag_chunks_metadata "guide.pdf" (Some "pdf") "chroma_guide"
                Examples.raw_chunks 1 _ eq_refl)
      as (m & Hm & _ & _ & _ & Hid & Hpage & _ & Hkeep & _).
    exists m. split_and!; try done.
    rewrite Hkeep; [done|].
    unfold Spec.chunk_keys.
    rewrite !not_elem_of_union, !not_elem_of_singleton. done.
  - destruct (tag_chunks_metadata "guide.pdf" (Some "pdf") "chroma_guide"
                Examples.raw_chunks 1 _ eq_refl)
      as (m & Hm & _ & _ & _ & _ & _ & _ & _ & _ & _ & _ & Hown).
    exists m. split; [done|].
    by destruct (Hown Examples.fifth_page eq_refl) as [Hpage _].
Defined.

(** ** Retry with linear backoff (C4) *)

Section Retry.
Import Chroma1.
Variables (env : Env) (chunks : list Document) (persist_dir : string).
Variable max_retries : Z.

Lemma retry_loop_S fuel attempt st :
  retry_loop (S fuel) env chunks persist_dir max_retries attempt st
  = let st1 := mkState (created st) (S (calls st))
                 (trace st ++ [EvFromDocuments chunks persist_dir]) in
    match from_documents env (calls st) with
    | None => (Ok tt, st1)
    | Some e =>
        if is_overload (Py.lower e) then
          if attempt + 1 >? max_retries then (Raise e, st1)
          else
            retry_loop fuel env chunks persist_dir max_retries (attempt + 1)
              (mkState (created st) (S (calls st))
                 (trace st1
                  ++ [EvPrintRetrying (10 * (attempt + 1)) (attempt + 1)
                        max_retries;
                      EvSleep (10 * (attempt + 1))]))
        else (Raise e, st1)
    end.
Proof.
  simpl. unfold Chroma_from_documents.
  destruct (from_documents env (calls st)) as [e|]; [|done].
  destruct (is_overload (Py.lower e)); [|done].
  destruct (attempt + 1 >? max_retries); [done|].
  unfold bind, emit. simpl. by rewrite <- app_assoc.
Qed.

(** [n] overloaded calls within the budget: [n] iterations, each with its
    call, message and sleep. *)
Lemma retry_loop_overloaded n fuel attempt st :
  Spec.overloaded env st n →
  attempt + Z.of_nat n ≤ max_retries →
  retry_loop (n + fuel) env chunks persist_dir max_retries attempt st
  = retry_loop fuel env chunks persist_dir max_retries
      (attempt + Z.of_nat n)
      (mkState (created st) (calls st + n)
         (trace st
          ++ Spec.retry_events chunks persist_dir max_retries attempt n)).
Proof.
  revert attempt st. induction n as [|n IH]; intros attempt st Hover Hle.
  - simpl. rewrite Z.add_0_r, Nat.add_0_r, app_nil_r. by destruct st.
  - change (S n + fuel)%nat with (S (n + fuel)). rewrite retry_loop_S.
    destruct (Hover 0%nat ltac:(lia)) as (e & He & Hov).
    rewrite Nat.add_0_r in He. rewrite He. cbv zeta. rewrite Hov.
    destruct (Z.gtb_spec (attempt + 1) max_retries) as [Hgt|_]; [lia|].
    rewrite IH.
    + simpl. rewrite <- !app_assoc. simpl.
      f_equal; [lia|]. f_equal. lia.
    + intros i Hi. destruct (Hover (S i) ltac:(lia)) as (e' & He' & Hov').
      exists e'. split; [|done]. simpl. rewrite <- He'. f_equal. lia.
    + lia.
Qed.

Lemma sleeps_of_app t1 t2 :
  Spec.sleeps_of (t1 ++ t2) = Spec.sleeps_of t1 ++ Spec.sleeps_of t2.
Proof.
  induction t1 as [|ev t1 IH]; [done|]. destruct ev; simpl; by rewrite ?IH.
Qed.

Lemma sleeps_of_retry_events attempt n :
  Spec.sleeps_of
    (Spec.retry_events chunks persist_dir max_retries attempt n)
  = map (λ i, 10 * (attempt + Z.of_nat i)) (seq 1 n).
Proof.
  revert attempt. induction n as [|n IH]; intros attempt; [done|].
  simpl. rewrite IH. f_equal. rewrite <- (seq_shift n 1), map_map.
  apply map_ext. intros i. lia.
Qed.

(** The loop never uses up the iterations it is granted. *)
Lemma retry_loop_total fuel attempt st :
  (1 ≤ fuel)%nat → max_retries - attempt < Z.of_nat fuel →
  (retry_loop fuel env chunks persist_dir max_retries attempt st).1
  ≠ OutOfFuel.
Proof.
  revert attempt st. induction fuel as [|fuel IH]; intros attempt st H1 Hfuel;
    [lia|].
  rewrite retry_loop_S. cbv zeta.
  destruct (from_documents env (calls st)) as [e|]; [|done].
  destruct (is_overload (Py.lower e)); [|done].
  destruct (Z.gtb_spec (attempt + 1) max_retries) as [Hgt|Hle]; [done|].
  apply IH; lia.
Qed.

Lemma create_chroma_with_retry_total st :
  (create_chroma_with_retry env chunks persist_dir max_retries st).1
  ≠ OutOfFuel.
Proof. apply retry_loop_total; lia. Qed.
End Retry.

Section RetryPolicy.
Import Chroma1.
Variables (env : Env) (chunks : list Document) (persist_dir : string).
Variable max_retries : Z.

Lemma create_after_overloads st n :
  Spec.overloaded env st n → Z.of_nat n ≤ max_retries →
  create_chroma_with_retry env chunks persist_dir max_retries st
  = retry_loop (S (Z.to_nat max_retries - n)) env chunks persist_dir
      max_retries (Z.of_nat n)
      (mkState (created st) (calls st + n)
         (trace st
          ++ Spec.retry_events chunks persist_dir max_retries 0 n)).
Proof.
  intros Hover Hn. unfold create_chroma_with_retry.
  replace (S (Z.to_nat max_retries))
    with (n + S (Z.to_nat max_retries - n))%nat by lia.
  rewrite (retry_loop_overloaded env chunks persist_dir max_retries n)
    by (done || lia).
  by rewrite Z.add_0_l.
Qed.

Lemma new_sleeps (st : State) n last :
  Spec.sleeps_of
    (drop (length (trace st))
       ((trace st
         ++ Spec.retry_events chunks persist_dir max_retries 0 n)
        ++ [EvFromDocuments chunks last]))
  = Spec.linear_backoff 10 n.
Proof.
  rewrite <- app_assoc, drop_app_length, sleeps_of_app.
  rewrite sleeps_of_retry_events. simpl. rewrite app_nil_r.
  apply map_ext. intros i. f_equal.
Qed.
End RetryPolicy.

(** C4.  Let the first [n] embedding calls fail with errors of the
    overload class (the message, lower-cased, contains "429", "nocapacity"
    or "rate limit"), and let the retry budget be [max_retries >= 0] (8 by
    default).  The call always ends.  If [n] is within the budget and call
    [n + 1] succeeds, the index is created after [n + 1] calls and the
    sleeps 10*1, ..., 10*n.  If [n] is within the budget and call [n + 1]
    fails with an error outside the class, that error is raised at once,
    after the same sleeps and no further call.  If [n] is the budget plus
    one, the last overload error is raised after [max_retries] sleeps
    10*1, ..., 10*max_retries and [max_retries + 1] calls. *)
Theorem create_chroma_with_retry_policy
    (env : Chroma1.Env) (chunks : list Document) (persist_dir : string)
    (max_retries : Z) (st : Chroma1.State) (n : nat) :
  0 ≤ max_retries →
  Spec.overloaded env st n →
  let run :=
    Chroma1.create_chroma_with_retry env chunks persist_dir max_retries st in
  let calls_made := (Chroma1.calls run.2 - Chroma1.calls st)%nat in
  let sleeps :=
    Spec.sleeps_of
      (drop (length (Chroma1.trace st)) (Chroma1.trace run.2)) in
  run.1 ≠ Chroma1.OutOfFuel
  ∧ (Z.of_nat n ≤ max_retries →
     Chroma1.from_documents env (Chroma1.calls st + n) = None →
     run.1 = Chroma1.Ok tt ∧ calls_made = S n
     ∧ sleeps = Spec.linear_backoff 10 n)
  ∧ (Z.of_nat n ≤ max_retries →
     ∀ e, Chroma1.from_documents env (Chroma1.calls st + n) = Some e →
          Chroma1.is_overload (Py.lower e) = false →
          run.1 = Chroma1.Raise e ∧ calls_made = S n
          ∧ sleeps = Spec.linear_backoff 10 n)
  ∧ (Z.of_nat n = max_retries + 1 →
     ∃ e, Chroma1.from_documents env
            (Chroma1.calls st + Z.to_nat max_retries) = Some e
          ∧ run.1 = Chroma1.Raise e ∧ calls_made = n
          ∧ sleeps = Spec.linear_backoff 10 (Z.to_nat max_retries)).
Proof.
  intros Hmax Hover run calls_made sleeps. split_and!.
  - apply create_chroma_with_retry_total.
  - intros Hn Hok. unfold sleeps, calls_made, run.
    rewrite (create_after_overloads env chunks persist_dir max_retries st n)
      by done.
    rewrite retry_loop_S.
    cbv zeta. cbn [Chroma1.calls Chroma1.created Chroma1.trace].
    rewrite Hok. simpl. split_and!; [done|lia|apply new_sleeps].
  - intros Hn e He Hclass. unfold sleeps, calls_made, run.
    rewrite (create_after_overloads env chunks persist_dir max_retries st n)
      by done.
    rewrite retry_loop_S.
    cbv zeta. cbn [Chroma1.calls Chroma1.created Chroma1.trace].
    rewrite He, Hclass. simpl. split_and!; [done|lia|apply new_sleeps].
  - intros Hn.
    destruct (Hover (Z.to_nat max_retries) ltac:(lia)) as (e & He & Hclass).
    exists e. split; [done|]. unfold sleeps, calls_made, run.
    rewrite (create_after_overloads env chunks persist_dir max_retries st
               (Z.to_nat max_retries)).
    + rewrite retry_loop_S.
      cbv zeta. cbn [Chroma1.calls Chroma1.created Chroma1.trace].
      rewrite He, Hclass.
      destruct (Z.gtb_spec (Z.of_nat (Z.to_nat max_retries) + 1) max_retries)
        as [_|Hle]; [|lia].
      simpl. split_and!; [done|lia|apply new_sleeps].
    + intros i Hi. apply Hover. lia.
    + lia.
Qed.

(** The example of the specification: three "429" errors, then success:
    the index is created after four calls and the sleeps 10, 20, 30. *)
Lemma create_chroma_with_retry_example :
  let run :=
    Chroma1.create_chroma_with_retry Examples.sample_world []
      "./chroma_dbs/chroma_guide" 8 Chroma1.initial in
  run.1 = Chroma1.Ok tt
  ∧ Chroma1.calls run.2 = 4%nat
  ∧ Spec.sleeps_of (Chroma1.trace run.2) = [10; 20; 30].
Proof.
  assert (Spec.overloaded Examples.sample_world Chroma1.initial 3) as Hover.
  { intros i Hi. exists "Error code: 429 - Rate Limit reached".
    destruct i as [|[|[|i]]]; [done..|lia]. }
  destruct (create_chroma_with_retry_policy Examples.sample_world []
              "./chroma_dbs/chroma_guide" 8 Chroma1.initial 3
              ltac:(lia) Hover) as (_ & Hok & _).
  destruct (Hok ltac:(lia) eq_refl) as (Hres & Hcalls & Hsleeps).
  split_and!; [exact Hres|reflexivity|exact Hsleeps].
Defined.

(** ** The ingestion loop and the files it skips (C9) *)

Section Skips.
Import Chroma1.
Variable env : Env.

Lemma process_files_cons filename rest st :
  process_files env (filename :: rest) st
  = match process_file env filename st with
    | (Ok _, st') => process_files env rest st'
    | (Raise e, st') => (Raise e, st')
    | (OutOfFuel, st') => (OutOfFuel, st')
    end.
Proof. done. Qed.

Lemma process_file_unsupported filename st :
  supported_name filename = false → process_file env filename st = (Ok tt, st).
Proof. intros Hs. unfold process_file. by rewrite Hs. Qed.

Lemma process_file_supported filename st :
  supported_name filename = true →
  process_file env filename st
  = match load_file_with_real_pages env (path_join FILES_FOLDER filename)
            (Spec.announced filename st) with
    | (Ok ([], _), st') => (Ok tt, Spec.logged EvPrintSkipped st')
    | (Ok (documents, doc_type), st') =>
        (emit (EvPrintLoaded (length documents)) ;;;
         let chunks :=
           tag_chunks filename doc_type (db_name_of filename)
             (split_documents env documents) in
         emit (EvPrintCreatedChunks (length chunks)) ;;;
         create_chroma_with_retry env chunks
           (path_join BASE_PERSIST_DIR (db_name_of filename))
           default_max_retries ;;;
         emit (EvPrintDbCreated (db_name_of filename))) st'
    | (Raise e, st') => (Raise e, st')
    | (OutOfFuel, st') => (OutOfFuel, st')
    end.
Proof.
  intros Hs. unfold process_file. rewrite Hs. simpl negb. cbv iota.
  unfold bind at 1. unfold emit at 1. unfold bind at 1. unfold emit at 1.
  unfold bind at 1. simpl.
  change (mkState (created st) (calls st) _) with (Spec.announced filename st).
  destruct (load_file_with_real_pages env _ _) as [[[[|d docs] dt]|e|] st'];
    done.
Qed.

Lemma load_unsupported path st :
  Py.lower (path_suffix path) ≠ ".pdf" →
  Py.lower (path_suffix path) ≠ ".docx" →
  load_file_with_real_pages env path st = (Ok ([], None), st).
Proof.
  intros Hpdf Hdocx. unfold load_file_with_real_pages.
  destruct (String.eqb_spec (Py.lower (path_suffix path)) ".pdf"); [done|].
  destruct (String.eqb_spec (Py.lower (path_suffix path)) ".docx"); [done|].
  done.
Qed.
End Skips.

(** C9, as the code has it.  A directory entry whose name does not end in
    .pdf or .docx is passed over without loading and without raising, and
    the loop goes on with the next entries from the same state; for a path
    with another extension the loader function returns no page and no
    type.  An entry with a supported name whose loading returns no page
    is skipped with the printed notice, and the loop goes on with the next
    entries, nothing but the trace having changed. *)
Theorem unsupported_or_empty_file_is_skipped
    (env : Chroma1.Env) (filename : string) (rest : list string)
    (st : Chroma1.State) :
  (Chroma1.supported_name filename = false →
   Chroma1.process_file env filename st = (Chroma1.Ok tt, st)
   ∧ Chroma1.process_files env (filename :: rest) st
     = Chroma1.process_files env rest st)
  ∧ (∀ path st0,
       Py.lower (Chroma1.path_suffix path) ≠ ".pdf" →
       Py.lower (Chroma1.path_suffix path) ≠ ".docx" →
       Chroma1.load_file_with_real_pages env path st0
       = (Chroma1.Ok ([], None), st0))
  ∧ (Chroma1.supported_name filename = true →
     ∀ doc_type st',
       Chroma1.load_file_with_real_pages env
         (Chroma1.path_join Chroma1.FILES_FOLDER filename)
         (Spec.announced filename st)
       = (Chroma1.Ok ([], doc_type), st') →
       Chroma1.process_file env filename st
       = (Chroma1.Ok tt, Spec.logged Chroma1.EvPrintSkipped st')
       ∧ Chroma1.process_files env (filename :: rest) st
         = Chroma1.process_files env rest
             (Spec.logged Chroma1.EvPrintSkipped st')).
Proof.
  split_and!.
  - intros Hs. rewrite process_files_cons.
    by rewrite process_file_unsupported.
  - intros path st0. apply load_unsupported.
  - intros Hs doc_type st' Hload. rewrite process_files_cons.
    rewrite process_file_supported, Hload by done. done.
Qed.

(** In the sample folder the text file is passed over: the run is the run
    of the two entries after it.  A PDF in which the loader finds no page
    is skipped with the notice, and the run goes on with the next entry. *)
Lemma unsupported_file_example :
  Chroma1.process_files Examples.sample_world
    ["notes.txt"; "empty.pdf"; "guide.pdf"] Chroma1.initial
  = Chroma1.process_files Examples.sample_world
      ["empty.pdf"; "guide.pdf"] Chroma1.initial
  ∧ Chroma1.process_files Examples.sample_world
      ["blank.pdf"; "guide.pdf"] Chroma1.initial
    = Chroma1.process_files Examples.sample_world ["guide.pdf"]
        (Spec.logged Chroma1.EvPrintSkipped
           (Spec.logged (Chroma1.EvLoadPdf "./pdfs/blank.pdf")
              (Spec.announced "blank.pdf" Chroma1.initial))).
Proof.
  split.
  - destruct (unsupported_or_empty_file_is_skipped Examples.sample_world
                "notes.txt" ["empty.pdf"; "guide.pdf"] Chroma1.initial)
      as [Hskip _].
    by destruct (Hskip eq_refl) as [_ ->].
  - destruct (unsupported_or_empty_file_is_skipped Examples.sample_world
                "blank.pdf" ["guide.pdf"] Chroma1.initial)
      as (_ & _ & Hblank).
    by destruct (Hblank eq_refl (Some "pdf") _ eq_refl) as [_ ->].
Defined.

(** A 0-byte PDF is handed to the PDF loader like any other file; the
    loader's exception is not caught, so the file is not skipped and the
    run ends there. *)
Lemma zero_byte_pdf_aborts_ingestion :
  ¬ (∀ env filename rest st,
       Chroma1.file_size env
         (Chroma1.path_join Chroma1.FILES_FOLDER filename) = 0%N →
       ∃ st', Chroma1.process_file env filename st = (Chroma1.Ok tt, st')
              ∧ Chroma1.process_files env (filename :: rest) st
                = Chroma1.process_files env rest st').
Proof.
  intros Hskip.
  destruct (Hskip Examples.sample_world "empty.pdf" ["guide.pdf"]
              Chroma1.initial eq_refl) as (st' & Hfile & _).
  vm_compute in Hfile. discriminate Hfile.
Qed.

(** The whole run over the sample folder: it ends with the loader's
    exception at the empty PDF, before the good PDF is looked at. *)
Lemma zero_byte_pdf_run :
  Chroma1.main Examples.sample_world Chroma1.initial
  = (Chroma1.Raise "Cannot read an empty file",
     Chroma1.mkState [] 0
       [Chroma1.EvMakedirs "./chroma_dbs";
        Chroma1.EvPrintProcessing "empty.pdf";
        Chroma1.EvPrintDbFolder "./chroma_dbs/chroma_empty";
        Chroma1.EvLoadPdf "./pdfs/empty.pdf"]).
Proof. reflexivity. Qed.

(** * Further properties of the code *)

(** ** Stripping *)

Section Strip.
Implicit Types (s t : string) (c : ascii).

Lemma lstrip_idemp s : Py.lstrip (Py.lstrip s) = Py.lstrip s.
Proof.
  induction s as [|c s IH]; [done|]. simpl.
  destruct (Py.isspace c) eqn:Hc; [done|]. simpl. by rewrite Hc.
Qed.

Lemma lstrip_head c s : Py.isspace c = false → Py.lstrip (String c s) = String c s.
Proof. intros Hc. simpl. by rewrite Hc. Qed.

(** Stripping on the right and on the left commute. *)
Lemma rstrip_lstrip s : Py.rstrip (Py.lstrip s) = Py.lstrip (Py.rstrip s).
Proof.
  induction s as [|c s IH]; [done|].
  destruct (Py.isspace c) eqn:Hc.
  - simpl Py.lstrip at 1. rewrite Hc, IH, rstrip_cons.
    destruct (Py.rstrip s) as [|d r]; [by rewrite Hc|].
    simpl. by rewrite Hc.
  - rewrite lstrip_head by done. rewrite rstrip_cons.
    destruct (Py.rstrip s) as [|d r]; rewrite ?Hc; by rewrite lstrip_head.
Qed.

Lemma strip_idemp s : Py.strip (Py.strip s) = Py.strip s.
Proof.
  unfold Py.strip.
  by rewrite rstrip_lstrip, rstrip_idemp, lstrip_idemp.
Qed.

Lemma strip_nonblank_head c s :
  Py.isspace c = false → ∃ t, Py.strip (String c s) = String c t.
Proof.
  intros Hc. unfold Py.strip. rewrite rstrip_cons.
  destruct (Py.rstrip s) as [|d r]; rewrite ?Hc, lstrip_head by done;
    by eexists.
Qed.
End Strip.

(** ** Citation entries and the block that carries them *)

Section Entries.
Import AgentService.

(** Every citation line is clean: no line boundary, no blank at either
    end, no "Page N/A". *)
Lemma citation_lines_clean text :
  forallb Spec.clean_citation (Spec.citation_lines text) = true.
Proof.
  apply forallb_forall. intros c Hc%list_elem_of_In.
  pose proof (citation_lines_no_linebreak text) as Hnl.
  rewrite Forall_forall in Hnl. specialize (Hnl c Hc).
  unfold Spec.citation_lines in Hc.
  destruct (Py.after_first "Citations:" text) as [part|];
    [|by apply elem_of_nil in Hc].
  apply list_elem_of_filter in Hc as [Hna Hc].
  apply list_elem_of_fmap in Hc as (line & -> & _).
  unfold Spec.clean_citation. rewrite Hnl. simpl.
  apply andb_true_iff. split; [|by apply Is_true_true].
  unfold Spec.entry_of. rewrite strip_idemp. apply String.eqb_refl.
Qed.

Lemma first_seen_clean l :
  forallb Spec.clean_citation l = true →
  forallb Spec.clean_citation (Spec.first_seen l) = true.
Proof.
  rewrite !forallb_forall. intros Hl c Hc. apply Hl.
  by apply list_elem_of_In, elem_of_first_seen, list_elem_of_In.
Qed.

Lemma collect_citations_clean (steps : list (AgentAction * string)) :
  forallb Spec.clean_citation (collect_citations steps) = true.
Proof.
  rewrite collect_citations_spec. apply first_seen_clean.
  apply forallb_forall. intros c (l & (step & <- & _)%in_map_iff & Hc)%in_concat.
  pose proof (citation_lines_clean step.2) as Hall.
  rewrite forallb_forall in Hall. by apply Hall.
Qed.

(** The block read back: after a text that does not hold the marker, the
    citation lines of the text followed by the block of clean citations
    are those citations. *)
Lemma citation_lines_of_block pre cits :
  Py.contains "Citations:" pre = false →
  forallb Spec.clean_citation cits = true →
  Spec.citation_lines (pre +:+ citation_block cits) = cits.
Proof.
  intros Hpre Hcs. unfold Spec.citation_lines.
  destruct cits as [|c cs].
  - unfold citation_block. rewrite append_nil_r.
    by rewrite after_first_None.
  - rewrite citation_block_cons, nl_append.
    rewrite after_first_skip by done.
    rewrite <- nl_append, after_marker.
    unfold Py.splitlines. rewrite nl_append.
    change (String Py.LF ?s) with ("" +:+ String Py.LF s).
    rewrite segments_line by done.
    assert (Forall (λ x, Spec.no_linebreak x = true ∧ x ≠ "")
              (map (λ c, "- " +:+ c) (c :: cs))) as Hall.
    { apply Forall_fmap, Forall_forall. intros x Hx. simpl.
      rewrite forallb_forall in Hcs.
      apply list_elem_of_In, Hcs, clean_citation_line in Hx. tauto. }
    rewrite segments_join;
      [|by eapply Forall_impl; [exact Hall|]; intros ? []|done].
    rewrite drop_last_empty_nonempty;
      [|by eapply Forall_impl; [exact Hall|]; intros ? []|done].
    rewrite fmap_cons. change (Py.strip "") with "".
    rewrite filter_cons_False by (by compute).
    by apply read_back_lines.
Qed.
End Entries.

(** X1.  What [extract_citations] returns is always clean: every entry
    is free of line boundaries, has no blank at either end and does not
    hold "Page N/A"; and a text without "Citations:" gives no entry. *)
Theorem extract_citations_entries (text : string) :
  Forall (λ c, Spec.no_linebreak c = true
               ∧ Py.strip c = c
               ∧ Py.contains "Page N/A" c = false)
    (AgentService.extract_citations text)
  ∧ (Py.contains "Citations:" text = false →
     AgentService.extract_citations text = []).
Proof.
  split.
  - rewrite extract_citations_spec. apply Forall_forall. intros c Hc.
    pose proof (citation_lines_clean text) as Hall.
    rewrite forallb_forall in Hall.
    apply list_elem_of_In, Hall, clean_citation_line in Hc.
    unfold Spec.has_page_na in Hc. tauto.
  - intros Hno. rewrite extract_citations_spec. unfold Spec.citation_lines.
    by rewrite after_first_None.
Qed.

(** X2.  What a tool prints is read back exactly: for a retrieval result
    with a context that is not blank and does not hold "Citations:", and
    with clean citations, [extract_citations] of
    [format_context_with_citations] gives the result's citations, in
    their order. *)
Theorem extract_of_format (r : AgentService.RetrievalResult) :
  Spec.clean_result r = true →
  AgentService.extract_citations (AgentService.format_context_with_citations r)
  = AgentService.citations r.
Proof.
  intros Hr. rewrite extract_citations_spec.
  by apply extract_format_round_trip.
Qed.

Lemma extract_of_format_example :
  AgentService.extract_citations
    (AgentService.format_context_with_citations Examples.result_1)
  = ["A, Page 3"; "B, Page 1"].
Proof. apply extract_of_format. reflexivity. Defined.

(** ** Removing the loop's citations, again *)

Section RemoveAgain.
Import AgentService.

Lemma marker_free_tail c s :
  Spec.marker_free (String c s) → Spec.marker_free s.
Proof. intros Hs i. apply (Hs (S i)). Qed.

(** Nothing is cut from a text in which no marker starts. *)
Lemma before_first_match_marker_free s :
  Spec.marker_free s → Py.before_first_match citations_re s = s.
Proof.
  induction s as [|c s IH]; intros Hs; rewrite before_first_match_eq.
  - by destruct (Py.matches_here citations_re "").
  - rewrite (Hs 0%nat : Py.matches_here citations_re (String c s) = false).
    f_equal. apply IH. by eapply marker_free_tail.
Qed.
End RemoveAgain.

(** X3.  [remove_existing_citations] is idempotent: applied to its own
    result it changes nothing. *)
Theorem remove_existing_citations_idempotent (answer : string) :
  AgentService.remove_existing_citations
    (AgentService.remove_existing_citations answer)
  = AgentService.remove_existing_citations answer.
Proof.
  pose proof (remove_existing_citations_marker_free answer) as Hfree.
  unfold AgentService.remove_existing_citations at 1.
  rewrite before_first_match_marker_free by done.
  unfold AgentService.remove_existing_citations. apply strip_idemp.
Qed.

(** X4.  An answer in which no own-line marker starts loses nothing but
    the blanks at its ends. *)
Theorem remove_existing_citations_without_marker (answer : string) :
  Spec.marker_free answer →
  AgentService.remove_existing_citations answer = Py.strip answer.
Proof.
  intros Hfree. unfold AgentService.remove_existing_citations.
  by rewrite before_first_match_marker_free.
Qed.

Lemma remove_existing_citations_without_marker_example :
  AgentService.remove_existing_citations
    (" Citations: see the fee schedule. " +:+ Py.nl)
  = "Citations: see the fee schedule.".
Proof.
  rewrite remove_existing_citations_without_marker; [reflexivity|].
  intros i. do 40 (destruct i as [|i]; [reflexivity|]). reflexivity.
Defined.

(** ** The assembled answer *)

(** X5.  The citation block of the assembled answer reads back as the
    recovered citations: with a non-empty registry, when the text kept of
    the loop's answer does not hold "Citations:", [extract_citations] of
    what [ask_agent] returns is the list of citations it appended. *)
Theorem ask_agent_answer_reads_back
    (env : AgentService.Env) (question : string) :
  AgentService.vectorstores env ≠ [] →
  let style :=
    (AgentService.retrieve_style_examples
       (AgentService.style_vectorstore env) question 5).1 in
  let result := AgentService.agent_executor env question style in
  Py.contains "Citations:"
    (AgentService.remove_existing_citations (AgentService.output result))
  = false →
  AgentService.extract_citations (AgentService.ask_agent env question).1
  = AgentService.collect_citations
      (default [] (AgentService.intermediate_steps result)).
Proof.
  intros Hreg style result Hbody.
  unfold AgentService.ask_agent.
  destruct (AgentService.vectorstores env) as [|vs rest]; [done|].
  unfold AgentService.bind, AgentService.agent_executor_invoke,
    AgentService.ret. simpl.
  rewrite extract_citations_spec.
  apply citation_lines_of_block; [done|].
  apply collect_citations_clean.
Qed.

Lemma ask_agent_answer_reads_back_example :
  AgentService.extract_citations
    (AgentService.ask_agent Examples.two_tool_env "What is covered?").1
  = ["A, Page 3"; "B, Page 1"; "C, Page 2"].
Proof.
  rewrite (ask_agent_answer_reads_back Examples.two_tool_env
             "What is covered?" ltac:(done) eq_refl).
  reflexivity.
Defined.

(** X6.  With a non-empty registry, [ask_agent] itself makes exactly
    two outside calls, in this order: one search of the style index for
    the question with [k = 5], then one call of the reasoning loop with
    the question and the style examples that search gave.  It searches no
    document index on its own. *)
Theorem ask_agent_calls (env : AgentService.Env) (question : string) :
  AgentService.vectorstores env ≠ [] →
  (AgentService.ask_agent env question).2
  = [AgentService.EvSearch
       (AgentService.persist_directory (AgentService.style_vectorstore env))
       question 5;
     AgentService.EvAgentInvoke question
       (AgentService.retrieve_style_examples
          (AgentService.style_vectorstore env) question 5).1].
Proof.
  intros Hreg. unfold AgentService.ask_agent.
  by destruct (AgentService.vectorstores env).
Qed.

Lemma ask_agent_calls_example :
  (AgentService.ask_agent Examples.two_tool_env "What is covered?").2
  = [AgentService.EvSearch "./chroma_style_db" "What is covered?" 5;
     AgentService.EvAgentInvoke "What is covered?" ""].
Proof. by rewrite ask_agent_calls. Defined.

(** ** The tools *)

Section Tools.
Import AgentService.

Lemma join_cons_head sep x l :
  ∃ rest, Py.join sep (x :: l) = x +:+ rest.
Proof.
  destruct l as [|y l].
  - exists "". by rewrite append_nil_r.
  - eexists. apply join_cons_cons.
Qed.

(** The context of a search that kept a chunk starts with "DB: ". *)
Lemma context_of_kept doc docs :
  ∃ rest, context (result_of_docs (doc :: docs)) = "DB: " +:+ rest.
Proof.
  rewrite result_of_docs_spec. cbn [context map].
  destruct (join_cons_head block_sep (Spec.doc_block doc)
              (map Spec.doc_block docs)) as [rest ->].
  unfold Spec.doc_block, context_block. rewrite !append_assoc. by eexists.
Qed.

Lemma result_without_context docs :
  context (result_of_docs docs) = "" → docs = [].
Proof.
  destruct docs as [|doc docs]; [done|].
  destruct (context_of_kept doc docs) as [rest ->]. done.
Qed.

Lemma filter_none {A} (f : A → bool) (l : list A) :
  Forall (λ x, f x = false) l → filter (λ x, f x) l = [].
Proof.
  induction 1 as [|x l Hx Hl IH]; [done|].
  rewrite filter_cons_False; [done|]. simpl. rewrite Hx. by intros [].
Qed.

Lemma format_of_kept doc docs :
  format_context_with_citations (result_of_docs (doc :: docs)) ≠ "".
Proof.
  unfold format_context_with_citations.
  destruct (context_of_kept doc docs) as [rest ->].
  change ("DB: " +:+ rest) with (String "D" ("B: " +:+ rest)).
  destruct (strip_nonblank_head "D" ("B: " +:+ rest) eq_refl) as [t ->].
  done.
Qed.
End Tools.

(** X7.  A per-index tool asks its index once, for 12 candidates, and
    keeps at most 8 chunks; it returns the empty text exactly when no chunk
    is kept, in particular when no candidate is below the threshold. *)
Theorem db_tool_output (vs : AgentService.Chroma) (query : string) :
  let cands := (AgentService.similarity_search_with_score vs query 12).1 in
  let kept := AgentService.kept_docs cands 8 in
  (AgentService.db_tool vs query).2
  = [AgentService.EvSearchWithScore
       (AgentService.persist_directory vs) query 12]
  ∧ (length kept ≤ 8)%nat
  ∧ ((AgentService.db_tool vs query).1 = "" ↔ kept = [])
  ∧ (Forall (λ ds, PrimFloat.ltb ds.2 AgentService.threshold = false) cands
     → (AgentService.db_tool vs query).1 = "").
Proof.
  intros cands kept.
  assert ((AgentService.db_tool vs query).1
          = AgentService.format_context_with_citations
              (AgentService.result_of_docs kept)) as Hout by done.
  assert (kept = [] → (AgentService.db_tool vs query).1 = "") as Hnone.
  { intros Hk. by rewrite Hout, Hk. }
  split_and!; try done.
  - unfold kept, AgentService.kept_docs. rewrite slice_to_nonneg by lia.
    rewrite length_take. lia.
  - split; [|done]. rewrite Hout. destruct kept as [|doc docs]; [done|].
    intros Hempty. by apply format_of_kept in Hempty.
  - intros Hall. apply Hnone. unfold kept, AgentService.kept_docs.
    rewrite slice_to_nonneg by lia.
    by rewrite (filter_none _ cands Hall).
Qed.

Section AllIndexes.
Import AgentService.

Lemma search_all_spec stores query :
  search_all stores query
  = (map (Props.searched query) stores, map (Props.fetch_of query) stores).
Proof.
  induction stores as [|[db_name vs] stores IH]; [done|].
  simpl search_all. unfold bind at 1. rewrite search_pdf_from_db_unfold.
  simpl fst. simpl snd. unfold bind. rewrite IH. simpl.
  by rewrite app_nil_r.
Qed.

Lemma merge_step_spec acc r :
  merge_step acc r
  = if Props.has_context r
    then (acc.1 ++ [Props.index_block r],
          fold_left od_set (citations r.2) acc.2)
    else acc.
Proof.
  unfold merge_step, Props.has_context, Props.index_block.
  by destruct (context r.2).
Qed.

Lemma fold_merge_step results acc :
  fold_left merge_step results acc
  = (acc.1 ++ map Props.index_block (filter Props.has_context results),
     fold_left od_set
       (concat (map (λ r, citations r.2)
                  (filter Props.has_context results)))
       acc.2).
Proof.
  revert acc. induction results as [|r results IH]; intros [blocks cits].
  - simpl. by rewrite app_nil_r.
  - simpl fold_left at 1. rewrite IH, merge_step_spec, filter_cons.
    destruct (Props.has_context r) eqn:Hr; simpl; [|done].
    by rewrite <- app_assoc, fold_left_app.
Qed.

(** A search result without context has no citation, so leaving it out
    loses none. *)
Lemma citations_of_found stores query :
  concat (map (λ r : string * RetrievalResult, citations r.2)
            (filter Props.has_context (map (Props.searched query) stores)))
  = concat (map (λ r : string * RetrievalResult, citations r.2)
              (map (Props.searched query) stores)).
Proof.
  induction stores as [|store stores IH]; [done|].
  cbn [map]. rewrite filter_cons.
  destruct (decide (Props.has_context (Props.searched query store)))
    as [Hc|Hc].
  - cbn [map concat]. by rewrite IH.
  - rewrite IH. cbn [map concat].
    assert (citations (Props.searched query store).2 = []) as ->; [|done].
    unfold Props.has_context in Hc.
    destruct (String.eqb_spec (context (Props.searched query store).2) "")
      as [Hempty|]; [|done].
    unfold Props.searched in *. rewrite search_pdf_from_db_unfold in *.
    cbn [fst snd] in *.
    apply result_without_context in Hempty. by rewrite Hempty.
Qed.
End AllIndexes.

(** X8.  The fallback tool searches every index of the registry once, in
    registry order, each time fetching 12 candidates.  If no index gives a
    context it returns the empty text; otherwise it returns the contexts
    of the indexes that gave one, each under its "=== name ===" header,
    followed by the citation block of all the results' citations,
    deduplicated in first-seen order across the indexes. *)
Theorem pdf_retriever_all_output (env : AgentService.Env) (query : string) :
  let results :=
    map (Props.searched query) (AgentService.vectorstores env) in
  let found := filter Props.has_context results in
  (AgentService.pdf_retriever_all env query).2
  = map (Props.fetch_of query) (AgentService.vectorstores env)
  ∧ (found = [] → (AgentService.pdf_retriever_all env query).1 = "")
  ∧ (found ≠ [] →
     (AgentService.pdf_retriever_all env query).1
     = Py.join AgentService.block_sep (map Props.index_block found)
       +:+ AgentService.citation_block
             (Spec.first_seen
                (concat (map (λ r, AgentService.citations r.2) results)))).
Proof.
  intros results found.
  unfold AgentService.pdf_retriever_all, AgentService.bind.
  rewrite search_all_spec. simpl fst. simpl snd.
  rewrite fold_merge_step. simpl fst. simpl snd.
  fold results. fold found.
  split_and!.
  - apply app_nil_r.
  - by intros ->.
  - intros Hfound. unfold found, results.
    rewrite citations_of_found, fold_od_set_nil.
    fold results. fold found.
    by destruct found.
Qed.

(** With no index at all the fallback tool makes no call and returns the
    empty text; over the sample index it returns one headed context and
    one citation. *)
Lemma pdf_retriever_all_example :
  AgentService.pdf_retriever_all Examples.empty_env "fees" = ("", [])
  ∧ AgentService.extract_citations
      (AgentService.pdf_retriever_all Examples.two_tool_env "fees").1
    = ["A, Page 3"].
Proof.
  destruct (pdf_retriever_all_output Examples.empty_env "fees")
    as (Ht & Hnone & _).
  destruct (pdf_retriever_all_output Examples.two_tool_env "fees")
    as (_ & _ & Hsome).
  split.
  - rewrite (surjective_pairing (AgentService.pdf_retriever_all _ _)).
    by rewrite Ht, Hnone.
  - rewrite Hsome by done. reflexivity.
Defined.

(** ** The registry found at start *)

Section Registry.
Import Startup.

Lemma dict_set_keys {V} (d : list (string * V)) k v :
  map fst (dict_set d k v) = od_set (map fst d) k.
Proof.
  unfold od_set. induction d as [|[k' v'] d IH]; [done|].
  cbn [dict_set]. destruct (String.eqb_spec k' k) as [->|Hne]; cbn [map fst].
  - by rewrite bool_decide_eq_true_2 by left.
  - rewrite IH. case_bool_decide as Hin.
    + by rewrite bool_decide_eq_true_2 by by right.
    + rewrite bool_decide_eq_false_2; [done|].
      rewrite not_elem_of_cons. by split.
Qed.

Lemma dict_set_Forall {V} (P : string * V → Prop) (d : list (string * V)) k v :
  Forall P d → P (k, v) → Forall P (dict_set d k v).
Proof.
  induction 1 as [|[k' v'] d Hx Hd IH]; intros Hkv; simpl.
  - by repeat constructor.
  - destruct (String.eqb k' k); constructor; auto.
Qed.

Lemma load_step_keys base_dir entries dbs :
  map fst (fold_left (load_step base_dir) entries dbs)
  = fold_left od_set (map entry_name (filter Props.is_index_folder entries))
      (map fst dbs).
Proof.
  revert dbs. induction entries as [|e entries IH]; intros dbs; [done|].
  simpl fold_left at 1. rewrite IH, filter_cons. unfold load_step.
  fold (Props.is_index_folder e).
  destruct (Props.is_index_folder e); simpl; [|done].
  by rewrite dict_set_keys.
Qed.

Lemma load_step_dirs base_dir entries dbs :
  Forall (λ s, AgentService.persist_directory s.2 = child_path base_dir s.1)
    dbs →
  Forall (λ s, AgentService.persist_directory s.2 = child_path base_dir s.1)
    (fold_left (load_step base_dir) entries dbs).
Proof.
  revert dbs. induction entries as [|e entries IH]; intros dbs Hdbs; [done|].
  simpl. apply IH. unfold load_step.
  destruct (entry_is_dir e && _); [|done].
  by apply dict_set_Forall.
Qed.
End Registry.

(** X9.  Listing a base directory gives a registry whose keys are the
    names of the entries that are directories and start with "chroma_",
    in listing order and without repetition; each index is opened at the
    path of its own folder.  Without a base directory the registry is
    empty and a warning is printed. *)
Theorem load_all_chroma_dbs_registry
    (entries : list Startup.Entry) (base_dir : string) :
  Startup.load_all_chroma_dbs Startup.Missing base_dir
  = (Chroma1.Returns [], [Startup.WarnBaseMissing base_dir])
  ∧ ∃ dbs,
      Startup.load_all_chroma_dbs (Startup.Dir entries) base_dir
      = (Chroma1.Returns dbs, [])
      ∧ map fst dbs
        = Spec.first_seen
            (map Startup.entry_name (filter Props.is_index_folder entries))
      ∧ NoDup (map fst dbs)
      ∧ (∀ k, k ∈ map fst dbs
              ↔ ∃ e, e ∈ entries ∧ Startup.entry_is_dir e = true
                     ∧ Py.startswith "chroma_" (Startup.entry_name e) = true
                     ∧ Startup.entry_name e = k)
      ∧ Forall (λ s, AgentService.persist_directory s.2
                     = Startup.child_path base_dir s.1) dbs.
Proof.
  split; [done|].
  eexists. split; [done|].
  assert (map fst (fold_left (Startup.load_step base_dir) entries [])
          = Spec.first_seen
              (map Startup.entry_name
                 (filter Props.is_index_folder entries))) as Hkeys.
  { by rewrite load_step_keys, fold_od_set_nil. }
  split_and!; try done.
  - rewrite Hkeys. apply NoDup_first_seen.
  - intros k. rewrite Hkeys, elem_of_first_seen, list_elem_of_fmap. split.
    + intros (e & -> & [He Hin]%list_elem_of_filter). exists e.
      unfold Props.is_index_folder in He.
      apply Is_true_true, andb_true_iff in He as [? ?]. done.
    + intros (e & Hin & Hdir & Hpre & <-). exists e. split; [done|].
      apply list_elem_of_filter. split; [|done].
      unfold Props.is_index_folder. by rewrite Hdir, Hpre.
  - by apply load_step_dirs.
Qed.

(** X10.  An index folder named by the ingestion is found at start: if
    the base directory holds a directory called as [db_name_of] calls the
    index of some file name, the registry has an index under that
    name, opened at that folder. *)
Theorem ingested_index_is_loaded
    (filename base_dir : string) (entries : list Startup.Entry)
    (e : Startup.Entry) :
  e ∈ entries →
  Startup.entry_is_dir e = true →
  Startup.entry_name e = Chroma1.db_name_of filename →
  ∃ dbs vs,
    Startup.load_all_chroma_dbs (Startup.Dir entries) base_dir
    = (Chroma1.Returns dbs, [])
    ∧ (Chroma1.db_name_of filename, vs) ∈ dbs
    ∧ AgentService.persist_directory vs
      = Startup.child_path base_dir (Chroma1.db_name_of filename).
Proof.
  intros Hin Hdir Hname.
  set (dbs := fold_left (Startup.load_step base_dir) entries []).
  assert (Chroma1.db_name_of filename ∈ map fst dbs) as Hkey.
  { unfold dbs. rewrite load_step_keys, fold_od_set_nil, elem_of_first_seen.
    apply list_elem_of_fmap. exists e. split; [done|].
    apply list_elem_of_filter. split; [|done].
    unfold Props.is_index_folder. rewrite Hdir, Hname.
    unfold Chroma1.db_name_of, Py.startswith. by rewrite prefix_append. }
  apply list_elem_of_fmap in Hkey as ([k vs] & Hk & Hkv). simpl in Hk.
  subst k. exists dbs, vs. split_and!; [done|done|].
  pose proof (load_step_dirs base_dir entries [] ltac:(done)) as Hdirs.
  rewrite Forall_forall in Hdirs. apply (Hdirs _ Hkv).
Qed.

Lemma ingested_index_is_loaded_example :
  ∃ dbs vs,
    Startup.load_all_chroma_dbs Props.sample_base "./chroma_dbs"
    = (Chroma1.Returns dbs, [])
    ∧ ("chroma_guide", vs) ∈ dbs
    ∧ AgentService.persist_directory vs = "chroma_dbs/chroma_guide".
Proof.
  apply (ingested_index_is_loaded "guide.pdf" "./chroma_dbs" _
           (Startup.mkEntry "chroma_guide" true (fun _ => [])));
    [left|done|done].
Defined.

Section ToolNames.
Import Startup.

Lemma tool_names env :
  map name (tools env)
  = map (λ k, "PDFRetriever_" +:+ k) (map fst (AgentService.vectorstores env))
    ++ ["PDFRetriever_ALL"].
Proof.
  unfold tools. rewrite map_app, !map_map. done.
Qed.
End ToolNames.

(** X11.  The catalog has one tool per index and the fallback tool last.
    When the registry keys are distinct and start with "chroma_", as the
    keys found at start do, all tool names are distinct: no index tool
    takes the name of another or of the fallback. *)
Theorem tool_names_distinct (env : AgentService.Env) :
  NoDup (map fst (AgentService.vectorstores env)) →
  Forall (λ k, Py.startswith "chroma_" k = true)
    (map fst (AgentService.vectorstores env)) →
  length (Startup.tools env) = S (length (AgentService.vectorstores env))
  ∧ NoDup (map Startup.name (Startup.tools env))
  ∧ last (map Startup.name (Startup.tools env)) = Some "PDFRetriever_ALL".
Proof.
  intros Hnodup Hpre. split_and!.
  - unfold Startup.tools. rewrite length_app, length_map. simpl. lia.
  - rewrite tool_names. apply NoDup_app. split_and!.
    + apply NoDup_fmap_2; [|done]. apply _.
    + intros x (k & -> & Hk)%list_elem_of_fmap Hall.
      apply list_elem_of_singleton in Hall.
      rewrite Forall_forall in Hpre. specialize (Hpre k Hk).
      change "PDFRetriever_ALL" with ("PDFRetriever_" +:+ "ALL") in Hall.
      apply (inj (String.app "PDFRetriever_")) in Hall. by subst k.
    + apply NoDup_singleton.
  - rewrite tool_names. apply last_snoc.
Qed.

Lemma tool_names_distinct_example :
  map Startup.name (Startup.tools Examples.two_tool_env)
  = ["PDFRetriever_chroma_guide"; "PDFRetriever_ALL"]
  ∧ NoDup (map Startup.name (Startup.tools Examples.two_tool_env)).
Proof.
  split; [reflexivity|].
  apply tool_names_distinct.
  - apply NoDup_singleton.
  - by repeat constructor.
Defined.

(** ** Index names as path components *)

Section NameComponents.
Import Chroma1.
Implicit Types (s a b : string) (c : ascii).

Lemma sub_name_chars_all s : Props.all_name_chars (sub_name_chars s) = true.
Proof.
  induction s as [|c s IH]; [done|]. simpl. rewrite IH, andb_true_r.
  by destruct (name_char c) eqn:Hc.
Qed.

Lemma sub_name_chars_fixed s :
  Props.all_name_chars s = true → sub_name_chars s = s.
Proof.
  induction s as [|c s IH]; [done|]. simpl.
  intros [Hc Hs]%andb_true_iff. by rewrite Hc, IH.
Qed.

Lemma all_name_chars_append a b :
  Props.all_name_chars (a +:+ b)
  = Props.all_name_chars a && Props.all_name_chars b.
Proof.
  induction a as [|c a IH]; [done|].
  rewrite append_cons. simpl. by rewrite IH, andb_assoc.
Qed.

Lemma all_name_chars_occurs c s :
  name_char c = false → Props.all_name_chars s = true →
  Spec.occurs c s = false.
Proof.
  intros Hc. induction s as [|d s IH]; [done|]. simpl.
  intros [Hd Hs]%andb_true_iff. rewrite IH by done.
  destruct (Ascii.eqb_spec d c) as [->|]; [congruence|done].
Qed.

Lemma split_on_cons sep c s :
  split_on sep (String c s)
  = if Ascii.eqb c sep then "" :: split_on sep s
    else match split_on sep s with
         | l :: ls => String c l :: ls
         | [] => [String c ""]
         end.
Proof. done. Qed.

Lemma split_on_none sep s : Spec.occurs sep s = false → split_on sep s = [s].
Proof.
  induction s as [|c s IH]; [done|]. simpl Spec.occurs.
  intros [Hc Hs]%orb_false_iff. by rewrite split_on_cons, Hc, IH.
Qed.

Lemma split_on_nonempty sep s : split_on sep s ≠ [].
Proof.
  destruct s as [|c s]; [done|]. rewrite split_on_cons.
  destruct (Ascii.eqb c sep); [done|]. by destruct (split_on sep s).
Qed.

Lemma split_on_append sep a b :
  split_on sep (a +:+ String sep b) = split_on sep a ++ split_on sep b.
Proof.
  induction a as [|c a IH].
  - change ("" +:+ String sep b) with (String sep b).
    by rewrite split_on_cons, Ascii.eqb_refl.
  - rewrite append_cons, !split_on_cons, IH.
    destruct (Ascii.eqb c sep); [done|].
    pose proof (split_on_nonempty sep a).
    by destruct (split_on sep a).
Qed.

Lemma rfind_dot_none s : Spec.occurs "." s = false → Py.rfind_dot s = None.
Proof.
  induction s as [|c s IH]; [done|]. simpl.
  intros [Hc Hs]%orb_false_iff. by rewrite IH, Hc.
Qed.

Lemma name_chars_component s :
  Props.all_name_chars s = true → s ≠ "" →
  negb (String.eqb s "") && negb (String.eqb s ".") = true.
Proof.
  intros Hs Hne. destruct s as [|c s]; [done|].
  destruct (String.eqb_spec (String c s) ".") as [Heq|]; [|done].
  injection Heq as -> ->. done.
Qed.

(** A name made of name characters is its own last component, and its
    own stem. *)
Lemma path_name_join a b :
  Props.all_name_chars b = true → b ≠ "" →
  path_name (path_join a b) = b.
Proof.
  intros Hb Hne. unfold path_name, path_parts, path_join.
  change ("/" +:+ b) with (String "/" b).
  rewrite split_on_append, filter_app.
  rewrite (split_on_none "/" b) by by apply all_name_chars_occurs.
  rewrite filter_cons_True, filter_nil.
  - apply last_last.
  - by rewrite name_chars_component.
Qed.

Lemma path_stem_name_chars s :
  Props.all_name_chars s = true → path_stem s = s.
Proof.
  intros Hs. unfold path_stem, suffix_start.
  assert (path_name s = s) as ->.
  { unfold path_name, path_parts.
    rewrite split_on_none by by apply all_name_chars_occurs.
    destruct s as [|c s]; [done|].
    rewrite filter_cons_True; [done|].
    by rewrite name_chars_component. }
  by rewrite rfind_dot_none by by apply all_name_chars_occurs.
Qed.
End NameComponents.

(** X12.  Whatever the file name, the index name starts with "chroma_",
    is made of the characters [A-Za-z0-9_-] only, so holds no "/" and no
    ".", and the index folder is a direct child of the base folder: the
    last component of its path is the index name itself. *)
Theorem index_folder_is_direct_child (filename : string) :
  Py.startswith "chroma_" (Chroma1.db_name_of filename) = true
  ∧ Props.all_name_chars (Chroma1.db_name_of filename) = true
  ∧ Spec.occurs "/" (Chroma1.db_name_of filename) = false
  ∧ Spec.occurs "." (Chroma1.db_name_of filename) = false
  ∧ Chroma1.path_name
      (Chroma1.path_join Chroma1.BASE_PERSIST_DIR
         (Chroma1.db_name_of filename))
    = Chroma1.db_name_of filename.
Proof.
  assert (Props.all_name_chars (Chroma1.db_name_of filename) = true) as Hall.
  { unfold Chroma1.db_name_of, Chroma1.sanitize_name.
    by rewrite all_name_chars_append, sub_name_chars_all. }
  split_and!; try done.
  - unfold Chroma1.db_name_of, Py.startswith. apply prefix_append.
  - by apply all_name_chars_occurs.
  - by apply all_name_chars_occurs.
  - by apply path_name_join.
Qed.

(** X13.  [sanitize_name] is idempotent: a sanitized name has no
    extension left to drop and no character left to replace. *)
Theorem sanitize_name_idempotent (name : string) :
  Chroma1.sanitize_name (Chroma1.sanitize_name name)
  = Chroma1.sanitize_name name.
Proof.
  pose proof (sub_name_chars_all (Chroma1.path_stem name)) as Hall.
  unfold Chroma1.sanitize_name at 1.
  rewrite path_stem_name_chars by done.
  by apply sub_name_chars_fixed.
Qed.

(** ** Converting Word files *)

Section Conversion.
Import Chroma1.

Lemma name_of_docx p :
  Py.lower (path_suffix p) = ".docx" → path_name p ≠ "".
Proof.
  intros Hext Hname. unfold path_suffix in Hext. by rewrite Hname in Hext.
Qed.

Lemma convert_docx_to_pdf_present env docx_path st :
  path_name docx_path ≠ "" →
  exists_at_start env (with_suffix docx_path ".pdf")
  || bool_decide (with_suffix docx_path ".pdf" ∈ created st) = true →
  convert_docx_to_pdf env docx_path st
  = (Ok (with_suffix docx_path ".pdf"), st).
Proof.
  intros Hname%String.eqb_neq Hex.
  unfold convert_docx_to_pdf, bind, path_exists.
  by rewrite Hname, Hex.
Qed.

Lemma convert_docx_to_pdf_absent env docx_path st :
  path_name docx_path ≠ "" →
  exists_at_start env (with_suffix docx_path ".pdf")
  || bool_decide (with_suffix docx_path ".pdf" ∈ created st) = false →
  convert_docx_to_pdf env docx_path st
  = match docx2pdf_convert env (path_str docx_path)
            (with_suffix docx_path ".pdf") with
    | Returns _ =>
        (Ok (with_suffix docx_path ".pdf"),
         mkState (with_suffix docx_path ".pdf" :: created st) (calls st)
           ((trace st ++ [EvPrintConverting (path_name docx_path)])
            ++ [EvConvert (path_str docx_path)
                  (with_suffix docx_path ".pdf")]))
    | Raises e =>
        (Raise e,
         mkState (created st) (calls st)
           ((trace st ++ [EvPrintConverting (path_name docx_path)])
            ++ [EvConvert (path_str docx_path)
                  (with_suffix docx_path ".pdf")]))
    end.
Proof.
  intros Hname%String.eqb_neq Hex.
  unfold convert_docx_to_pdf, bind, path_exists.
  rewrite Hname, Hex. unfold emit, convert, ret. simpl.
  by destruct (docx2pdf_convert env (path_str docx_path) _).
Qed.

End Conversion.

(** X14.  The converted PDF is reused.  The PDF of a Word file is looked
    for, and returned, under the path as [pathlib] writes it (the name's
    suffix replaced by ".pdf", a leading "./" and doubled slashes gone).
    When it exists already, at the start of the run or made earlier in
    it, [convert_docx_to_pdf] returns that path without converting and
    without any other effect; and after a call that succeeded, a second
    call for the same Word file converts nothing. *)
Theorem convert_docx_to_pdf_cached
    (env : Chroma1.Env) (docx_path : string) (st : Chroma1.State) :
  Chroma1.path_name docx_path ≠ "" →
  let pdf_path := Chroma1.with_suffix docx_path ".pdf" in
  (Chroma1.exists_at_start env pdf_path = true
   ∨ pdf_path ∈ Chroma1.created st →
   Chroma1.convert_docx_to_pdf env docx_path st
   = (Chroma1.Ok pdf_path, st))
  ∧ (∀ path st1,
       Chroma1.convert_docx_to_pdf env docx_path st
       = (Chroma1.Ok path, st1) →
       path = pdf_path
       ∧ Chroma1.convert_docx_to_pdf env docx_path st1
         = (Chroma1.Ok pdf_path, st1)).
Proof.
  intros Hname pdf_path. split.
  - intros Hex. apply convert_docx_to_pdf_present; [done|].
    apply orb_true_iff.
    destruct Hex as [?|Hin]; [by left|right]. by apply bool_decide_eq_true.
  - intros path st1.
    destruct (Chroma1.exists_at_start env pdf_path
              || bool_decide (pdf_path ∈ Chroma1.created st)) eqn:Hex.
    + rewrite convert_docx_to_pdf_present by done.
      intros [= <- <-]. split; [done|].
      by apply convert_docx_to_pdf_present.
    + rewrite convert_docx_to_pdf_absent by done. fold pdf_path.
      destruct (Chroma1.docx2pdf_convert env _ pdf_path); [|done].
      intros [= <- <-]. split; [done|].
      apply convert_docx_to_pdf_present; [done|]. fold pdf_path. simpl.
      rewrite bool_decide_eq_true_2 by left. apply orb_true_r.
Qed.

(** The PDF of "./pdfs/report.docx" is "pdfs/report.pdf": once made, it
    is returned as it is. *)
Lemma convert_docx_to_pdf_cached_example :
  Chroma1.convert_docx_to_pdf Examples.sample_world "./pdfs/report.docx"
    (Chroma1.mkState ["pdfs/report.pdf"] 0 [])
  = (Chroma1.Ok "pdfs/report.pdf",
     Chroma1.mkState ["pdfs/report.pdf"] 0 []).
Proof.
  apply (convert_docx_to_pdf_cached Examples.sample_world
           "./pdfs/report.docx" (Chroma1.mkState ["pdfs/report.pdf"] 0 []));
    [done|].
  right. apply list_elem_of_here.
Defined.

(** X15.  A Word file whose conversion fails is not loaded: the
    converter, called with the two paths as [pathlib] writes them, raises,
    and its exception leaves [load_file_with_real_pages] after the
    conversion was announced and tried; the PDF loader is never called
    and no file is recorded as created. *)
Theorem docx_conversion_failure
    (env : Chroma1.Env) (file_path e : string) (st : Chroma1.State) :
  let docx_path := Chroma1.path_str file_path in
  let pdf_path := Chroma1.with_suffix file_path ".pdf" in
  Py.lower (Chroma1.path_suffix file_path) = ".docx" →
  Chroma1.exists_at_start env pdf_path = false →
  pdf_path ∉ Chroma1.created st →
  Chroma1.docx2pdf_convert env docx_path pdf_path = Chroma1.Raises e →
  Chroma1.load_file_with_real_pages env file_path st
  = (Chroma1.Raise e,
     Spec.logged (Chroma1.EvConvert docx_path pdf_path)
       (Spec.logged
          (Chroma1.EvPrintConverting (Chroma1.path_name file_path)) st)).
Proof.
  intros docx_path pdf_path Hext Hstart Hmade Hconv.
  unfold Chroma1.load_file_with_real_pages. rewrite Hext. simpl.
  unfold Chroma1.bind at 1.
  rewrite convert_docx_to_pdf_absent.
  - fold pdf_path docx_path. by rewrite Hconv.
  - by apply name_of_docx.
  - fold pdf_path. rewrite Hstart. simpl. by apply bool_decide_eq_false.
Qed.

(** With a converter that fails, loading "./pdfs/report.docx" ends with
    the converter's exception, after the call
    [convert("pdfs/report.docx", "pdfs/report.pdf")]. *)
Lemma docx_conversion_failure_example :
  Chroma1.load_file_with_real_pages Props.broken_docx_world
    "./pdfs/report.docx" Chroma1.initial
  = (Chroma1.Raise "Word is not installed",
     Chroma1.mkState [] 0
       [Chroma1.EvPrintConverting "report.docx";
        Chroma1.EvConvert "pdfs/report.docx" "pdfs/report.pdf"]).
Proof.
  rewrite (docx_conversion_failure Props.broken_docx_world
             "./pdfs/report.docx" "Word is not installed");
    [reflexivity|reflexivity|reflexivity|apply not_elem_of_nil|reflexivity].
Defined.

(** ** The retry loop, whatever the service answers *)

Section RetryShape.
Import Chroma1.
Variables (env : Env) (chunks : list Document) (persist_dir : string).
Variable max_retries : Z.

Lemma retry_loop_shape fuel attempt st :
  (1 ≤ fuel)%nat → max_retries - attempt < Z.of_nat fuel →
  ∃ m : nat,
    attempt + Z.of_nat m ≤ Z.max attempt max_retries
    ∧ (retry_loop fuel env chunks persist_dir max_retries attempt st).2
      = mkState (created st) (calls st + m + 1)
          (trace st
           ++ Spec.retry_events chunks persist_dir max_retries attempt m
           ++ [EvFromDocuments chunks persist_dir])
    ∧ ((retry_loop fuel env chunks persist_dir max_retries attempt st).1
       = Ok tt
       ∧ from_documents env (calls st + m) = None
       ∨ ∃ e,
           (retry_loop fuel env chunks persist_dir max_retries attempt st).1
           = Raise e
           ∧ from_documents env (calls st + m) = Some e).
Proof.
  revert attempt st.
  induction fuel as [|fuel IH]; intros attempt st Hfuel Hbudget; [lia|].
  rewrite retry_loop_S. cbv zeta.
  assert (∀ res : Res unit,
            (res = Ok tt ∧ from_documents env (calls st) = None
             ∨ ∃ e, res = Raise e ∧ from_documents env (calls st) = Some e) →
            ∃ m : nat,
              attempt + Z.of_nat m ≤ Z.max attempt max_retries
              ∧ (res, mkState (created st) (S (calls st))
                        (trace st ++ [EvFromDocuments chunks persist_dir])).2
                = mkState (created st) (calls st + m + 1)
                    (trace st
                     ++ Spec.retry_events chunks persist_dir max_retries
                          attempt m
                     ++ [EvFromDocuments chunks persist_dir])
              ∧ ((res, mkState (created st) (S (calls st))
                         (trace st ++ [EvFromDocuments chunks persist_dir])).1
                 = Ok tt
                 ∧ from_documents env (calls st + m) = None
                 ∨ ∃ e,
                     (res, mkState (created st) (S (calls st))
                             (trace st
                              ++ [EvFromDocuments chunks persist_dir])).1
                     = Raise e
                     ∧ from_documents env (calls st + m) = Some e)) as Hstop.
  { intros res Hres. exists 0%nat. simpl. rewrite Nat.add_0_r.
    split_and!; [lia|f_equal; lia|done]. }
  destruct (from_documents env (calls st)) as [e|] eqn:Hout;
    [|apply Hstop; by left].
  destruct (is_overload (Py.lower e));
    [|apply Hstop; right; by exists e].
  destruct (Z.gtb_spec (attempt + 1) max_retries) as [Hgt|Hle];
    [apply Hstop; right; by exists e|].
  destruct (IH (attempt + 1)
              (mkState (created st) (S (calls st))
                 ((trace st ++ [EvFromDocuments chunks persist_dir])
                  ++ [EvPrintRetrying (10 * (attempt + 1)) (attempt + 1)
                        max_retries;
                      EvSleep (10 * (attempt + 1))]))
              ltac:(lia) ltac:(lia)) as (m & Hm & Hst & Hres).
  cbn [trace created calls] in *.
  exists (S m). split_and!.
  - lia.
  - rewrite Hst. simpl. f_equal; [lia|].
    by rewrite <- !app_assoc.
  - replace (calls st + S m)%nat with (S (calls st + m)) by lia.
    exact Hres.
Qed.
End RetryShape.

(** X16.  Whatever the embedding service answers and whatever the
    budget, [create_chroma_with_retry] makes [m + 1] calls for some
    [m <= max(0, max_retries)], all for the same chunks and directory,
    sleeps 10*1, ..., 10*m between them, records no created file, and
    ends as its last call ended: with the index, or with that call's
    exception. *)
Theorem create_chroma_with_retry_bounds
    (env : Chroma1.Env) (chunks : list Document) (persist_dir : string)
    (max_retries : Z) (st : Chroma1.State) :
  let run :=
    Chroma1.create_chroma_with_retry env chunks persist_dir max_retries st in
  ∃ m : nat,
    Z.of_nat m ≤ Z.max 0 max_retries
    ∧ run.2
      = Chroma1.mkState (Chroma1.created st) (Chroma1.calls st + m + 1)
          (Chroma1.trace st
           ++ Spec.retry_events chunks persist_dir max_retries 0 m
           ++ [Chroma1.EvFromDocuments chunks persist_dir])
    ∧ Spec.sleeps_of (Props.new_events st run.2) = Spec.linear_backoff 10 m
    ∧ (run.1 = Chroma1.Ok tt
       ∧ Chroma1.from_documents env (Chroma1.calls st + m) = None
       ∨ ∃ e, run.1 = Chroma1.Raise e
              ∧ Chroma1.from_documents env (Chroma1.calls st + m) = Some e).
Proof.
  intros run. unfold run, Chroma1.create_chroma_with_retry.
  destruct (retry_loop_shape env chunks persist_dir max_retries
              (S (Z.to_nat max_retries)) 0 st ltac:(lia) ltac:(lia))
    as (m & Hm & Hst & Hres).
  exists m. split_and!; try done.
  unfold Props.new_events. rewrite Hst. simpl.
  rewrite drop_app_length, sleeps_of_app, sleeps_of_retry_events. simpl.
  rewrite app_nil_r. apply map_ext. intros i. f_equal.
Qed.

(** With a budget of 0, an overload error on the first call is raised
    at once: one call, no sleep. *)
Lemma create_chroma_with_retry_no_budget :
  Chroma1.create_chroma_with_retry Examples.sample_world []
    "./chroma_dbs/chroma_guide" 0 Chroma1.initial
  = (Chroma1.Raise "Error code: 429 - Rate Limit reached",
     Chroma1.mkState [] 1
       [Chroma1.EvFromDocuments [] "./chroma_dbs/chroma_guide"]).
Proof. reflexivity. Qed.

(** ** The run over a folder *)

Section Run.
Import Chroma1.
Variable env : Env.

Lemma process_files_app pre post st :
  process_files env (pre ++ post) st
  = match process_files env pre st with
    | (Ok _, st') => process_files env post st'
    | (Raise e, st') => (Raise e, st')
    | (OutOfFuel, st') => (OutOfFuel, st')
    end.
Proof.
  revert st. induction pre as [|f pre IH]; intros st; [done|].
  simpl app. rewrite !process_files_cons.
  destruct (process_file env f st) as [[[]|e|] st']; [apply IH|done..].
Qed.

Lemma process_files_unsupported files st :
  Forall (λ f, supported_name f = false) files →
  process_files env files st = (Ok tt, st).
Proof.
  induction 1 as [|f files Hf Hfiles IH]; [done|].
  by rewrite process_files_cons, process_file_unsupported.
Qed.
End Run.

(** X17.  An exception in one file ends the run: when the files before
    it went through and the file raises, the run over the whole list
    ends with that exception in the state the file left, so no later
    file is announced, loaded or embedded. *)
Theorem exception_ends_the_run
    (env : Chroma1.Env) (before after : list string) (filename e : string)
    (st st1 st2 : Chroma1.State) :
  Chroma1.process_files env before st = (Chroma1.Ok tt, st1) →
  Chroma1.process_file env filename st1 = (Chroma1.Raise e, st2) →
  Chroma1.process_files env (before ++ filename :: after) st
  = (Chroma1.Raise e, st2).
Proof.
  intros Hbefore Hfile.
  by rewrite process_files_app, Hbefore, process_files_cons, Hfile.
Qed.

Lemma exception_ends_the_run_example :
  Chroma1.process_files Examples.sample_world
    (["notes.txt"] ++ "empty.pdf" :: ["guide.pdf"]) Chroma1.initial
  = (Chroma1.Raise "Cannot read an empty file",
     Spec.logged (Chroma1.EvLoadPdf "./pdfs/empty.pdf")
       (Spec.announced "empty.pdf" Chroma1.initial)).
Proof.
  by apply (exception_ends_the_run Examples.sample_world ["notes.txt"]
              ["guide.pdf"] "empty.pdf" _ _ Chroma1.initial).
Defined.

(** X18.  A folder in which no name ends in .pdf or .docx (whatever the
    case) is gone through without loading, converting or embedding
    anything: the run makes the base directory, prints that it is done,
    and changes nothing else. *)
Theorem nothing_to_ingest (env : Chroma1.Env) (st : Chroma1.State) :
  Forall (λ f, Chroma1.supported_name f = false) (Chroma1.listdir env) →
  Chroma1.main env st
  = (Chroma1.Ok tt,
     Spec.logged Chroma1.EvPrintDone
       (Spec.logged (Chroma1.EvMakedirs Chroma1.BASE_PERSIST_DIR) st)).
Proof.
  intros Hnone. unfold Chroma1.main, Chroma1.bind at 1, Chroma1.emit at 1.
  unfold Chroma1.bind at 1.
  by rewrite process_files_unsupported.
Qed.

Lemma nothing_to_ingest_example :
  Chroma1.main Props.text_only_world Chroma1.initial
  = (Chroma1.Ok tt,
     Chroma1.mkState [] 0
       [Chroma1.EvMakedirs "./chroma_dbs"; Chroma1.EvPrintDone]).
Proof.
  rewrite nothing_to_ingest; [reflexivity|]. by repeat constructor.
Defined.

(** ** From the ingestion to the citation *)

(** X19.  A chunk tagged by the ingestion is cited by the retriever
    under the file name: its source is the file name and its index the
    index name; if it carried the integer page [p], its citation is
    "{filename}, Page {p + 1}"; if it carried no page, it has the page
    "N/A", no citation, and its context block shows "N/A". *)
Theorem tagged_chunk_citation
    (filename : string) (doc_type : option string) (db_name : string)
    (i : nat) (c : Document) :
  let tagged := Chroma1.tag_chunk filename doc_type db_name i c in
  let before := default ∅ (metadata c) in
  AgentService.doc_source tagged = MStr filename
  ∧ AgentService.doc_db_name tagged = MStr db_name
  ∧ page_content tagged = page_content c
  ∧ (∀ p, before !! "page" = Some (MInt p) →
          Spec.doc_citation tagged
          = Some (filename +:+ ", Page " +:+ Py.str_of_int (p + 1)))
  ∧ (before !! "page" = None →
     AgentService.doc_page tagged = Some (MStr "N/A")
     ∧ Spec.doc_citation tagged = None
     ∧ Spec.doc_block tagged
       = "DB: " +:+ db_name +:+ Py.nl +:+ "Source: " +:+ filename
         +:+ ", Page: N/A" +:+ Py.nl +:+ page_content c).
Proof.
  intros tagged before.
  set (m := <["chunk_id" := MInt (Z.of_nat i)]>
              (<["db_name" := MStr db_name]>
                 (<["doc_type" := from_option MStr MNone doc_type]>
                    (<["source" := MStr filename]> before)))).
  assert (m !! "page" = before !! "page") as Hpage.
  { unfold m. by rewrite !lookup_insert_ne. }
  assert (AgentService.doc_meta tagged
          = match m !! "page" with
            | Some _ => m
            | None => <["page" := MStr "N/A"]> m
            end) as Hmeta by done.
  assert (AgentService.doc_source tagged = MStr filename) as Hsource.
  { unfold AgentService.doc_source. rewrite Hmeta.
    destruct (m !! "page"); unfold m; by simplify_map_eq. }
  assert (AgentService.doc_db_name tagged = MStr db_name) as Hdb.
  { unfold AgentService.doc_db_name. rewrite Hmeta.
    destruct (m !! "page"); unfold m; by simplify_map_eq. }
  split_and!; try done.
  - intros p Hp. unfold Spec.doc_citation, AgentService.doc_page.
    rewrite Hsource, Hmeta, Hpage, Hp. by rewrite Hpage, Hp.
  - intros Hnone.
    assert (AgentService.doc_page tagged = Some (MStr "N/A")) as Hp.
    { unfold AgentService.doc_page. rewrite Hmeta, Hpage, Hnone.
      by rewrite lookup_insert_eq. }
    split_and!; [done|by unfold Spec.doc_citation; rewrite Hp|].
    unfold Spec.doc_block, Spec.shown_page, AgentService.context_block.
    rewrite Hp, Hsource, Hdb. done.
Qed.

(** ** What a file's processing adds to the trace *)

Section Grows.
Import Chroma1.
Implicit Types (P : Event → Prop) (st : State).

Lemma grows_refl P n st : Props.grows P n st st.
Proof. split; [|lia]. exists []. by rewrite app_nil_r. Qed.

Lemma grows_trans P n1 n2 st1 st2 st3 :
  Props.grows P n1 st1 st2 → Props.grows P n2 st2 st3 →
  Props.grows P (n1 + n2) st1 st3.
Proof.
  intros [(t1 & Ht1 & HP1) Hc1] [(t2 & Ht2 & HP2) Hc2]. split; [|lia].
  exists (t1 ++ t2). rewrite Ht2, Ht1, <- app_assoc. split; [done|].
  by apply Forall_app.
Qed.

Lemma grows_logged P ev st : P ev → Props.grows P 0 st (Spec.logged ev st).
Proof.
  intros Hev. split; [|simpl; lia]. exists [ev]. by repeat constructor.
Qed.

Lemma grows_weaken P Q n st st' :
  (∀ ev, P ev → Q ev) → Props.grows P n st st' → Props.grows Q n st st'.
Proof.
  intros HPQ [(t & Ht & HP) Hc]. split; [|done]. exists t. split; [done|].
  by eapply Forall_impl.
Qed.

Lemma grows_more P n n' st st' :
  (n ≤ n')%nat → Props.grows P n st st' → Props.grows P n' st st'.
Proof. intros Hn [Ht Hc]. split; [done|lia]. Qed.

(** Loading adds no embedding call. *)
Lemma load_grows env file_path st :
  Props.grows Props.no_embedding 0 st
    (load_file_with_real_pages env file_path st).2.
Proof.
  unfold load_file_with_real_pages.
  destruct (String.eqb _ ".pdf").
  { unfold bind, PyPDFLoader_load, ret.
    destruct (pdf_load env file_path); simpl;
      by apply (grows_logged _ (EvLoadPdf file_path)). }
  destruct (String.eqb_spec (Py.lower (path_suffix file_path)) ".docx")
    as [Hext%name_of_docx|_]; [|apply grows_refl].
  unfold bind at 1.
  destruct (exists_at_start env (with_suffix file_path ".pdf")
            || bool_decide (with_suffix file_path ".pdf" ∈ created st))
    eqn:Hex.
  - rewrite convert_docx_to_pdf_present by done.
    unfold bind, PyPDFLoader_load, ret.
    destruct (pdf_load env _); simpl;
      by apply (grows_logged _ (EvLoadPdf _)).
  - rewrite convert_docx_to_pdf_absent by done.
    set (st1 := mkState (created st) (calls st)
                  ((trace st ++ [EvPrintConverting (path_name file_path)])
                   ++ [EvConvert (path_str file_path)
                         (with_suffix file_path ".pdf")])).
    assert (Props.grows Props.no_embedding 0 st st1) as Hst1.
    { apply (grows_trans _ 0 0 _
               (Spec.logged (EvPrintConverting (path_name file_path)) st)).
      - by apply grows_logged.
      - by apply (grows_logged _
                    (EvConvert (path_str file_path)
                       (with_suffix file_path ".pdf"))). }
    destruct (docx2pdf_convert env (path_str file_path) _); [|exact Hst1].
    unfold bind, PyPDFLoader_load, ret.
    apply (grows_trans _ 0 0 _ st1); [exact Hst1|].
    destruct (pdf_load env _); simpl.
    + split; [|simpl; lia]. exists [EvLoadPdf (with_suffix file_path ".pdf")].
      by repeat constructor.
    + split; [|simpl; lia]. exists [EvLoadPdf (with_suffix file_path ".pdf")].
      by repeat constructor.
Qed.

Lemma retry_events_Forall P chunks persist_dir max_retries attempt m :
  P (EvFromDocuments chunks persist_dir) →
  (∀ ev, Props.no_embedding ev → P ev) →
  Forall P (Spec.retry_events chunks persist_dir max_retries attempt m).
Proof.
  intros Hfd Hother. revert attempt.
  induction m as [|m IH]; intros attempt; [done|].
  simpl. repeat constructor; auto. by apply Hother. by apply Hother.
Qed.

(** The retry loop with the default budget adds at most 9 embedding
    calls, all for the same chunks and directory. *)
Lemma create_grows P env chunks persist_dir st :
  P (EvFromDocuments chunks persist_dir) →
  (∀ ev, Props.no_embedding ev → P ev) →
  Props.grows P 9 st
    (create_chroma_with_retry env chunks persist_dir default_max_retries st).2.
Proof.
  intros Hfd Hother. unfold create_chroma_with_retry.
  destruct (retry_loop_shape env chunks persist_dir default_max_retries
              (S (Z.to_nat default_max_retries)) 0 st ltac:(lia) ltac:(lia))
    as (m & Hm & -> & _).
  unfold default_max_retries in Hm. split; [|simpl; lia].
  eexists. split; [done|]. apply Forall_app. split.
  - by apply retry_events_Forall.
  - by repeat constructor.
Qed.

Lemma tag_chunk_tagged filename doc_type i c :
  Props.tagged_for filename
    (tag_chunk filename doc_type (db_name_of filename) i c).
Proof.
  set (m := <["chunk_id" := MInt (Z.of_nat i)]>
              (<["db_name" := MStr (db_name_of filename)]>
                 (<["doc_type" := from_option MStr MNone doc_type]>
                    (<["source" := MStr filename]>
                       (default ∅ (metadata c)))))).
  assert (AgentService.doc_meta
            (tag_chunk filename doc_type (db_name_of filename) i c)
          = match m !! "page" with
            | Some _ => m
            | None => <["page" := MStr "N/A"]> m
            end) as Hmeta by done.
  unfold Props.tagged_for, AgentService.doc_source, AgentService.doc_db_name,
    AgentService.doc_page.
  rewrite Hmeta.
  destruct (m !! "page") as [v|] eqn:Hp.
  - rewrite Hp. unfold m. split_and!; by simplify_map_eq.
  - unfold m. split_and!; by simplify_map_eq.
Qed.

Lemma tag_chunks_tagged filename doc_type chunks :
  Forall (Props.tagged_for filename)
    (tag_chunks filename doc_type (db_name_of filename) chunks).
Proof.
  apply Forall_forall. intros doc Hdoc. unfold tag_chunks in Hdoc.
  apply list_elem_of_lookup in Hdoc as [i Hi].
  rewrite list_lookup_imap in Hi.
  destruct (chunks !! i) as [c|]; [|done].
  injection Hi as <-. apply tag_chunk_tagged.
Qed.
End Grows.

(** X20.  Processing one directory entry only adds to the trace, makes
    at most 9 embedding calls, and every embedding call it makes goes to
    the entry's own index folder with chunks tagged for the entry: their
    source is the file name, their index the file's index name, and each
    has a page entry and a chunk number. *)
Theorem process_file_embeds
    (env : Chroma1.Env) (filename : string) (st : Chroma1.State) :
  Props.grows (Props.embedded_for filename) 9 st
    (Chroma1.process_file env filename st).2.
Proof.
  destruct (Chroma1.supported_name filename) eqn:Hs;
    [|rewrite process_file_unsupported by done; apply grows_refl].
  rewrite process_file_supported by done.
  assert (∀ ev, Props.no_embedding ev → Props.embedded_for filename ev)
    as Hother.
  { by intros []. }
  assert (Props.grows (Props.embedded_for filename) 0 st
            (Spec.announced filename st)) as Hann.
  { apply (grows_trans _ 0 0 _
             (Spec.logged (Chroma1.EvPrintProcessing filename) st));
      by apply grows_logged. }
  pose proof (load_grows env
                (Chroma1.path_join Chroma1.FILES_FOLDER filename)
                (Spec.announced filename st)) as Hload.
  apply (grows_weaken _ _ _ _ _ Hother) in Hload.
  pose proof (grows_trans _ _ _ _ _ _ Hann Hload) as Hloaded.
  destruct (Chroma1.load_file_with_real_pages env _ _)
    as [[[documents doc_type]|e|] st1]; simpl in Hloaded;
    [|simpl; apply (grows_more _ 0); [lia|exact Hloaded]..].
  destruct documents as [|d documents].
  { apply (grows_more _ 0); [lia|].
    apply (grows_trans _ 0 0 _ st1); [done|]. by apply grows_logged. }
  set (documents' := d :: documents) in *.
  set (chunks :=
         Chroma1.tag_chunks filename doc_type (Chroma1.db_name_of filename)
           (Chroma1.split_documents env documents')).
  set (persist_dir :=
         Chroma1.path_join Chroma1.BASE_PERSIST_DIR
           (Chroma1.db_name_of filename)).
  unfold Chroma1.bind at 1, Chroma1.emit at 1.
  unfold Chroma1.bind at 1, Chroma1.emit at 1.
  unfold Chroma1.bind at 1.
  set (st2 := Chroma1.mkState _ _ _).
  assert (Props.grows (Props.embedded_for filename) 0 st st2) as Hst2.
  { apply (grows_trans _ 0 0 _ st1); [done|].
    apply (grows_trans _ 0 0 _
             (Spec.logged (Chroma1.EvPrintLoaded (length documents')) st1));
      by apply grows_logged. }
  assert (Props.grows (Props.embedded_for filename) 9 st2
            (Chroma1.create_chroma_with_retry env chunks persist_dir
               Chroma1.default_max_retries st2).2) as Hcreate.
  { apply create_grows; [|done]. split; [done|].
    apply tag_chunks_tagged. }
  pose proof (grows_trans _ _ _ _ _ _ Hst2 Hcreate) as Hdone.
  destruct (Chroma1.create_chroma_with_retry env chunks persist_dir
              Chroma1.default_max_retries st2) as [[[]|e|] st3];
    simpl in *; try done.
  apply (grows_trans _ 9 0 _ st3); [done|]. by apply grows_logged.
Qed.

(** Over the sample folder, the good PDF is embedded after three
    refused calls: four calls, all into its own folder. *)
Lemma process_file_embeds_example :
  Chroma1.calls
    (Chroma1.process_file Examples.sample_world "guide.pdf"
       Chroma1.initial).2 = 4%nat
  ∧ Props.grows (Props.embedded_for "guide.pdf") 9 Chroma1.initial
      (Chroma1.process_file Examples.sample_world "guide.pdf"
         Chroma1.initial).2.
Proof. split; [reflexivity|apply process_file_embeds]. Defined.

(** ** The web views *)

Section Sessions.
Import App.
Context (env : App.Env).

Lemma logged_out_clear (st : State) :
  logged_in (mkState ∅ (store st) (calls st)) = false.
Proof. done. Qed.

Lemma serve_turned_away call st :
  logged_in st = false →
  Terms.logs_in env call = false →
  Terms.turned_away (serve env call st).1
  ∧ store (serve env call st).2 = store st
  ∧ calls (serve env call st).2 = calls st
  ∧ logged_in (serve env call st).2 = false.
Proof.
  intros Hout Hno. destruct call as [req| | |req|req]; simpl.
  - unfold login. simpl in Hno. destruct (method req); [done|].
    by rewrite Hno.
  - unfold index. by rewrite Hout.
  - done.
  - unfold chat_api. by rewrite Hout.
  - unfold feedback_api. by rewrite Hout.
Qed.

Lemma serve_all_cons call calls' st :
  serve_all env (call :: calls') st
  = ((serve env call st).1 :: (serve_all env calls' (serve env call st).2).1,
     (serve_all env calls' (serve env call st).2).2).
Proof.
  simpl. destruct (serve env call st) as [r st']. simpl.
  by destruct (serve_all env calls' st').
Qed.

Lemma serve_all_app before after st :
  serve_all env (before ++ after) st
  = ((serve_all env before st).1
     ++ (serve_all env after (serve_all env before st).2).1,
     (serve_all env after (serve_all env before st).2).2).
Proof.
  revert st. induction before as [|call before IH]; intros st.
  - cbn. by destruct (serve_all env after st).
  - rewrite <- app_comm_cons, !serve_all_cons. cbn [fst snd].
    by rewrite IH.
Qed.

Lemma serve_all_length calls' st :
  length (serve_all env calls' st).1 = length calls'.
Proof.
  revert st. induction calls' as [|call calls' IH]; intros st; [done|].
  rewrite serve_all_cons. simpl. by rewrite IH.
Qed.

Lemma serve_all_turned_away calls' st :
  logged_in st = false →
  Forall (λ call, Terms.logs_in env call = false) calls' →
  Forall Terms.turned_away (serve_all env calls' st).1
  ∧ store (serve_all env calls' st).2 = store st
  ∧ calls (serve_all env calls' st).2 = calls st
  ∧ logged_in (serve_all env calls' st).2 = false.
Proof.
  intros Hout Hno. revert st Hout.
  induction Hno as [|call calls' Hcall Hno IH]; intros st Hout; [done|].
  rewrite serve_all_cons. simpl.
  destruct (serve_turned_away call st Hout Hcall) as (Hr & Hs & Hc & Hl).
  destruct (IH _ Hl) as (Hrs & Hs' & Hc' & Hl').
  split; [by constructor|]. by rewrite Hs', Hc', Hs, Hc.
Qed.
End Sessions.

(** X21.  Without a login nothing is reached: from a session that is not
    logged in, whatever requests follow, as long as none of them is a
    POST to "/login" with the configured user name and password, every
    response turns the visitor away (to the login route, the login form
    or with 401 "Unauthorized"), the chat history file is left as it
    was, and neither an index nor the reasoning loop is called. *)
Theorem no_access_without_login
    (env : App.Env) (calls : list App.Call) (st : App.State) :
  App.logged_in st = false →
  Forall (λ call, Terms.logs_in env call = false) calls →
  Forall Terms.turned_away (App.serve_all env calls st).1
  ∧ App.store (App.serve_all env calls st).2 = App.store st
  ∧ App.calls (App.serve_all env calls st).2 = App.calls st.
Proof.
  intros Hout Hno.
  destruct (serve_all_turned_away env calls st Hout Hno) as (? & ? & ? & _).
  done.
Qed.

Lemma no_access_without_login_example :
  Forall Terms.turned_away
    (App.serve_all Terms.sample_app
       [App.to_index; App.to_chat_api (Terms.ask "What is the fee?");
        App.to_login (Terms.credentials "admin" "guess");
        App.to_feedback_api (Terms.ask "")] Terms.fresh).1
  ∧ App.store
      (App.serve_all Terms.sample_app
         [App.to_index; App.to_chat_api (Terms.ask "What is the fee?");
          App.to_login (Terms.credentials "admin" "guess");
          App.to_feedback_api (Terms.ask "")] Terms.fresh).2
    = App.store Terms.fresh
  ∧ App.calls
      (App.serve_all Terms.sample_app
         [App.to_index; App.to_chat_api (Terms.ask "What is the fee?");
          App.to_login (Terms.credentials "admin" "guess");
          App.to_feedback_api (Terms.ask "")] Terms.fresh).2
    = App.calls Terms.fresh.
Proof.
  apply (no_access_without_login Terms.sample_app); [done|].
  repeat constructor.
Defined.

(** X22.  Logging out ends the access, whatever came before: after a
    request to "/logout", and until a POST to "/login" with the
    configured user name and password, every response turns the visitor
    away, nothing is added to the chat history file, and no index or
    reasoning loop is called. *)
Theorem logout_ends_access
    (env : App.Env) (before after : list App.Call) (st : App.State) :
  Forall (λ call, Terms.logs_in env call = false) after →
  Forall Terms.turned_away
    (drop (length before)
       (App.serve_all env (before ++ App.to_logout :: after) st).1)
  ∧ App.store (App.serve_all env (before ++ App.to_logout :: after) st).2
    = App.store (App.serve_all env before st).2
  ∧ App.calls (App.serve_all env (before ++ App.to_logout :: after) st).2
    = App.calls (App.serve_all env before st).2.
Proof.
  intros Hno. rewrite serve_all_app, serve_all_cons. cbn [fst snd].
  rewrite drop_app_length'; [|by rewrite serve_all_length].
  cbn [App.serve App.logout fst snd].
  destruct (serve_all_turned_away env after
              (App.mkState ∅ (App.store (App.serve_all env before st).2)
                 (App.calls (App.serve_all env before st).2)))
    as (Hrs & Hs & Hc & _); [done..|].
  split; [by constructor|]. by rewrite Hs, Hc.
Qed.

Lemma logout_ends_access_example :
  Forall Terms.turned_away
    (drop 1
       (App.serve_all Terms.sample_app
          ([App.to_chat_api (Terms.ask "What is the fee?")]
           ++ App.to_logout
              :: [App.to_chat_api (Terms.ask "And the deadline?")])
          Terms.signed_in).1).
Proof.
  apply (logout_ends_access Terms.sample_app
           [App.to_chat_api (Terms.ask "What is the fee?")]
           [App.to_chat_api (Terms.ask "And the deadline?")]
           Terms.signed_in).
  repeat constructor.
Defined.

(** X23.  A chat request of a logged-in session with a prompt that is
    not empty is answered with what [ask_agent] returns for the prompt,
    and exactly that exchange is logged: the calls are those of
    [ask_agent], the clock is read once, and the file gets, after the
    rows it had, one row with the time, the chat id and title of the
    request, the prompt, the answer sent, and no feedback rating,
    comment or time.  The session is left as it was. *)
Theorem chat_api_answers_and_logs
    (env : App.Env) (req : App.Request) (st : App.State)
    (fields : gmap string string) (q : string) :
  App.logged_in st = true →
  App.data req = inr fields →
  fields !! "prompt" = Some q →
  q ≠ "" →
  let reply := AgentService.ask_agent (App.agent env) q in
  let st' := (App.chat_api env req st).2 in
  let n := ExcelStore.readings (App.store st) in
  (App.chat_api env req st).1 = App.jsonify [("bot_reply", reply.1)] 200
  ∧ App.calls st' = App.calls st ++ reply.2
  ∧ App.session st' = App.session st
  ∧ ExcelStore.readings (App.store st') = S n
  ∧ ExcelStore.sheet (App.store st')
    = Some (Terms.earlier_rows (App.excel env) (App.store st)
            ++ [ExcelStore.mkRow (ExcelStore.now (App.excel env) n)
                  (fields !! "chatId") (fields !! "chatTitle")
                  (Some q) (Some reply.1) None None None]).
Proof.
  intros Hin Hdata Hq Hne. cbv zeta. unfold App.chat_api.
  rewrite Hin, Hdata, Hq. simpl negb. cbv iota.
  apply String.eqb_neq in Hne. rewrite Hne.
  destruct (AgentService.ask_agent (App.agent env) q) as [answer events].
  simpl. unfold ExcelStore.save_qa_to_excel, Terms.earlier_rows. simpl.
  by destruct (ExcelStore.sheet (App.store st)).
Qed.

Lemma chat_api_answers_and_logs_example :
  (App.chat_api Terms.sample_app (Terms.ask "What is the fee?")
     Terms.signed_in).1
  = App.jsonify
      [("bot_reply",
        (AgentService.ask_agent Examples.two_tool_env "What is the fee?").1)]
      200.
Proof.
  by apply (chat_api_answers_and_logs Terms.sample_app
              (Terms.ask "What is the fee?") Terms.signed_in
              (<["prompt" := "What is the fee?"]> {["chatId" := "c1"]})
              "What is the fee?").
Defined.

(** X24.  A chat request of a logged-in session that brings no question
    changes nothing: no index or reasoning loop is called and nothing is
    logged.  When the body is JSON [null], an object without a prompt or
    with the empty prompt, or another JSON value that is false, the
    reply is the fixed "Please enter a valid question."; when the body
    is not sent as JSON the view ends with 415, when it does not parse
    with 400, and when it is a true JSON value that is no object with
    an AttributeError. *)
Theorem chat_api_without_question
    (env : App.Env) (req : App.Request) (st : App.State) :
  App.logged_in st = true →
  match App.body req with
  | App.not_json => App.chat_api env req st = (App.abort 415, st)
  | App.malformed_json => App.chat_api env req st = (App.abort 400, st)
  | App.json_object fields =>
      ExcelStore.truthy (fields !! "prompt") = false →
      App.chat_api env req st
      = (App.jsonify [("bot_reply", "Please enter a valid question.")] 200,
         st)
  | App.json_null | App.json_other _ false =>
      App.chat_api env req st
      = (App.jsonify [("bot_reply", "Please enter a valid question.")] 200,
         st)
  | App.json_other type_name true =>
      App.chat_api env req st
      = (App.raises ("AttributeError: '" +:+ type_name
                     +:+ "' object has no attribute 'get'"), st)
  end.
Proof.
  intros Hin. unfold App.chat_api, App.data. rewrite Hin. simpl negb.
  cbv iota.
  destruct (App.body req) as [| | |fields|type_name []]; try done.
  intros Hq. destruct (fields !! "prompt") as [q|]; [|done].
  simpl in Hq. apply negb_false_iff in Hq. by rewrite Hq.
Qed.

(** An empty prompt gets the fixed reply; a prompt sent as a form, not
    as JSON, gets 415. *)
Lemma chat_api_without_question_example :
  App.chat_api Terms.sample_app (Terms.ask "") Terms.signed_in
  = (App.jsonify [("bot_reply", "Please enter a valid question.")] 200,
     Terms.signed_in)
  ∧ App.chat_api Terms.sample_app Terms.form_post Terms.signed_in
    = (App.abort 415, Terms.signed_in).
Proof.
  split.
  - by apply (chat_api_without_question Terms.sample_app (Terms.ask "")
                Terms.signed_in).
  - by apply (chat_api_without_question Terms.sample_app Terms.form_post
                Terms.signed_in).
Defined.

(** X25.  A feedback request of a logged-in session whose body is a JSON
    object is stored as a new row after the rows the file had (the row
    of the answer it relates to is not updated), with the fields of the
    request; the row carries a feedback time exactly when a rating or a
    comment that is not empty was given, and a request with neither is
    stored all the same.  No index or reasoning loop is called.  A
    request whose body is not sent as JSON ends with 415 and stores
    nothing. *)
Theorem feedback_api_appends
    (env : App.Env) (req : App.Request) (st : App.State) :
  App.logged_in st = true →
  let st' := (App.feedback_api env req st).2 in
  let n := ExcelStore.readings (App.store st) in
  match App.body req with
  | App.json_object fields =>
      let given :=
        ExcelStore.truthy (fields !! "rating")
        || ExcelStore.truthy (fields !! "comment") in
      (App.feedback_api env req st).1 = App.jsonify [("status", "ok")] 200
      ∧ App.calls st' = App.calls st
      ∧ App.session st' = App.session st
      ∧ ExcelStore.sheet (App.store st')
        = Some (Terms.earlier_rows (App.excel env) (App.store st)
                ++ [ExcelStore.mkRow (ExcelStore.now (App.excel env) n)
                      (fields !! "chatId") (fields !! "chatTitle")
                      (fields !! "question") (fields !! "answer")
                      (fields !! "rating") (fields !! "comment")
                      (if given
                       then Some (ExcelStore.now (App.excel env) (S n))
                       else None)])
  | App.not_json => App.feedback_api env req st = (App.abort 415, st)
  | App.malformed_json => App.feedback_api env req st = (App.abort 400, st)
  | App.json_null | App.json_other _ false =>
      (App.feedback_api env req st).1 = App.jsonify [("status", "ok")] 200
      ∧ App.calls st' = App.calls st
      ∧ App.session st' = App.session st
      ∧ ExcelStore.sheet (App.store st')
        = Some (Terms.earlier_rows (App.excel env) (App.store st)
                ++ [ExcelStore.mkRow (ExcelStore.now (App.excel env) n)
                      None None None None None None None])
  | App.json_other type_name true =>
      App.feedback_api env req st
      = (App.raises ("AttributeError: '" +:+ type_name
                     +:+ "' object has no attribute 'get'"), st)
  end.
Proof.
  intros Hin. cbv zeta. unfold App.feedback_api, App.data. rewrite Hin.
  simpl negb. cbv iota.
  destruct (App.body req) as [| | |fields|type_name []]; try done.
  - unfold ExcelStore.save_qa_to_excel, Terms.earlier_rows. simpl.
    by destruct (ExcelStore.sheet (App.store st)).
  - unfold ExcelStore.save_qa_to_excel, Terms.earlier_rows.
    destruct (ExcelStore.truthy (fields !! "rating")
              || ExcelStore.truthy (fields !! "comment"));
      simpl; by destruct (ExcelStore.sheet (App.store st)).
  - unfold ExcelStore.save_qa_to_excel, Terms.earlier_rows. simpl.
    by destruct (ExcelStore.sheet (App.store st)).
Qed.

(** A rating is stored with its time, in a row of its own; a feedback
    sent as a form is refused and nothing is stored. *)
Lemma feedback_api_appends_example :
  ExcelStore.sheet
    (App.store
       (App.feedback_api Terms.sample_app (Terms.rate "up")
          Terms.signed_in).2)
  = Some [ExcelStore.mkRow "2024-05-01 10:00:00" (Some "c1") None
            (Some "What is the fee?") None (Some "up") None
            (Some "2024-05-01 10:00:01")]
  ∧ App.feedback_api Terms.sample_app Terms.form_post Terms.signed_in
    = (App.abort 415, Terms.signed_in).
Proof.
  split.
  - by destruct (feedback_api_appends Terms.sample_app (Terms.rate "up")
                   Terms.signed_in eq_refl) as (_ & _ & _ & ->).
  - by apply (feedback_api_appends Terms.sample_app Terms.form_post
                Terms.signed_in).
Defined.

(** ** The evaluation script *)

Section Evaluation.
Import EvaluateChromaQuality.
Context (db : AgentService.Chroma).

Lemma candidates_spec keywords docs : ∀ rank hit st,
  match candidates keywords rank docs hit st with
  | (Chroma1.Returns h, st') =>
      h = hit || existsb (Terms.holds keywords) docs
      ∧ successful_hits st' = successful_hits st
      ∧ metadata_coverage st'
        = metadata_coverage st ++ map Terms.complete docs
      ∧ Forall Terms.has_metadata docs
      ∧ ∃ lines, printed st' = printed st ++ lines
  | (Chroma1.Raises e, _) =>
      e ≠ "ZeroDivisionError: division by zero"
      ∧ ¬ Forall Terms.has_metadata docs
  end.
Proof.
  induction docs as [|[doc score] docs IH]; intros rank hit st.
  - cbn [candidates existsb map]. rewrite orb_false_r, app_nil_r.
    split_and!; [done..|]. exists []. by rewrite app_nil_r.
  - cbn [candidates]. unfold candidate.
    destruct (metadata doc) as [meta|] eqn:Hmeta.
    + match goal with
      | |- context [candidates keywords (S rank) docs ?h ?s] =>
          specialize (IH (S rank) h s);
          destruct (candidates keywords (S rank) docs h s) as [[h'|e] st']
      end.
      * destruct IH as (Hh & Hhits & Hcov & Hall & lines & Hlines).
        cbn [printed successful_hits metadata_coverage print] in *.
        split_and!.
        -- rewrite Hh. cbn [existsb]. unfold Terms.holds at 2.
           cbn [fst]. by destruct (all_in _ _), hit.
        -- done.
        -- rewrite Hcov, <- app_assoc. cbn [map app].
           unfold Terms.complete at 2. cbn [fst]. by rewrite Hmeta.
        -- constructor; [|done]. unfold Terms.has_metadata. cbn [fst].
           by rewrite Hmeta.
        -- eexists. by rewrite Hlines, <- !app_assoc.
      * destruct IH as [He Hnot]. split; [done|].
        intros Hall. apply Hnot. by inversion Hall.
    + split; [done|]. intros Hall. inversion Hall as [|? ? [? H] ?].
      cbn [fst] in H. by rewrite Hmeta in H.
Qed.

Lemma test_query_spec test st :
  match test_query db test st with
  | (Chroma1.Returns _, st') =>
      successful_hits st'
      = (successful_hits st + Terms.count_hits db [test])%nat
      ∧ metadata_coverage st'
        = metadata_coverage st ++ map Terms.complete (Terms.served db test)
      ∧ Forall Terms.has_metadata (Terms.served db test)
      ∧ ∃ lines, printed st' = printed st ++ lines
  | (Chroma1.Raises e, _) =>
      e ≠ "ZeroDivisionError: division by zero"
      ∧ ¬ Forall Terms.has_metadata (Terms.served db test)
  end.
Proof.
  unfold test_query.
  change (AgentService.similarity_search_with_score db (query test) k).1
    with (Terms.served db test).
  pose proof (candidates_spec (expected_keywords test) (Terms.served db test)
                1 false (print (Query (query test)) st)) as H.
  destruct (candidates _ _ _ _ _) as [[h|e] st']; [|done].
  destruct H as (Hh & Hhits & Hcov & Hall & lines & Hlines).
  cbn [printed successful_hits metadata_coverage print orb] in *.
  cbn [Terms.count_hits]. fold (Terms.hit db test) in Hh. rewrite <- Hh.
  destruct h; cbn [printed successful_hits metadata_coverage];
    (split_and!; [lia|done|done|]); eexists;
    by rewrite Hlines, <- app_assoc.
Qed.

Lemma test_queries_spec tests : ∀ st,
  match test_queries db tests st with
  | (Chroma1.Returns _, st') =>
      successful_hits st'
      = (successful_hits st + Terms.count_hits db tests)%nat
      ∧ metadata_coverage st'
        = metadata_coverage st
          ++ map Terms.complete (concat (map (Terms.served db) tests))
      ∧ Forall Terms.has_metadata (concat (map (Terms.served db) tests))
      ∧ ∃ lines, printed st' = printed st ++ lines
  | (Chroma1.Raises e, _) =>
      e ≠ "ZeroDivisionError: division by zero"
      ∧ ¬ Forall Terms.has_metadata (concat (map (Terms.served db) tests))
  end.
Proof.
  induction tests as [|test tests IH]; intros st.
  - cbn. rewrite app_nil_r. split_and!; [lia|done..|].
    exists []. by rewrite app_nil_r.
  - cbn [test_queries map concat Terms.count_hits].
    pose proof (test_query_spec test st) as H.
    destruct (test_query db test st) as [[[]|e] st1].
    + destruct H as (Hhits & Hcov & Hall & lines & Hlines).
      specialize (IH st1).
      destruct (test_queries db tests st1) as [[[]|e] st2].
      * destruct IH as (Hhits' & Hcov' & Hall' & lines' & Hlines').
        split_and!.
        -- rewrite Hhits', Hhits. cbn [Terms.count_hits]. lia.
        -- by rewrite Hcov', Hcov, map_app, app_assoc.
        -- by apply Forall_app.
        -- eexists. by rewrite Hlines', Hlines, <- app_assoc.
      * destruct IH as [He Hnot]. split; [done|].
        intros [? ?]%Forall_app. by apply Hnot.
    + destruct H as [He Hnot]. split; [done|].
      intros [? ?]%Forall_app. by apply Hnot.
Qed.

(** The script as a whole: how it ends, by what the index serves. *)
Lemma script_spec count :
  match script db count with
  | (Chroma1.Returns _, st) =>
      Terms.all_served db ≠ []
      ∧ Forall Terms.has_metadata (Terms.all_served db)
      ∧ ∃ lines,
          printed st
          = lines
            ++ [Interpretation
                  (retrieval_verdict
                     (PrimFloat.div
                        (float_of_nat
                           (Terms.count_hits db evaluation_queries))
                        (float_of_nat 3)));
                Interpretation
                  (metadata_verdict
                     (PrimFloat.div
                        (float_of_nat
                           (sum (map Terms.complete (Terms.all_served db))))
                        (float_of_nat (length (Terms.all_served db)))))]
  | (Chroma1.Raises e, _) =>
      (e = "ZeroDivisionError: division by zero"
       ∧ Terms.all_served db = [])
      ∨ (e ≠ "ZeroDivisionError: division by zero"
         ∧ ¬ Forall Terms.has_metadata (Terms.all_served db))
  end.
Proof.
  unfold script.
  match goal with
  | |- context [test_queries db evaluation_queries ?s] =>
      pose proof (test_queries_spec evaluation_queries s) as H;
      destruct (test_queries db evaluation_queries s) as [[[]|e] st]
  end; [|by right].
  destruct H as (Hhits & Hcov & Hall & lines & Hlines).
  fold (Terms.all_served db) in Hcov, Hall.
  cbn [printed successful_hits metadata_coverage print app] in *.
  rewrite Hcov, Hhits, length_map.
  destruct (length (Terms.all_served db)) as [|n] eqn:Hlen.
  - left. split; [done|]. by apply length_zero_iff_nil.
  - assert (Terms.all_served db ≠ []) as Hne by (by intros Hnil; rewrite Hnil in Hlen).
    split_and!; [exact Hne|exact Hall|].
    cbn [printed print Nat.add].
    exists (((((printed st ++ [Heading "=== FINAL METRICS ==="])
                ++ [Recall k
                      (PrimFloat.div
                         (float_of_nat
                            (Terms.count_hits db evaluation_queries))
                         (float_of_nat (length evaluation_queries)))])
               ++ [MetadataCompleteness
                     (PrimFloat.div
                        (float_of_nat
                           (sum (map Terms.complete (Terms.all_served db))))
                        (float_of_nat (S n)))])
              ++ [Heading "=== INTERPRETATION ==="])).
    by rewrite <- (app_assoc _ [_] [_]).
Qed.

Lemma count_hits_verdict :
  retrieval_verdict
    (PrimFloat.div (float_of_nat (Terms.count_hits db evaluation_queries))
       (float_of_nat 3))
  = Terms.verdict_of_hits (Terms.count_hits db evaluation_queries).
Proof.
  unfold evaluation_queries. cbn [Terms.count_hits].
  by destruct (Terms.hit db _), (Terms.hit db _), (Terms.hit db _).
Qed.

Lemma sum_le (l : list bool) : (sum l ≤ length l)%nat.
Proof. apply length_filter. Qed.

Lemma sum_all (l : list bool) :
  Forall (λ b, b = true) l → sum l = length l.
Proof.
  induction 1 as [|b l -> _ IH]; [done|].
  unfold sum in *. rewrite filter_cons_True by done. simpl. by rewrite IH.
Qed.

Lemma served_length test : (length (Terms.served db test) ≤ 5)%nat.
Proof. unfold Terms.served. rewrite length_take. unfold k. lia. Qed.

Lemma all_served_length : (length (Terms.all_served db) ≤ 15)%nat.
Proof.
  unfold Terms.all_served, evaluation_queries. cbn [map concat].
  rewrite !length_app. cbn [length].
  pose proof (served_length
                (mkTest "What is Net Present Value?"
                   ["present value"; "cash flows"])).
  pose proof (served_length
                (mkTest "Define Internal Rate of Return"
                   ["discount rate"; "net present value"])).
  pose proof (served_length
                (mkTest "What is EBITDA?" ["earnings"; "interest"; "tax"])).
  lia.
Qed.

Lemma Verdict_eqb_eq a b : Terms.Verdict_eqb a b = true → a = b.
Proof. by destruct a, b. Qed.

Lemma share_verdict (complete served : nat) :
  (complete ≤ served)%nat → (1 ≤ served ≤ 15)%nat →
  metadata_verdict
    (PrimFloat.div (float_of_nat complete) (float_of_nat served))
  = Terms.verdict_of_share complete served.
Proof.
  intros Hc Hs. apply Verdict_eqb_eq.
  assert (Terms.share_table 15 = true) as Htable by (vm_compute; reflexivity).
  unfold Terms.share_table in Htable.
  rewrite forallb_forall in Htable.
  specialize (Htable served). rewrite forallb_forall in Htable.
  apply Htable; apply in_seq; lia.
Qed.

Lemma ingested_complete (item : Document * float) :
  Terms.ingested item.1 → Terms.complete item = true.
Proof.
  intros (filename & doc_type & db_name & i & c & Hdoc).
  unfold Terms.complete. rewrite Hdoc. unfold Chroma1.tag_chunk.
  cbn [metadata]. unfold all_keys. cbn [forallb].
  set (m := <["chunk_id" := MInt (Z.of_nat i)]> _).
  assert (is_Some (m !! "source")) as Hs by (unfold m; by simplify_map_eq).
  assert (is_Some (m !! "chunk_id")) as Hi by (unfold m; by simplify_map_eq).
  destruct (m !! "page") as [v|] eqn:Hp.
  - rewrite Hp. rewrite !bool_decide_eq_true_2; done.
  - rewrite lookup_insert_ne, lookup_insert, lookup_insert_ne by done.
    rewrite !bool_decide_eq_true_2; done.
Qed.
End Evaluation.

(** X26.  The evaluation needs a served document: the script ends with
    ZeroDivisionError (at the metadata score, before any metric is
    printed) exactly when the index serves no candidate to any of the
    three test queries, as an empty index does. *)
Theorem evaluation_of_nothing_served (db : AgentService.Chroma) (count : Z) :
  (EvaluateChromaQuality.script db count).1
  = Chroma1.Raises "ZeroDivisionError: division by zero"
  ↔ Terms.all_served db = [].
Proof.
  pose proof (script_spec db count) as H.
  destruct (EvaluateChromaQuality.script db count) as [[[]|e] st]; simpl.
  - destruct H as [Hne _]. by split.
  - destruct H as [[-> Hnil]|[Hne Hnot]]; [done|].
    split; [by intros [= ->]|].
    intros Hnil. rewrite Hnil in Hnot. by destruct Hnot.
Qed.

(** X27.  When the script runs to its end, its two verdicts are, in
    counts: retrieval quality is high when all three test queries have a
    hit (a candidate among the first five that holds every expected
    keyword, letter case aside), medium when exactly two have, low
    otherwise; metadata quality is excellent when at least nine in ten
    of the candidates served have the keys "source", "page" and
    "chunk_id", and needs improvement otherwise. *)
Theorem interpretation_in_counts (db : AgentService.Chroma) (count : Z) :
  (EvaluateChromaQuality.script db count).1 = Chroma1.Returns tt →
  ∃ lines,
    EvaluateChromaQuality.printed (EvaluateChromaQuality.script db count).2
    = lines
      ++ [EvaluateChromaQuality.Interpretation
            (Terms.verdict_of_hits
               (Terms.count_hits db
                  EvaluateChromaQuality.evaluation_queries));
          EvaluateChromaQuality.Interpretation
            (Terms.verdict_of_share
               (EvaluateChromaQuality.sum
                  (map Terms.complete (Terms.all_served db)))
               (length (Terms.all_served db)))].
Proof.
  intros Hret. pose proof (script_spec db count) as H.
  destruct (EvaluateChromaQuality.script db count) as [[[]|e] st];
    [|done].
  destruct H as (Hne & _ & lines & Hlines). exists lines.
  cbn [snd]. rewrite Hlines, count_hits_verdict. clear Hlines Hret.
  rewrite (share_verdict
             (EvaluateChromaQuality.sum
                (map Terms.complete (Terms.all_served db)))
             (length (Terms.all_served db))); [reflexivity|..].
  - etrans; [apply sum_le|]. by rewrite length_map.
  - pose proof (all_served_length db) as Hle.
    destruct (Terms.all_served db); [done|]. cbn [length] in *. lia.
Qed.

Lemma interpretation_in_counts_example :
  ∃ lines,
    EvaluateChromaQuality.printed
      (EvaluateChromaQuality.script Terms.finance_index 2).2
    = lines
      ++ [EvaluateChromaQuality.Interpretation
            (Terms.verdict_of_hits
               (Terms.count_hits Terms.finance_index
                  EvaluateChromaQuality.evaluation_queries));
          EvaluateChromaQuality.Interpretation
            (Terms.verdict_of_share
               (EvaluateChromaQuality.sum
                  (map Terms.complete (Terms.all_served Terms.finance_index)))
               (length (Terms.all_served Terms.finance_index)))].
Proof.
  apply (interpretation_in_counts Terms.finance_index 2).
  vm_compute. reflexivity.
Defined.

(** X28.  An index built by the ingestion passes the metadata check:
    when every candidate the index serves to the test queries is a chunk
    as [chroma1.py] tags it, and there is at least one, the script runs
    to its end and its last line rates the metadata as excellent. *)
Theorem ingested_chunks_rate_excellent
    (db : AgentService.Chroma) (count : Z) :
  Terms.all_served db ≠ [] →
  Forall (λ item, Terms.ingested item.1) (Terms.all_served db) →
  (EvaluateChromaQuality.script db count).1 = Chroma1.Returns tt
  ∧ last
      (EvaluateChromaQuality.printed
         (EvaluateChromaQuality.script db count).2)
    = Some (EvaluateChromaQuality.Interpretation
              EvaluateChromaQuality.MetadataExcellent).
Proof.
  intros Hne Hing. pose proof (script_spec db count) as H.
  assert (Forall Terms.has_metadata (Terms.all_served db)) as Hmeta.
  { eapply Forall_impl; [exact Hing|].
    intros item (filename & doc_type & db_name & i & c & Hdoc).
    unfold Terms.has_metadata. rewrite Hdoc. by eexists. }
  destruct (EvaluateChromaQuality.script db count) as [[[]|e] st].
  - split; [done|]. destruct H as (_ & _ & lines & Hlines).
    cbn [snd]. rewrite Hlines.
    match goal with
    | |- context [lines ++ [?a; ?b]] =>
        change (lines ++ [a; b]) with (lines ++ [a] ++ [b])
    end.
    rewrite app_assoc, last_snoc. do 2 f_equal.
    clear Hlines.
    assert (EvaluateChromaQuality.sum
              (map Terms.complete (Terms.all_served db))
            = length (Terms.all_served db)) as Hsum.
    { rewrite sum_all; [by rewrite length_map|].
      apply Forall_map. eapply Forall_impl; [exact Hing|].
      intros item. apply ingested_complete. }
    rewrite Hsum. pose proof (all_served_length db) as Hle.
    rewrite share_verdict.
    + unfold Terms.verdict_of_share.
      destruct (Nat.leb_spec (9 * length (Terms.all_served db))
                  (10 * length (Terms.all_served db))); [done|lia].
    + done.
    + destruct (Terms.all_served db); [done|]. cbn [length] in *. lia.
  - destruct H as [[_ Hnil]|[_ Hnot]]; [done|]. by destruct Hnot.
Qed.

Lemma ingested_chunks_rate_excellent_example :
  (EvaluateChromaQuality.script Terms.finance_index 2).1
  = Chroma1.Returns tt
  ∧ last
      (EvaluateChromaQuality.printed
         (EvaluateChromaQuality.script Terms.finance_index 2).2)
    = Some (EvaluateChromaQuality.Interpretation
              EvaluateChromaQuality.MetadataExcellent).
Proof.
  apply (ingested_chunks_rate_excellent Terms.finance_index 2).
  - vm_compute. discriminate.
  - unfold Terms.all_served, Terms.served, Terms.finance_index.
    cbn [map concat firstn app AgentService.ranking
         EvaluateChromaQuality.evaluation_queries EvaluateChromaQuality.k].
    repeat constructor; cbn [fst]; by do 5 eexists.
Defined.
